(** * Hildegard suggestion form: a shallow embedding of [app.py]

    The Streamlit script [app.py] is modelled as a transition system: every
    user action triggers one run of the script, which reads and writes the
    session dictionary [st.session_state] and, on submission, the remote
    spreadsheet.  Python text is modelled by the [string] of its UTF-8
    encoding, with [str.strip] and [str.lower] working on its Unicode code
    points; integers by [Z]; the session dictionary by a
    record with one field per key; the spreadsheet by a list of worksheets;
    exceptions by a small state-and-error monad. *)

From Stdlib Require Import ZArith List Bool Lia Ascii String.
From Stdlib Require Import Numbers.DecimalString Numbers.DecimalZ.
Import ListNotations.
Local Open Scope Z_scope.
Local Open Scope string_scope.
Local Open Scope list_scope.

(** ** Python primitives used by the script *)

Module Py.

(** A Python [str] is a sequence of Unicode code points.  The [string] that
    models it holds its UTF-8 encoding, which is what a string literal of
    this file is; [decode] gives the code points back.  The tables below
    are those of Unicode 14.0 (CPython 3.11). *)

Definition ord8 (a : ascii) : N := N_of_ascii a.

Definition chr8 (n : N) : ascii := ascii_of_N n.

Definition continuation (a : ascii) : bool :=
  ((128 <=? ord8 a) && (ord8 a <? 192))%N.

(** The code points of a text: a byte below 128 stands for itself, a longer
    sequence for the code point it encodes.  A byte that starts no
    well-formed sequence, which no Python [str] gives, is passed on as it
    is. *)
Fixpoint decode (s : string) : list N :=
  match s with
  | EmptyString => []
  | String a r =>
      let b := ord8 a in
      let alone := b :: decode r in
      if (b <? 192)%N then alone
      else if (b <? 224)%N then
        match r with
        | String a1 r1 =>
            if continuation a1
            then ((b - 192) * 64 + (ord8 a1 - 128))%N :: decode r1
            else alone
        | EmptyString => alone
        end
      else if (b <? 240)%N then
        match r with
        | String a1 (String a2 r2) =>
            if continuation a1 && continuation a2
            then ((b - 224) * 4096 + (ord8 a1 - 128) * 64
                  + (ord8 a2 - 128))%N :: decode r2
            else alone
        | _ => alone
        end
      else
        match r with
        | String a1 (String a2 (String a3 r3)) =>
            if continuation a1 && continuation a2 && continuation a3
            then ((b - 240) * 262144 + (ord8 a1 - 128) * 4096
                  + (ord8 a2 - 128) * 64 + (ord8 a3 - 128))%N :: decode r3
            else alone
        | _ => alone
        end
  end.

(** The UTF-8 sequence of one code point. *)
Definition encode_cp (c : N) : string :=
  if (c <? 128)%N then String (chr8 c) EmptyString
  else if (c <? 2048)%N then
    String (chr8 (192 + c / 64))
      (String (chr8 (128 + c mod 64)) EmptyString)
  else if (c <? 65536)%N then
    String (chr8 (224 + c / 4096))
      (String (chr8 (128 + (c / 64) mod 64))
         (String (chr8 (128 + c mod 64)) EmptyString))
  else
    String (chr8 (240 + c / 262144))
      (String (chr8 (128 + (c / 4096) mod 64))
         (String (chr8 (128 + (c / 64) mod 64))
            (String (chr8 (128 + c mod 64)) EmptyString))).

Fixpoint encode (l : list N) : string :=
  match l with
  | [] => EmptyString
  | c :: r => (encode_cp c ++ encode r)%string
  end.

Definition in_ranges (c : N) (ranges : list (N * N)) : bool :=
  existsb (fun r => ((fst r <=? c) && (c <=? snd r))%N) ranges.

(** The code points [str.isspace] accepts and [str.strip] removes, as ranges. *)
Definition whitespace : list (N * N) :=
  [(9, 13); (28, 32); (133, 133); (160, 160); (5760, 5760); (8192, 8202);
   (8232, 8233); (8239, 8239); (8287, 8287); (12288, 12288)]%N.

(** The lowercase mapping of single code points: [(first, last, step, image of
    first)]; the code points [first, first + step, ..., last] are mapped to
    consecutive images at the same distance. *)
Definition lowercase : list (N * N * N * N) :=
  [(65, 90, 1, 97); (192, 214, 1, 224); (216, 222, 1, 248);
   (256, 302, 2, 257); (306, 310, 2, 307); (313, 327, 2, 314);
   (330, 374, 2, 331); (376, 376, 1, 255); (377, 381, 2, 378);
   (385, 385, 1, 595); (386, 388, 2, 387); (390, 390, 1, 596);
   (391, 391, 1, 392); (393, 394, 1, 598); (395, 395, 1, 396);
   (398, 398, 1, 477); (399, 399, 1, 601); (400, 400, 1, 603);
   (401, 401, 1, 402); (403, 403, 1, 608); (404, 404, 1, 611);
   (406, 406, 1, 617); (407, 407, 1, 616); (408, 408, 1, 409);
   (412, 412, 1, 623); (413, 413, 1, 626); (415, 415, 1, 629);
   (416, 420, 2, 417); (422, 422, 1, 640); (423, 423, 1, 424);
   (425, 425, 1, 643); (428, 428, 1, 429); (430, 430, 1, 648);
   (431, 431, 1, 432); (433, 434, 1, 650); (435, 437, 2, 436);
   (439, 439, 1, 658); (440, 440, 1, 441); (444, 444, 1, 445);
   (452, 452, 1, 454); (453, 453, 1, 454); (455, 455, 1, 457);
   (456, 456, 1, 457); (458, 458, 1, 460); (459, 475, 2, 460);
   (478, 494, 2, 479); (497, 497, 1, 499); (498, 500, 2, 499);
   (502, 502, 1, 405); (503, 503, 1, 447); (504, 542, 2, 505);
   (544, 544, 1, 414); (546, 562, 2, 547); (570, 570, 1, 11365);
   (571, 571, 1, 572); (573, 573, 1, 410); (574, 574, 1, 11366);
   (577, 577, 1, 578); (579, 579, 1, 384); (580, 580, 1, 649);
   (581, 581, 1, 652); (582, 590, 2, 583); (880, 882, 2, 881);
   (886, 886, 1, 887); (895, 895, 1, 1011); (902, 902, 1, 940);
   (904, 906, 1, 941); (908, 908, 1, 972); (910, 911, 1, 973);
   (913, 929, 1, 945); (931, 939, 1, 963); (975, 975, 1, 983);
   (984, 1006, 2, 985); (1012, 1012, 1, 952); (1015, 1015, 1, 1016);
   (1017, 1017, 1, 1010); (1018, 1018, 1, 1019); (1021, 1023, 1, 891);
   (1024, 1039, 1, 1104); (1040, 1071, 1, 1072); (1120, 1152, 2, 1121);
   (1162, 1214, 2, 1163); (1216, 1216, 1, 1231); (1217, 1229, 2, 1218);
   (1232, 1326, 2, 1233); (1329, 1366, 1, 1377); (4256, 4293, 1, 11520);
   (4295, 4295, 1, 11559); (4301, 4301, 1, 11565); (5024, 5103, 1, 43888);
   (5104, 5109, 1, 5112); (7312, 7354, 1, 4304); (7357, 7359, 1, 4349);
   (7680, 7828, 2, 7681); (7838, 7838, 1, 223); (7840, 7934, 2, 7841);
   (7944, 7951, 1, 7936); (7960, 7965, 1, 7952); (7976, 7983, 1, 7968);
   (7992, 7999, 1, 7984); (8008, 8013, 1, 8000); (8025, 8031, 2, 8017);
   (8040, 8047, 1, 8032); (8072, 8079, 1, 8064); (8088, 8095, 1, 8080);
   (8104, 8111, 1, 8096); (8120, 8121, 1, 8112); (8122, 8123, 1, 8048);
   (8124, 8124, 1, 8115); (8136, 8139, 1, 8050); (8140, 8140, 1, 8131);
   (8152, 8153, 1, 8144); (8154, 8155, 1, 8054); (8168, 8169, 1, 8160);
   (8170, 8171, 1, 8058); (8172, 8172, 1, 8165); (8184, 8185, 1, 8056);
   (8186, 8187, 1, 8060); (8188, 8188, 1, 8179); (8486, 8486, 1, 969);
   (8490, 8490, 1, 107); (8491, 8491, 1, 229); (8498, 8498, 1, 8526);
   (8544, 8559, 1, 8560); (8579, 8579, 1, 8580); (9398, 9423, 1, 9424);
   (11264, 11311, 1, 11312); (11360, 11360, 1, 11361);
   (11362, 11362, 1, 619); (11363, 11363, 1, 7549); (11364, 11364, 1, 637);
   (11367, 11371, 2, 11368); (11373, 11373, 1, 593); (11374, 11374, 1, 625);
   (11375, 11375, 1, 592); (11376, 11376, 1, 594); (11378, 11378, 1, 11379);
   (11381, 11381, 1, 11382); (11390, 11391, 1, 575);
   (11392, 11490, 2, 11393); (11499, 11501, 2, 11500);
   (11506, 11506, 1, 11507); (42560, 42604, 2, 42561);
   (42624, 42650, 2, 42625); (42786, 42798, 2, 42787);
   (42802, 42862, 2, 42803); (42873, 42875, 2, 42874);
   (42877, 42877, 1, 7545); (42878, 42886, 2, 42879);
   (42891, 42891, 1, 42892); (42893, 42893, 1, 613);
   (42896, 42898, 2, 42897); (42902, 42920, 2, 42903);
   (42922, 42922, 1, 614); (42923, 42923, 1, 604); (42924, 42924, 1, 609);
   (42925, 42925, 1, 620); (42926, 42926, 1, 618); (42928, 42928, 1, 670);
   (42929, 42929, 1, 647); (42930, 42930, 1, 669); (42931, 42931, 1, 43859);
   (42932, 42946, 2, 42933); (42948, 42948, 1, 42900);
   (42949, 42949, 1, 642); (42950, 42950, 1, 7566);
   (42951, 42953, 2, 42952); (42960, 42960, 1, 42961);
   (42966, 42968, 2, 42967); (42997, 42997, 1, 42998);
   (65313, 65338, 1, 65345); (66560, 66599, 1, 66600);
   (66736, 66771, 1, 66776); (66928, 66938, 1, 66967);
   (66940, 66954, 1, 66979); (66956, 66962, 1, 66995);
   (66964, 66965, 1, 67003); (68736, 68786, 1, 68800);
   (71840, 71871, 1, 71872); (93760, 93791, 1, 93792);
   (125184, 125217, 1, 125218)]%N.

(** The code points with the property Cased, as ranges. *)
Definition cased_ranges : list (N * N) :=
  [(65, 90); (97, 122); (170, 170); (181, 181); (186, 186); (192, 214);
   (216, 246); (248, 442); (444, 447); (452, 659); (661, 696); (704, 705);
   (736, 740); (837, 837); (880, 883); (886, 887); (890, 893); (895, 895);
   (902, 902); (904, 906); (908, 908); (910, 929); (931, 1013);
   (1015, 1153); (1162, 1327); (1329, 1366); (1376, 1416); (4256, 4293);
   (4295, 4295); (4301, 4301); (4304, 4346); (4349, 4351); (5024, 5109);
   (5112, 5117); (7296, 7304); (7312, 7354); (7357, 7359); (7424, 7615);
   (7680, 7957); (7960, 7965); (7968, 8005); (8008, 8013); (8016, 8023);
   (8025, 8025); (8027, 8027); (8029, 8029); (8031, 8061); (8064, 8116);
   (8118, 8124); (8126, 8126); (8130, 8132); (8134, 8140); (8144, 8147);
   (8150, 8155); (8160, 8172); (8178, 8180); (8182, 8188); (8305, 8305);
   (8319, 8319); (8336, 8348); (8450, 8450); (8455, 8455); (8458, 8467);
   (8469, 8469); (8473, 8477); (8484, 8484); (8486, 8486); (8488, 8488);
   (8490, 8493); (8495, 8500); (8505, 8505); (8508, 8511); (8517, 8521);
   (8526, 8526); (8544, 8575); (8579, 8580); (9398, 9449); (11264, 11492);
   (11499, 11502); (11506, 11507); (11520, 11557); (11559, 11559);
   (11565, 11565); (42560, 42605); (42624, 42653); (42786, 42887);
   (42891, 42894); (42896, 42954); (42960, 42961); (42963, 42963);
   (42965, 42969); (42997, 42998); (43000, 43002); (43824, 43866);
   (43868, 43880); (43888, 43967); (64256, 64262); (64275, 64279);
   (65313, 65338); (65345, 65370); (66560, 66639); (66736, 66771);
   (66776, 66811); (66928, 66938); (66940, 66954); (66956, 66962);
   (66964, 66965); (66967, 66977); (66979, 66993); (66995, 67001);
   (67003, 67004); (67456, 67456); (67459, 67461); (67463, 67504);
   (67506, 67514); (68736, 68786); (68800, 68850); (71840, 71903);
   (93760, 93823); (119808, 119892); (119894, 119964); (119966, 119967);
   (119970, 119970); (119973, 119974); (119977, 119980); (119982, 119993);
   (119995, 119995); (119997, 120003); (120005, 120069); (120071, 120074);
   (120077, 120084); (120086, 120092); (120094, 120121); (120123, 120126);
   (120128, 120132); (120134, 120134); (120138, 120144); (120146, 120485);
   (120488, 120512); (120514, 120538); (120540, 120570); (120572, 120596);
   (120598, 120628); (120630, 120654); (120656, 120686); (120688, 120712);
   (120714, 120744); (120746, 120770); (120772, 120779); (122624, 122633);
   (122635, 122654); (125184, 125251); (127280, 127305); (127312, 127337);
   (127344, 127369)]%N.

(** The code points with the property Case_Ignorable, as ranges. *)
Definition case_ignorable_ranges : list (N * N) :=
  [(39, 39); (46, 46); (58, 58); (94, 94); (96, 96); (168, 168); (173, 173);
   (175, 175); (180, 180); (183, 184); (688, 879); (884, 885); (890, 890);
   (900, 901); (903, 903); (1155, 1161); (1369, 1369); (1375, 1375);
   (1425, 1469); (1471, 1471); (1473, 1474); (1476, 1477); (1479, 1479);
   (1524, 1524); (1536, 1541); (1552, 1562); (1564, 1564); (1600, 1600);
   (1611, 1631); (1648, 1648); (1750, 1757); (1759, 1768); (1770, 1773);
   (1807, 1807); (1809, 1809); (1840, 1866); (1958, 1968); (2027, 2037);
   (2042, 2042); (2045, 2045); (2070, 2093); (2137, 2139); (2184, 2184);
   (2192, 2193); (2200, 2207); (2249, 2306); (2362, 2362); (2364, 2364);
   (2369, 2376); (2381, 2381); (2385, 2391); (2402, 2403); (2417, 2417);
   (2433, 2433); (2492, 2492); (2497, 2500); (2509, 2509); (2530, 2531);
   (2558, 2558); (2561, 2562); (2620, 2620); (2625, 2626); (2631, 2632);
   (2635, 2637); (2641, 2641); (2672, 2673); (2677, 2677); (2689, 2690);
   (2748, 2748); (2753, 2757); (2759, 2760); (2765, 2765); (2786, 2787);
   (2810, 2815); (2817, 2817); (2876, 2876); (2879, 2879); (2881, 2884);
   (2893, 2893); (2901, 2902); (2914, 2915); (2946, 2946); (3008, 3008);
   (3021, 3021); (3072, 3072); (3076, 3076); (3132, 3132); (3134, 3136);
   (3142, 3144); (3146, 3149); (3157, 3158); (3170, 3171); (3201, 3201);
   (3260, 3260); (3263, 3263); (3270, 3270); (3276, 3277); (3298, 3299);
   (3328, 3329); (3387, 3388); (3393, 3396); (3405, 3405); (3426, 3427);
   (3457, 3457); (3530, 3530); (3538, 3540); (3542, 3542); (3633, 3633);
   (3636, 3642); (3654, 3662); (3761, 3761); (3764, 3772); (3782, 3782);
   (3784, 3789); (3864, 3865); (3893, 3893); (3895, 3895); (3897, 3897);
   (3953, 3966); (3968, 3972); (3974, 3975); (3981, 3991); (3993, 4028);
   (4038, 4038); (4141, 4144); (4146, 4151); (4153, 4154); (4157, 4158);
   (4184, 4185); (4190, 4192); (4209, 4212); (4226, 4226); (4229, 4230);
   (4237, 4237); (4253, 4253); (4348, 4348); (4957, 4959); (5906, 5908);
   (5938, 5939); (5970, 5971); (6002, 6003); (6068, 6069); (6071, 6077);
   (6086, 6086); (6089, 6099); (6103, 6103); (6109, 6109); (6155, 6159);
   (6211, 6211); (6277, 6278); (6313, 6313); (6432, 6434); (6439, 6440);
   (6450, 6450); (6457, 6459); (6679, 6680); (6683, 6683); (6742, 6742);
   (6744, 6750); (6752, 6752); (6754, 6754); (6757, 6764); (6771, 6780);
   (6783, 6783); (6823, 6823); (6832, 6862); (6912, 6915); (6964, 6964);
   (6966, 6970); (6972, 6972); (6978, 6978); (7019, 7027); (7040, 7041);
   (7074, 7077); (7080, 7081); (7083, 7085); (7142, 7142); (7144, 7145);
   (7149, 7149); (7151, 7153); (7212, 7219); (7222, 7223); (7288, 7293);
   (7376, 7378); (7380, 7392); (7394, 7400); (7405, 7405); (7412, 7412);
   (7416, 7417); (7468, 7530); (7544, 7544); (7579, 7679); (8125, 8125);
   (8127, 8129); (8141, 8143); (8157, 8159); (8173, 8175); (8189, 8190);
   (8203, 8207); (8216, 8217); (8228, 8228); (8231, 8231); (8234, 8238);
   (8288, 8292); (8294, 8303); (8305, 8305); (8319, 8319); (8336, 8348);
   (8400, 8432); (11388, 11389); (11503, 11505); (11631, 11631);
   (11647, 11647); (11744, 11775); (11823, 11823); (12293, 12293);
   (12330, 12333); (12337, 12341); (12347, 12347); (12441, 12446);
   (12540, 12542); (40981, 40981); (42232, 42237); (42508, 42508);
   (42607, 42610); (42612, 42621); (42623, 42623); (42652, 42655);
   (42736, 42737); (42752, 42785); (42864, 42864); (42888, 42890);
   (42994, 42996); (43000, 43001); (43010, 43010); (43014, 43014);
   (43019, 43019); (43045, 43046); (43052, 43052); (43204, 43205);
   (43232, 43249); (43263, 43263); (43302, 43309); (43335, 43345);
   (43392, 43394); (43443, 43443); (43446, 43449); (43452, 43453);
   (43471, 43471); (43493, 43494); (43561, 43566); (43569, 43570);
   (43573, 43574); (43587, 43587); (43596, 43596); (43632, 43632);
   (43644, 43644); (43696, 43696); (43698, 43700); (43703, 43704);
   (43710, 43711); (43713, 43713); (43741, 43741); (43756, 43757);
   (43763, 43764); (43766, 43766); (43867, 43871); (43881, 43883);
   (44005, 44005); (44008, 44008); (44013, 44013); (64286, 64286);
   (64434, 64450); (65024, 65039); (65043, 65043); (65056, 65071);
   (65106, 65106); (65109, 65109); (65279, 65279); (65287, 65287);
   (65294, 65294); (65306, 65306); (65342, 65342); (65344, 65344);
   (65392, 65392); (65438, 65439); (65507, 65507); (65529, 65531);
   (66045, 66045); (66272, 66272); (66422, 66426); (67456, 67461);
   (67463, 67504); (67506, 67514); (68097, 68099); (68101, 68102);
   (68108, 68111); (68152, 68154); (68159, 68159); (68325, 68326);
   (68900, 68903); (69291, 69292); (69446, 69456); (69506, 69509);
   (69633, 69633); (69688, 69702); (69744, 69744); (69747, 69748);
   (69759, 69761); (69811, 69814); (69817, 69818); (69821, 69821);
   (69826, 69826); (69837, 69837); (69888, 69890); (69927, 69931);
   (69933, 69940); (70003, 70003); (70016, 70017); (70070, 70078);
   (70089, 70092); (70095, 70095); (70191, 70193); (70196, 70196);
   (70198, 70199); (70206, 70206); (70367, 70367); (70371, 70378);
   (70400, 70401); (70459, 70460); (70464, 70464); (70502, 70508);
   (70512, 70516); (70712, 70719); (70722, 70724); (70726, 70726);
   (70750, 70750); (70835, 70840); (70842, 70842); (70847, 70848);
   (70850, 70851); (71090, 71093); (71100, 71101); (71103, 71104);
   (71132, 71133); (71219, 71226); (71229, 71229); (71231, 71232);
   (71339, 71339); (71341, 71341); (71344, 71349); (71351, 71351);
   (71453, 71455); (71458, 71461); (71463, 71467); (71727, 71735);
   (71737, 71738); (71995, 71996); (71998, 71998); (72003, 72003);
   (72148, 72151); (72154, 72155); (72160, 72160); (72193, 72202);
   (72243, 72248); (72251, 72254); (72263, 72263); (72273, 72278);
   (72281, 72283); (72330, 72342); (72344, 72345); (72752, 72758);
   (72760, 72765); (72767, 72767); (72850, 72871); (72874, 72880);
   (72882, 72883); (72885, 72886); (73009, 73014); (73018, 73018);
   (73020, 73021); (73023, 73029); (73031, 73031); (73104, 73105);
   (73109, 73109); (73111, 73111); (73459, 73460); (78896, 78904);
   (92912, 92916); (92976, 92982); (92992, 92995); (94031, 94031);
   (94095, 94111); (94176, 94177); (94179, 94180); (110576, 110579);
   (110581, 110587); (110589, 110590); (113821, 113822); (113824, 113827);
   (118528, 118573); (118576, 118598); (119143, 119145); (119155, 119170);
   (119173, 119179); (119210, 119213); (119362, 119364); (121344, 121398);
   (121403, 121452); (121461, 121461); (121476, 121476); (121499, 121503);
   (121505, 121519); (122880, 122886); (122888, 122904); (122907, 122913);
   (122915, 122916); (122918, 122922); (123184, 123197); (123566, 123566);
   (123628, 123631); (125136, 125142); (125252, 125259); (127995, 127999);
   (917505, 917505); (917536, 917631); (917760, 917999)]%N.


(** [str.isspace] of one character. *)
Definition isspace (c : N) : bool := in_ranges c whitespace.

Fixpoint lstrip (l : list N) : list N :=
  match l with
  | [] => []
  | c :: r => if isspace c then lstrip r else l
  end.

Fixpoint rstrip (l : list N) : list N :=
  match l with
  | [] => []
  | c :: r =>
      match rstrip r with
      | [] => if isspace c then [] else [c]
      | r' => c :: r'
      end
  end.

(** [s.strip()] *)
Definition strip (s : string) : string :=
  encode (rstrip (lstrip (decode s))).

(** Python truthiness of a [str]: the empty string is falsy. *)
Definition truthy (s : string) : bool :=
  match s with EmptyString => false | String _ _ => true end.

(** The text holds nothing but whitespace. *)
Definition all_space (s : string) : bool := forallb isspace (decode s).

(** The lowercase of one code point when it is a single code point. *)
Definition to_lower (c : N) : N :=
  match
    find (fun r =>
            match r with
            | (first, last, step, _) =>
                ((first <=? c) && (c <=? last)
                 && ((c - first) mod step =? 0))%N
            end) lowercase
  with
  | Some (first, _, _, image) => (image + (c - first))%N
  | None => c
  end.

Definition capital_sigma : N := 931.      (* U+03A3 *)
Definition small_sigma : N := 963.        (* U+03C3 *)
Definition final_sigma : N := 962.        (* U+03C2 *)
Definition capital_i_dot : N := 304.      (* U+0130 *)

(** The full lowercase mapping: one code point has a lowercase of two. *)
Definition to_lower_full (c : N) : list N :=
  if (c =? capital_i_dot)%N then [105; 775]%N else [to_lower c].

Definition cased (c : N) : bool := in_ranges c cased_ranges.

Definition case_ignorable (c : N) : bool := in_ranges c case_ignorable_ranges.

Fixpoint skip_ignorable (l : list N) : list N :=
  match l with
  | [] => []
  | c :: r => if case_ignorable c then skip_ignorable r else l
  end.

(** Whether a capital sigma is the last letter of a word: a cased letter
    comes before it and none after it, case-ignorable characters set aside.
    [before] is the text before the sigma, nearest character first. *)
Definition is_final_sigma (before after : list N) : bool :=
  match skip_ignorable before with
  | [] => false
  | c :: _ =>
      cased c
      && match skip_ignorable after with
         | [] => true
         | c' :: _ => negb (cased c')
         end
  end.

Fixpoint lower_from (before l : list N) : list N :=
  match l with
  | [] => []
  | c :: r =>
      (if (c =? capital_sigma)%N
       then [if is_final_sigma before r then final_sigma else small_sigma]
       else to_lower_full c)
      ++ lower_from (c :: before) r
  end.

(** [s.lower()], as its code points. *)
Definition lower (s : string) : list N := lower_from [] (decode s).

Fixpoint startswith (p s : list N) : bool :=
  match p, s with
  | [], _ => true
  | _ :: _, [] => false
  | a :: p', b :: s' => (a =? b)%N && startswith p' s'
  end.

(** [needle in hay] on texts: substring search, position by position. *)
Fixpoint contains (needle hay : list N) : bool :=
  startswith needle hay ||
  match hay with
  | [] => false
  | _ :: r => contains needle r
  end.

(** [str(n)] and [f"{n}"] for an [int]. *)
Definition str_int (n : Z) : string := NilEmpty.string_of_int (Z.to_int n).

(** [l[:limit]]: a negative bound counts from the end. *)
Definition slice_to {A : Type} (limit : Z) (l : list A) : list A :=
  if (0 <=? limit)%Z then firstn (Z.to_nat limit) l
  else firstn (Z.to_nat (Z.of_nat (List.length l) + limit)) l.

(** [Series.unique()]: first occurrences, in order of appearance. *)
Fixpoint unique (l : list string) : list string :=
  match l with
  | [] => []
  | x :: r => x :: filter (fun y => negb (String.eqb y x)) (unique r)
  end.

(** Membership in a [set] built from a list of strings. *)
Definition mem (x : string) (l : list string) : bool :=
  existsb (String.eqb x) l.

(** *** Facts about the primitives *)

Lemma decode_empty_iff s : decode s = [] <-> s = EmptyString.
Proof.
  split; [|intros ->; reflexivity].
  destruct s as [|a r]; [reflexivity|].
  cbn [decode]. cbv zeta.
  repeat match goal with
         | |- context [if ?b then _ else _] => destruct b
         | |- context [match ?x with EmptyString => _ | String _ _ => _ end] =>
             destruct x
         end; discriminate.
Qed.

Lemma encode_empty_iff l : encode l = EmptyString <-> l = [].
Proof.
  split; [|intros ->; reflexivity].
  destruct l as [|c r]; [reflexivity|].
  cbn [encode]. unfold encode_cp.
  repeat match goal with
         | |- context [if ?b then _ else _] => destruct b
         end; discriminate.
Qed.

Lemma ord8_chr8 n : (n < 256)%N -> ord8 (chr8 n) = n.
Proof. intros H. unfold ord8, chr8. apply N_ascii_embedding, H. Qed.

Lemma continuation_chr8 n : (n < 64)%N -> continuation (chr8 (128 + n)) = true.
Proof.
  intros H. unfold continuation. rewrite ord8_chr8 by lia.
  apply andb_true_iff. split; [apply N.leb_le | apply N.ltb_lt]; lia.
Qed.

Lemma ord8_continuation n : (n < 64)%N -> (ord8 (chr8 (128 + n)) - 128 = n)%N.
Proof. intros H. rewrite ord8_chr8 by lia. lia. Qed.

Lemma decode_cons a r :
  decode (String a r)
  = let b := ord8 a in
    let alone := b :: decode r in
    if (b <? 192)%N then alone
    else if (b <? 224)%N then
      match r with
      | String a1 r1 =>
          if continuation a1
          then ((b - 192) * 64 + (ord8 a1 - 128))%N :: decode r1
          else alone
      | EmptyString => alone
      end
    else if (b <? 240)%N then
      match r with
      | String a1 (String a2 r2) =>
          if continuation a1 && continuation a2
          then ((b - 224) * 4096 + (ord8 a1 - 128) * 64
                + (ord8 a2 - 128))%N :: decode r2
          else alone
      | _ => alone
      end
    else
      match r with
      | String a1 (String a2 (String a3 r3)) =>
          if continuation a1 && continuation a2 && continuation a3
          then ((b - 240) * 262144 + (ord8 a1 - 128) * 4096
                + (ord8 a2 - 128) * 64 + (ord8 a3 - 128))%N :: decode r3
          else alone
      | _ => alone
      end.
Proof. reflexivity. Qed.

(** A code point is read back from its UTF-8 sequence. *)
Lemma decode_encode_cp (c : N) (s : string) :
  (c < 1114112)%N ->
  decode (encode_cp c ++ s) = c :: decode s.
Proof.
  intros Hc. unfold encode_cp.
  assert (M1 : (c mod 64 < 64)%N) by (apply N.mod_lt; lia).
  assert (M2 : ((c / 64) mod 64 < 64)%N) by (apply N.mod_lt; lia).
  assert (M3 : ((c / 4096) mod 64 < 64)%N) by (apply N.mod_lt; lia).
  pose proof (N.div_mod c 64 ltac:(lia)) as D1.
  destruct (N.ltb_spec c 128) as [L1|L1].
  - cbn [append]. rewrite decode_cons. cbv zeta.
    rewrite ord8_chr8 by lia.
    destruct (N.ltb_spec c 192); [reflexivity | lia].
  - destruct (N.ltb_spec c 2048) as [L2|L2].
    + cbn [append]. rewrite decode_cons. cbv zeta.
      assert (c / 64 < 32)%N by (apply N.Div0.div_lt_upper_bound; lia).
      assert (2 <= c / 64)%N by (apply N.div_le_lower_bound; lia).
      rewrite (ord8_chr8 (192 + c / 64)) by lia.
      destruct (N.ltb_spec (192 + c / 64) 192); [lia|].
      destruct (N.ltb_spec (192 + c / 64) 224); [|lia].
      rewrite continuation_chr8, ord8_continuation by assumption.
      f_equal. lia.
    + pose proof (N.div_mod (c / 64) 64 ltac:(lia)) as D2.
      assert (Q : (c / 64 / 64 = c / 4096)%N)
        by (rewrite N.Div0.div_div; reflexivity).
      destruct (N.ltb_spec c 65536) as [L3|L3].
      * cbn [append]. rewrite decode_cons. cbv zeta.
        assert (c / 4096 < 16)%N by (apply N.Div0.div_lt_upper_bound; lia).
        rewrite (ord8_chr8 (224 + c / 4096)) by lia.
        destruct (N.ltb_spec (224 + c / 4096) 192); [lia|].
        destruct (N.ltb_spec (224 + c / 4096) 224); [lia|].
        destruct (N.ltb_spec (224 + c / 4096) 240); [|lia].
        rewrite !continuation_chr8, !ord8_continuation by assumption.
        cbn [andb]. f_equal. lia.
      * pose proof (N.div_mod (c / 4096) 64 ltac:(lia)) as D3.
        assert (Q' : (c / 4096 / 64 = c / 262144)%N)
          by (rewrite N.Div0.div_div; reflexivity).
        cbn [append]. rewrite decode_cons. cbv zeta.
        assert (c / 262144 < 5)%N by (apply N.Div0.div_lt_upper_bound; lia).
        rewrite (ord8_chr8 (240 + c / 262144)) by lia.
        destruct (N.ltb_spec (240 + c / 262144) 192); [lia|].
        destruct (N.ltb_spec (240 + c / 262144) 224); [lia|].
        destruct (N.ltb_spec (240 + c / 262144) 240); [lia|].
        rewrite !continuation_chr8, !ord8_continuation by assumption.
        cbn [andb]. f_equal. lia.
Qed.

(** A text built from code points gives them back. *)
Lemma decode_encode l :
  Forall (fun c => (c < 1114112)%N) l -> decode (encode l) = l.
Proof.
  induction 1 as [|c l Hc _ IH]; [reflexivity|].
  cbn [encode]. rewrite (decode_encode_cp c _ Hc), IH. reflexivity.
Qed.

Lemma lstrip_empty_iff l : lstrip l = [] <-> forallb isspace l = true.
Proof.
  induction l as [|c r IH]; cbn [lstrip forallb].
  - split; reflexivity.
  - destruct (isspace c); cbn [andb].
    + exact IH.
    + split; discriminate.
Qed.

Lemma rstrip_empty_iff l : rstrip l = [] <-> forallb isspace l = true.
Proof.
  induction l as [|c r IH]; cbn [rstrip forallb].
  - split; reflexivity.
  - destruct (rstrip r) eqn:Er.
    + destruct (isspace c); cbn [andb].
      * split; intros _; [apply IH|]; reflexivity.
      * split; discriminate.
    + split; [discriminate|].
      intros H. apply andb_true_iff in H as [_ H].
      apply IH in H. discriminate.
Qed.

Lemma forallb_lstrip l : forallb isspace (lstrip l) = forallb isspace l.
Proof.
  induction l as [|c r IH]; cbn [lstrip forallb]; [reflexivity|].
  destruct (isspace c) eqn:Ec; cbn [andb forallb]; [exact IH|].
  rewrite Ec. reflexivity.
Qed.

(** A string is empty after trimming exactly when it holds only whitespace. *)
Lemma strip_empty_iff s : strip s = EmptyString <-> all_space s = true.
Proof.
  unfold strip, all_space.
  rewrite encode_empty_iff, rstrip_empty_iff, forallb_lstrip. reflexivity.
Qed.

(** What is cut off on the left is whitespace, and what is left starts with
    none. *)
Lemma lstrip_split l :
  exists a, l = a ++ lstrip l /\ forallb isspace a = true.
Proof.
  induction l as [|c r (a & E & Ha)]; [exists []; auto|].
  cbn [lstrip]. destruct (isspace c) eqn:Ec.
  - exists (c :: a). cbn [app forallb]. rewrite <- E, Ec, Ha. auto.
  - exists []. auto.
Qed.

Lemma lstrip_first l c : hd_error (lstrip l) = Some c -> isspace c = false.
Proof.
  induction l as [|x r IH]; cbn [lstrip]; [discriminate|].
  destruct (isspace x) eqn:Ex; [exact IH|].
  cbn [hd_error]. intros [= <-]. exact Ex.
Qed.

Lemma rstrip_split l :
  exists b, l = rstrip l ++ b /\ forallb isspace b = true.
Proof.
  induction l as [|c r (b & E & Hb)]; [exists []; auto|].
  cbn [rstrip]. destruct (rstrip r) as [|x t] eqn:Er.
  - cbn [app] in E. subst b.
    destruct (isspace c) eqn:Ec.
    + exists (c :: r). cbn [app forallb]. rewrite Ec, Hb. auto.
    + exists r. auto.
  - exists b. cbn [app] in *. rewrite <- E. auto.
Qed.

Lemma rstrip_last l c :
  hd_error (rev (rstrip l)) = Some c -> isspace c = false.
Proof.
  induction l as [|x r IH]; cbn [rstrip]; [discriminate|].
  destruct (rstrip r) as [|y t] eqn:Er.
  - destruct (isspace x) eqn:Ex; [discriminate|].
    cbn. intros [= <-]. exact Ex.
  - intros H. apply IH.
    change (rev (x :: y :: t)) with (rev (y :: t) ++ [x]) in H.
    destruct (rev (y :: t)) as [|z u] eqn:Ez; [|exact H].
    apply (f_equal (@List.length N)) in Ez.
    rewrite length_rev in Ez. discriminate.
Qed.

Lemma rstrip_first l c : hd_error (rstrip l) = Some c -> hd_error l = Some c.
Proof.
  destruct l as [|x r]; cbn [rstrip]; [discriminate|].
  destruct (rstrip r); [destruct (isspace x)|]; cbn [hd_error]; congruence.
Qed.

Lemma truthy_false_iff s : truthy s = false <-> s = EmptyString.
Proof. destruct s; simpl; split; congruence. Qed.

Lemma startswith_spec p s :
  startswith p s = true <-> exists post, s = p ++ post.
Proof.
  revert s. induction p as [|a p IH]; intros s; cbn [startswith].
  - split; [intros _; exists s; reflexivity | reflexivity].
  - destruct s as [|b s].
    + split; [discriminate | intros [post H]; discriminate].
    + rewrite andb_true_iff, N.eqb_eq, IH. split.
      * intros [-> [post ->]]. exists post. reflexivity.
      * intros [post H]. injection H as -> ->. split; [reflexivity|].
        exists post. reflexivity.
Qed.

(** [contains] decides the substring relation. *)
Lemma contains_spec needle hay :
  contains needle hay = true <->
  exists pre post, hay = pre ++ needle ++ post.
Proof.
  induction hay as [|c r IH]; cbn [contains].
  - rewrite orb_false_r, startswith_spec. split.
    + intros [post H]. exists [], post. exact H.
    + intros [pre [post H]]. destruct pre; cbn [app] in H.
      * exists post. exact H.
      * discriminate.
  - rewrite orb_true_iff, startswith_spec, IH. split.
    + intros [[post H] | [pre [post H]]].
      * exists [], post. exact H.
      * exists (c :: pre), post. cbn [app]. rewrite H. reflexivity.
    + intros [pre [post H]]. destruct pre as [|a pre]; cbn [app] in H.
      * left. exists post. exact H.
      * right. injection H as _ H. exists pre, post. exact H.
Qed.



Lemma lower_from_empty_iff before l : lower_from before l = [] <-> l = [].
Proof.
  split; [|intros ->; reflexivity].
  destruct l as [|c r]; [reflexivity|].
  cbn [lower_from]. unfold to_lower_full.
  destruct (c =? capital_sigma)%N; [discriminate|].
  destruct (c =? capital_i_dot)%N; discriminate.
Qed.

Lemma lower_empty_iff s : lower s = [] <-> s = EmptyString.
Proof.
  unfold lower. rewrite lower_from_empty_iff. apply decode_empty_iff.
Qed.


Lemma mem_In x l : mem x l = true <-> In x l.
Proof.
  unfold mem. rewrite existsb_exists. split.
  - intros [y [Hy E]]. apply String.eqb_eq in E. subst. exact Hy.
  - intros H. exists x. split; [exact H | apply String.eqb_refl].
Qed.

End Py.

(** ** Dates and [strftime] *)

Module Clock.

(** [datetime.date]: the constructor of the Python class keeps
    [1 <= month <= 12] and [1 <= day <= 31]; see [valid_date]. *)
Record date : Type := { year : Z; month : Z; day : Z }.

(** [datetime.datetime], to the second. *)
Record datetime : Type :=
  { on_day : date; hour : Z; minute : Z; second : Z }.

Definition digit (n : Z) : ascii := ascii_of_nat (48 + Z.to_nat n).

(** The directives [%m %d %H %M %S]: two digits, zero padded. *)
Definition two_digits (n : Z) : string :=
  String (digit (n / 10)) (String (digit (n mod 10)) EmptyString).

(** [d.strftime("%Y-%m-%d")]; [%Y] is the year as a decimal number. *)
Definition strftime_ymd (d : date) : string :=
  (Py.str_int (year d) ++ "-" ++ two_digits (month d) ++ "-"
   ++ two_digits (day d))%string.

(** [t.strftime("%Y-%m-%d %H:%M:%S")] *)
Definition strftime_ymd_hms (t : datetime) : string :=
  (strftime_ymd (on_day t) ++ " " ++ two_digits (hour t) ++ ":"
   ++ two_digits (minute t) ++ ":" ++ two_digits (second t))%string.

Definition valid_date (d : date) : Prop :=
  1000 <= year d <= 9999 /\ 1 <= month d <= 12 /\ 1 <= day d <= 31.


Definition is_digit (c : ascii) : bool :=
  let n := nat_of_ascii c in ((48 <=? n) && (n <=? 57))%nat.

(** [looks_like pat s]: [s] has the length of [pat], a decimal digit wherever
    [pat] has a [9] and the character of [pat] everywhere else. *)
Fixpoint looks_like (pat s : string) : bool :=
  match pat, s with
  | EmptyString, EmptyString => true
  | String p pat', String c s' =>
      (if Ascii.eqb p "9" then is_digit c else Ascii.eqb p c)
      && looks_like pat' s'
  | _, _ => false
  end.

Lemma looks_like_app p1 p2 s1 s2 :
  looks_like p1 s1 = true -> looks_like p2 s2 = true ->
  looks_like (p1 ++ p2) (s1 ++ s2) = true.
Proof.
  revert s1. induction p1 as [|p p1 IH]; intros [|c s1]; simpl;
    try discriminate; [tauto|].
  intros H1 H2. apply andb_true_iff in H1 as [Hc H1].
  rewrite Hc. simpl. apply IH; assumption.
Qed.

Lemma is_digit_digit n : 0 <= n <= 9 -> is_digit (digit n) = true.
Proof.
  intros H. unfold digit.
  assert (L : (Z.to_nat n <= 9)%nat) by lia.
  revert L. generalize (Z.to_nat n). intros k L.
  do 10 (destruct k as [|k]; [reflexivity|]). lia.
Qed.

Lemma looks_like_digit c s pat :
  is_digit c = true -> looks_like pat s = true ->
  looks_like (String "9" pat) (String c s) = true.
Proof.
  intros Hc Hs.
  change (looks_like (String "9" pat) (String c s))
    with ((if Ascii.eqb "9" "9" then is_digit c else Ascii.eqb "9" c)
          && looks_like pat s).
  rewrite Ascii.eqb_refl, Hc, Hs. reflexivity.
Qed.

Lemma two_digits_shape n : 0 <= n <= 99 -> looks_like "99" (two_digits n) = true.
Proof.
  intros H. unfold two_digits.
  apply looks_like_digit.
  - apply is_digit_digit.
    assert (n / 10 < 10) by (apply Z.div_lt_upper_bound; lia).
    assert (0 <= n / 10) by (apply Z.div_pos; lia). lia.
  - apply looks_like_digit; [|reflexivity].
    apply is_digit_digit. pose proof (Z.mod_pos_bound n 10). lia.
Qed.

Definition four_digit_years : list Z :=
  map (fun n => 1000 + Z.of_nat n) (seq 0 (Z.to_nat 9000)).

Lemma four_digit_years_checked :
  forallb (fun y => looks_like "9999" (Py.str_int y)) four_digit_years = true.
Proof. vm_compute. reflexivity. Qed.

Lemma year_shape y : 1000 <= y <= 9999 -> looks_like "9999" (Py.str_int y) = true.
Proof.
  intros H.
  pose proof four_digit_years_checked as C.
  rewrite forallb_forall in C. apply C.
  unfold four_digit_years. apply in_map_iff.
  exists (Z.to_nat (y - 1000)). split; [lia|]. apply in_seq. lia.
Qed.



End Clock.

(** ** The song catalog [songs_df] *)

Module Catalog.

(** A cell of the [id_canti] column as pandas hands it over: a missing
    value, an integer of an [int64] column, a number of a [float64] column,
    a text of an [object] column.  A [float64] other than NaN is given by
    the text Python prints for it, which identifies it. *)
Inductive cell : Type :=
| NaN
| Int (n : Z)
| Float (repr : string)
| Text (s : string).

(** One row of the table; the columns [autore], [url] and [link_youtube] are
    never read by the script. *)
Record song : Type := { titolo : string; id_canti : cell }.

(** The table: whether it carries the column [id_canti], and its rows. *)
Record dataframe : Type := { has_id_canti : bool; rows : list song }.

(** [songs_df.empty] *)
Definition empty (df : dataframe) : bool :=
  match rows df with [] => true | _ :: _ => false end.

(** [list(songs_df["titolo"].unique()) if not songs_df.empty else []] *)
Definition existing_song_titles_list (df : dataframe) : list string :=
  if negb (empty df) then Py.unique (map titolo (rows df)) else [].

(** [pd.isna] *)
Definition isna (c : cell) : bool :=
  match c with NaN => true | _ => false end.

(** [str(song_id)] *)
Definition str (c : cell) : string :=
  match c with
  | NaN => "nan"
  | Int n => Py.str_int n
  | Float repr => repr
  | Text s => s
  end.

(** The [float64] nearest to a whole number smaller than 10^16 in size:
    up to 2^53 the number itself, beyond that the nearest even number, a tie
    going to the one whose half is even. *)
Definition nearest_float64 (n : Z) : Z :=
  if (Z.abs n <=? 2 ^ 53)%Z then n
  else if Z.even n then n
  else if Z.even (n / 2) then 2 * (n / 2)
  else 2 * (n / 2) + 2.

(** The column [pd.read_csv] builds from a CSV column of whole numbers,
    [None] standing for an empty field: an [int64] column when no field is
    empty, a [float64] column as soon as one is, the missing value being a
    float.  Python prints a [float64] of whole value smaller than 10^16 with
    [.0] at the end.  Numbers of 10^16 and more are not modelled. *)
Definition read_whole_numbers (fields : list (option Z))
    : option (list cell) :=
  if forallb (fun f => match f with
                       | Some n => (Z.abs n <? 10 ^ 16)%Z
                       | None => true
                       end) fields
  then
    Some
      (if forallb (fun f => match f with Some _ => true | None => false end)
            fields
       then map (fun f => match f with Some n => Int n | None => NaN end)
              fields
       else map (fun f => match f with
                          | Some n =>
                              Float (Py.str_int (nearest_float64 n) ++ ".0")
                          | None => NaN
                          end) fields)
  else None.

(** The table of the given titles and [id_canti] column. *)
Definition table (titles : list string) (ids : list cell) : dataframe :=
  {| has_id_canti := true;
     rows := map (fun r => {| titolo := fst r; id_canti := snd r |})
               (combine titles ids) |}.

(** [songs_df[songs_df["titolo"] == t].iloc[0]]; [None] stands for the
    [IndexError] of an empty selection. *)
Definition first_row (df : dataframe) (t : string) : option song :=
  find (fun r => String.eqb (titolo r) t) (rows df).

(** The value of [song_id] after lines 530-547 on the existing-song branch. *)
Definition song_id (df : dataframe) (final_song_title : option string) : cell :=
  match final_song_title with
  | None => Text ""
  | Some t =>
      if negb (empty df) && Py.mem t (existing_song_titles_list df) then
        if has_id_canti df then
          match first_row df t with
          | Some song_info =>
              if isna (id_canti song_info) then Text ""
              else id_canti song_info
          | None => Text ""
          end
        else Text ""
      else Text ""
  end.

Lemma In_unique x l : In x (Py.unique l) <-> In x l.
Proof.
  induction l as [|y l IH]; simpl; [tauto|].
  rewrite filter_In, IH, negb_true_iff, String.eqb_neq.
  destruct (String.eqb_spec x y) as [->|N]; [tauto|].
  split; [intros [E|[H _]]; [now left | now right]|].
  intros [E|H]; [now left | right; split; [exact H | exact N]].
Qed.

Lemma mem_titles df t :
  Py.mem t (existing_song_titles_list df) = true <->
  exists r, In r (rows df) /\ titolo r = t.
Proof.
  rewrite Py.mem_In. unfold existing_song_titles_list, empty.
  destruct (rows df) as [|r0 l] eqn:E; simpl negb; cbv iota.
  - simpl. split; [tauto | intros [r [[] _]]].
  - rewrite In_unique, in_map_iff. split; intros [r H]; exists r; tauto.
Qed.

(** [first_row] returns the first row that bears the title. *)
Lemma first_row_split df t r :
  first_row df t = Some r <->
  exists pre post, rows df = pre ++ r :: post /\ titolo r = t
                   /\ forall r', In r' pre -> titolo r' <> t.
Proof.
  unfold first_row. generalize (rows df) as l.
  induction l as [|x l IH]; simpl.
  - split; [discriminate|]. intros (pre & post & E & _).
    destruct pre; discriminate.
  - destruct (String.eqb_spec (titolo x) t) as [Ex|Nx].
    + split.
      * intros H. injection H as ->. exists [], l. simpl. tauto.
      * intros (pre & post & E & Et & Hpre). destruct pre as [|p pre].
        -- simpl in E. injection E as -> _. reflexivity.
        -- simpl in E. injection E as -> _. exfalso.
           apply (Hpre p); [now left | exact Ex].
    + rewrite IH. split.
      * intros (pre & post & E & Et & Hpre). exists (x :: pre), post.
        simpl. rewrite E. repeat split; [exact Et|].
        intros r' [<-|H]; [exact Nx | apply Hpre, H].
      * intros (pre & post & E & Et & Hpre). destruct pre as [|p pre].
        -- simpl in E. injection E as -> _. contradiction.
        -- simpl in E. injection E as -> E. exists pre, post.
           repeat split; [exact E | exact Et |].
           intros r' H. apply Hpre. now right.
Qed.

Lemma first_row_none df t :
  first_row df t = None <-> forall r, In r (rows df) -> titolo r <> t.
Proof.
  unfold first_row. split.
  - intros H r Hr E. apply (find_none _ _ H) in Hr.
    apply String.eqb_neq in Hr. contradiction.
  - intros H. destruct (find _ _) as [r|] eqn:F; [|reflexivity].
    apply find_some in F as [Hr E]. apply String.eqb_eq in E.
    exfalso. apply (H r Hr E).
Qed.

End Catalog.

(** ** The spreadsheet behind [gspread] *)

Module Sheets.

(** Python values handed to the client or kept in the session. *)
Inductive value : Type :=
| VNone
| VStr (s : string)
| VInt (n : Z)
| VDate (d : Clock.date).

Definition row : Type := list value.

Record worksheet : Type := { title : string; cells : list row }.

(** The remote document: its worksheets, in tab order. *)
Definition spreadsheet : Type := list worksheet.

(** What the remote side allows during one run of the script. *)
Record remote : Type :=
  { can_open : bool;            (* credentials accepted, document opens *)
    can_read : bool;            (* worksheet look-ups go through *)
    can_add : string -> bool;   (* a worksheet of that title may be added *)
    can_append : bool }.        (* rows may be appended *)

Inductive exn : Type :=
| WorksheetNotFound
| APIError
| AttributeError.

Inductive outcome (A : Type) : Type :=
| Ok (a : A)
| Raise (e : exn).
Arguments Ok {A} a.
Arguments Raise {A} e.

(** Computations that read and write the spreadsheet and may raise. *)
Definition io (A : Type) : Type := spreadsheet -> outcome A * spreadsheet.

Definition ret {A : Type} (a : A) : io A := fun ss => (Ok a, ss).

Definition raise {A : Type} (e : exn) : io A := fun ss => (Raise e, ss).

Definition bind {A B : Type} (m : io A) (k : A -> io B) : io B :=
  fun ss =>
    match m ss with
    | (Ok a, ss') => k a ss'
    | (Raise e, ss') => (Raise e, ss')
    end.

(** [try: m  except <class>: handler], the class given by [catches]. *)
Definition try_except {A : Type} (m : io A) (catches : exn -> bool)
    (handler : io A) : io A :=
  fun ss =>
    match m ss with
    | (Ok a, ss') => (Ok a, ss')
    | (Raise e, ss') => if catches e then handler ss' else (Raise e, ss')
    end.

Definition is_WorksheetNotFound (e : exn) : bool :=
  match e with WorksheetNotFound => true | _ => false end.

(** [except Exception] *)
Definition any_exception (e : exn) : bool := true.

Fixpoint index_of (name : string) (ss : spreadsheet) : option nat :=
  match ss with
  | [] => None
  | w :: r =>
      if String.eqb (title w) name then Some O
      else option_map S (index_of name r)
  end.

(** [spreadsheet.worksheet(name)]: the handle is the tab position. *)
Definition worksheet_by_title (r : remote) (name : string) : io nat :=
  fun ss =>
    if can_read r then
      match index_of name ss with
      | Some i => (Ok i, ss)
      | None => (Raise WorksheetNotFound, ss)
      end
    else (Raise APIError, ss).

(** [spreadsheet.add_worksheet(name, 1000, 10)]: refused when the remote side
    does not allow it or a worksheet of that title exists. *)
Definition add_worksheet (r : remote) (name : string) : io nat :=
  fun ss =>
    match index_of name ss with
    | None =>
        if can_add r name
        then (Ok (List.length ss), ss ++ [{| title := name; cells := [] |}])
        else (Raise APIError, ss)
    | Some _ => (Raise APIError, ss)
    end.

(** [spreadsheet.get_worksheet(i)] *)
Definition get_worksheet (r : remote) (i : nat) : io nat :=
  fun ss =>
    if can_read r then
      if (i <? List.length ss)%nat then (Ok i, ss)
      else (Raise WorksheetNotFound, ss)
    else (Raise APIError, ss).

Fixpoint append_at (i : nat) (x : row) (ss : spreadsheet) : spreadsheet :=
  match ss, i with
  | [], _ => []
  | w :: r, O => {| title := title w; cells := cells w ++ [x] |} :: r
  | w :: r, S j => w :: append_at j x r
  end.

(** [sheet.append_row(x)] on the worksheet of handle [i]. *)
Definition append_row (r : remote) (i : nat) (x : row) : io unit :=
  fun ss =>
    if can_append r then (Ok tt, append_at i x ss) else (Raise APIError, ss).

(** All rows of the document, worksheet by worksheet. *)
Definition all_rows (ss : spreadsheet) : list row := List.concat (map cells ss).

End Sheets.

(** ** The session dictionary [st.session_state]

    One field per key the wizard uses; the keys written by
    [connect_to_gsheets] ([connection_message], [connection_error],
    [gs_client] and the two worksheet handles) are kept apart, in
    [connection_keys] below.  [search_term_value] and [go_back]
    are created on first use by the script; an absent key is represented by
    the value the script gives it on creation.  [selected_date],
    [song_title_input] and [submitted_data] are absent ([None]) until
    written.  [date_input] is the value held by the date widget of step 1,
    which Streamlit keeps next to the dictionary. *)

Record session : Type :=
  { selected_song_title : option string;
    is_new_song : bool;
    author : string;
    text_link : string;
    audio_link : string;
    notes : string;
    adequacy_percentage : Z;
    form_submitted : bool;
    submission_success : bool;
    new_song_title : string;
    song_list : list string;
    current_step : Z;
    selected_date : option Clock.date;
    search_term_value : string;
    go_back : bool;
    song_title_input : option string;
    submitted_data : option (list (string * Sheets.value));
    date_input : option Clock.date }.

Definition set_selected_song_title (v : option string) (s : session) : session :=
  {| selected_song_title := v;
     is_new_song := is_new_song s;
     author := author s;
     text_link := text_link s;
     audio_link := audio_link s;
     notes := notes s;
     adequacy_percentage := adequacy_percentage s;
     form_submitted := form_submitted s;
     submission_success := submission_success s;
     new_song_title := new_song_title s;
     song_list := song_list s;
     current_step := current_step s;
     selected_date := selected_date s;
     search_term_value := search_term_value s;
     go_back := go_back s;
     song_title_input := song_title_input s;
     submitted_data := submitted_data s;
     date_input := date_input s |}.

Definition set_is_new_song (v : bool) (s : session) : session :=
  {| selected_song_title := selected_song_title s;
     is_new_song := v;
     author := author s;
     text_link := text_link s;
     audio_link := audio_link s;
     notes := notes s;
     adequacy_percentage := adequacy_percentage s;
     form_submitted := form_submitted s;
     submission_success := submission_success s;
     new_song_title := new_song_title s;
     song_list := song_list s;
     current_step := current_step s;
     selected_date := selected_date s;
     search_term_value := search_term_value s;
     go_back := go_back s;
     song_title_input := song_title_input s;
     submitted_data := submitted_data s;
     date_input := date_input s |}.

Definition set_author (v : string) (s : session) : session :=
  {| selected_song_title := selected_song_title s;
     is_new_song := is_new_song s;
     author := v;
     text_link := text_link s;
     audio_link := audio_link s;
     notes := notes s;
     adequacy_percentage := adequacy_percentage s;
     form_submitted := form_submitted s;
     submission_success := submission_success s;
     new_song_title := new_song_title s;
     song_list := song_list s;
     current_step := current_step s;
     selected_date := selected_date s;
     search_term_value := search_term_value s;
     go_back := go_back s;
     song_title_input := song_title_input s;
     submitted_data := submitted_data s;
     date_input := date_input s |}.

Definition set_text_link (v : string) (s : session) : session :=
  {| selected_song_title := selected_song_title s;
     is_new_song := is_new_song s;
     author := author s;
     text_link := v;
     audio_link := audio_link s;
     notes := notes s;
     adequacy_percentage := adequacy_percentage s;
     form_submitted := form_submitted s;
     submission_success := submission_success s;
     new_song_title := new_song_title s;
     song_list := song_list s;
     current_step := current_step s;
     selected_date := selected_date s;
     search_term_value := search_term_value s;
     go_back := go_back s;
     song_title_input := song_title_input s;
     submitted_data := submitted_data s;
     date_input := date_input s |}.

Definition set_audio_link (v : string) (s : session) : session :=
  {| selected_song_title := selected_song_title s;
     is_new_song := is_new_song s;
     author := author s;
     text_link := text_link s;
     audio_link := v;
     notes := notes s;
     adequacy_percentage := adequacy_percentage s;
     form_submitted := form_submitted s;
     submission_success := submission_success s;
     new_song_title := new_song_title s;
     song_list := song_list s;
     current_step := current_step s;
     selected_date := selected_date s;
     search_term_value := search_term_value s;
     go_back := go_back s;
     song_title_input := song_title_input s;
     submitted_data := submitted_data s;
     date_input := date_input s |}.

Definition set_notes (v : string) (s : session) : session :=
  {| selected_song_title := selected_song_title s;
     is_new_song := is_new_song s;
     author := author s;
     text_link := text_link s;
     audio_link := audio_link s;
     notes := v;
     adequacy_percentage := adequacy_percentage s;
     form_submitted := form_submitted s;
     submission_success := submission_success s;
     new_song_title := new_song_title s;
     song_list := song_list s;
     current_step := current_step s;
     selected_date := selected_date s;
     search_term_value := search_term_value s;
     go_back := go_back s;
     song_title_input := song_title_input s;
     submitted_data := submitted_data s;
     date_input := date_input s |}.

Definition set_adequacy_percentage (v : Z) (s : session) : session :=
  {| selected_song_title := selected_song_title s;
     is_new_song := is_new_song s;
     author := author s;
     text_link := text_link s;
     audio_link := audio_link s;
     notes := notes s;
     adequacy_percentage := v;
     form_submitted := form_submitted s;
     submission_success := submission_success s;
     new_song_title := new_song_title s;
     song_list := song_list s;
     current_step := current_step s;
     selected_date := selected_date s;
     search_term_value := search_term_value s;
     go_back := go_back s;
     song_title_input := song_title_input s;
     submitted_data := submitted_data s;
     date_input := date_input s |}.

Definition set_form_submitted (v : bool) (s : session) : session :=
  {| selected_song_title := selected_song_title s;
     is_new_song := is_new_song s;
     author := author s;
     text_link := text_link s;
     audio_link := audio_link s;
     notes := notes s;
     adequacy_percentage := adequacy_percentage s;
     form_submitted := v;
     submission_success := submission_success s;
     new_song_title := new_song_title s;
     song_list := song_list s;
     current_step := current_step s;
     selected_date := selected_date s;
     search_term_value := search_term_value s;
     go_back := go_back s;
     song_title_input := song_title_input s;
     submitted_data := submitted_data s;
     date_input := date_input s |}.

Definition set_submission_success (v : bool) (s : session) : session :=
  {| selected_song_title := selected_song_title s;
     is_new_song := is_new_song s;
     author := author s;
     text_link := text_link s;
     audio_link := audio_link s;
     notes := notes s;
     adequacy_percentage := adequacy_percentage s;
     form_submitted := form_submitted s;
     submission_success := v;
     new_song_title := new_song_title s;
     song_list := song_list s;
     current_step := current_step s;
     selected_date := selected_date s;
     search_term_value := search_term_value s;
     go_back := go_back s;
     song_title_input := song_title_input s;
     submitted_data := submitted_data s;
     date_input := date_input s |}.

Definition set_new_song_title (v : string) (s : session) : session :=
  {| selected_song_title := selected_song_title s;
     is_new_song := is_new_song s;
     author := author s;
     text_link := text_link s;
     audio_link := audio_link s;
     notes := notes s;
     adequacy_percentage := adequacy_percentage s;
     form_submitted := form_submitted s;
     submission_success := submission_success s;
     new_song_title := v;
     song_list := song_list s;
     current_step := current_step s;
     selected_date := selected_date s;
     search_term_value := search_term_value s;
     go_back := go_back s;
     song_title_input := song_title_input s;
     submitted_data := submitted_data s;
     date_input := date_input s |}.

Definition set_current_step (v : Z) (s : session) : session :=
  {| selected_song_title := selected_song_title s;
     is_new_song := is_new_song s;
     author := author s;
     text_link := text_link s;
     audio_link := audio_link s;
     notes := notes s;
     adequacy_percentage := adequacy_percentage s;
     form_submitted := form_submitted s;
     submission_success := submission_success s;
     new_song_title := new_song_title s;
     song_list := song_list s;
     current_step := v;
     selected_date := selected_date s;
     search_term_value := search_term_value s;
     go_back := go_back s;
     song_title_input := song_title_input s;
     submitted_data := submitted_data s;
     date_input := date_input s |}.

Definition set_selected_date (v : option Clock.date) (s : session) : session :=
  {| selected_song_title := selected_song_title s;
     is_new_song := is_new_song s;
     author := author s;
     text_link := text_link s;
     audio_link := audio_link s;
     notes := notes s;
     adequacy_percentage := adequacy_percentage s;
     form_submitted := form_submitted s;
     submission_success := submission_success s;
     new_song_title := new_song_title s;
     song_list := song_list s;
     current_step := current_step s;
     selected_date := v;
     search_term_value := search_term_value s;
     go_back := go_back s;
     song_title_input := song_title_input s;
     submitted_data := submitted_data s;
     date_input := date_input s |}.

Definition set_search_term_value (v : string) (s : session) : session :=
  {| selected_song_title := selected_song_title s;
     is_new_song := is_new_song s;
     author := author s;
     text_link := text_link s;
     audio_link := audio_link s;
     notes := notes s;
     adequacy_percentage := adequacy_percentage s;
     form_submitted := form_submitted s;
     submission_success := submission_success s;
     new_song_title := new_song_title s;
     song_list := song_list s;
     current_step := current_step s;
     selected_date := selected_date s;
     search_term_value := v;
     go_back := go_back s;
     song_title_input := song_title_input s;
     submitted_data := submitted_data s;
     date_input := date_input s |}.

Definition set_go_back (v : bool) (s : session) : session :=
  {| selected_song_title := selected_song_title s;
     is_new_song := is_new_song s;
     author := author s;
     text_link := text_link s;
     audio_link := audio_link s;
     notes := notes s;
     adequacy_percentage := adequacy_percentage s;
     form_submitted := form_submitted s;
     submission_success := submission_success s;
     new_song_title := new_song_title s;
     song_list := song_list s;
     current_step := current_step s;
     selected_date := selected_date s;
     search_term_value := search_term_value s;
     go_back := v;
     song_title_input := song_title_input s;
     submitted_data := submitted_data s;
     date_input := date_input s |}.

Definition set_song_title_input (v : option string) (s : session) : session :=
  {| selected_song_title := selected_song_title s;
     is_new_song := is_new_song s;
     author := author s;
     text_link := text_link s;
     audio_link := audio_link s;
     notes := notes s;
     adequacy_percentage := adequacy_percentage s;
     form_submitted := form_submitted s;
     submission_success := submission_success s;
     new_song_title := new_song_title s;
     song_list := song_list s;
     current_step := current_step s;
     selected_date := selected_date s;
     search_term_value := search_term_value s;
     go_back := go_back s;
     song_title_input := v;
     submitted_data := submitted_data s;
     date_input := date_input s |}.

Definition set_submitted_data (v : option (list (string * Sheets.value))) (s : session) : session :=
  {| selected_song_title := selected_song_title s;
     is_new_song := is_new_song s;
     author := author s;
     text_link := text_link s;
     audio_link := audio_link s;
     notes := notes s;
     adequacy_percentage := adequacy_percentage s;
     form_submitted := form_submitted s;
     submission_success := submission_success s;
     new_song_title := new_song_title s;
     song_list := song_list s;
     current_step := current_step s;
     selected_date := selected_date s;
     search_term_value := search_term_value s;
     go_back := go_back s;
     song_title_input := song_title_input s;
     submitted_data := v;
     date_input := date_input s |}.

Definition set_date_input (v : option Clock.date) (s : session) : session :=
  {| selected_song_title := selected_song_title s;
     is_new_song := is_new_song s;
     author := author s;
     text_link := text_link s;
     audio_link := audio_link s;
     notes := notes s;
     adequacy_percentage := adequacy_percentage s;
     form_submitted := form_submitted s;
     submission_success := submission_success s;
     new_song_title := new_song_title s;
     song_list := song_list s;
     current_step := current_step s;
     selected_date := selected_date s;
     search_term_value := search_term_value s;
     go_back := go_back s;
     song_title_input := song_title_input s;
     submitted_data := submitted_data s;
     date_input := v |}.

(** ** The script *)

Notation "x <- m ;; k" := (Sheets.bind m (fun x => k))
  (at level 61, m at next level, right associativity).

(** What one run of the script may find outside the session. *)
Record env : Type :=
  { now : Clock.datetime;          (* [datetime.now()] *)
    secrets_configured : bool;     (* ["gcp_service_account" in st.secrets]
                                      is true *)
    secrets_unreadable : bool;     (* that test raises: there is no secrets
                                      file; read when the test is not true *)
    remote : Sheets.remote }.

(** The values of the widgets of the step-4 form when one of its buttons is
    pressed.  The existing-song form shows only the slider and the notes. *)
Record form : Type :=
  { f_author : string;
    f_text_link : string;
    f_audio_link : string;
    f_adequacy : Z;
    f_notes : string }.

(** What the user can do on a page. *)
Inductive action : Type :=
| DateInput (d : option Clock.date)   (* step 1: the date widget changes *)
| SearchInput (t : string)            (* step 2: the text input changes *)
| SongSelection (v : string)          (* step 3: the select box changes *)
| Next                                (* the forward button *)
| Back                                (* the backward button of steps 2, 3 *)
| FormBack (f : form)                 (* step 4: backward button of the form *)
| FormSubmit (f : form)               (* step 4: submit button of the form *)
| NewSuggestion.                      (* the button of the thank-you page *)

(** What the submission handler prints with [st.error], and the thanks
    [st.success] prints on the page shown by the rerun of line 634.  The
    banners the pages of step 4 print on every run (the thanks of line 346
    on later runs, the connection texts of lines 376-380 and 441-445) are
    not listed. *)
Inductive message : Type :=
| Error (text : string)
| Success (text : string).

Definition msg_author : string :=
  "Per favore, inserisci l'autore del nuovo canto.".
Definition msg_notes : string :=
  "Per favore, inserisci una motivazione per il nuovo canto.".
Definition msg_credentials : string :=
  "Le credenziali di servizio non sono configurate nei secrets di Streamlit.".
Definition msg_retry : string :=
  "Si è verificato un errore durante l'invio del suggerimento. Riprova tra qualche istante.".
Definition msg_thanks : string :=
  "✅ Grazie! Il tuo suggerimento è stato inviato con successo.".

Definition dquote : string := String (ascii_of_nat 34) EmptyString.

(** The f-string of line 295. *)
Definition add_new_option (search_term : string) : string :=
  ("➕ Aggiungi " ++ dquote ++ search_term ++ dquote
   ++ " come nuovo canto")%string.

(** Truthiness of [st.session_state.selected_song_title]. *)
Definition title_truthy (t : option string) : bool :=
  match t with None => false | Some x => Py.truthy x end.

Definition title_value (t : option string) : Sheets.value :=
  match t with None => Sheets.VNone | Some x => Sheets.VStr x end.

(** [f"{final_adequacy}%"] *)
Definition percent (n : Z) : string := (Py.str_int n ++ "%")%string.

Definition go_to_next_step (s : session) : session :=
  set_current_step (current_step s + 1) s.

Definition go_to_prev_step (s : session) : session :=
  set_current_step (current_step s - 1) s.

(** Lines 184-209, then the first rendering of step 1. *)
Definition first_run (titles : list string) (today : Clock.date) : session :=
  {| selected_song_title := None;
     is_new_song := false;
     author := "";
     text_link := "";
     audio_link := "";
     notes := "";
     adequacy_percentage := 50;
     form_submitted := false;
     submission_success := false;
     new_song_title := "";
     song_list := titles;
     current_step := 1;
     selected_date := Some today;
     search_term_value := "";
     go_back := false;
     song_title_input := None;
     submitted_data := None;
     date_input := Some today |}.

(** Lines 243-244: the date of the widget is stored when there is one. *)
Definition store_date (s : session) : session :=
  match date_input s with
  | Some d => set_selected_date (Some d) s
  | None => s
  end.

(** Step 1 rendered anew: the date widget starts from today's date. *)
Definition enter_step1 (e : env) (s : session) : session :=
  store_date (set_date_input (Some (Clock.on_day (now e))) s).

(** Lines 358-368. *)
Definition reset (s : session) : session :=
  set_current_step 1
    (set_submission_success false
      (set_form_submitted false
        (set_adequacy_percentage 50
          (set_notes ""
            (set_audio_link ""
              (set_text_link ""
                (set_author ""
                  (set_is_new_song false
                    (set_selected_song_title None
                      (set_song_title_input (Some "") s)))))))))).

(** The form widgets write their values into the session (lines 384-417 for
    a new song, 448-463 for an existing one). *)
Definition assign_form (f : form) (s : session) : session :=
  if is_new_song s then
    set_notes (f_notes f)
      (set_adequacy_percentage (f_adequacy f)
        (set_audio_link (f_audio_link f)
          (set_text_link (f_text_link f)
            (set_author (f_author f) s))))
  else
    set_notes (f_notes f) (set_adequacy_percentage (f_adequacy f) s).

Arguments add_new_option : simpl never.
Arguments store_date : simpl never.
Arguments assign_form : simpl never.

(** Lines 505-515: the flag [validation_error] and the errors shown. *)
Definition validation (s : session) : bool * list message :=
  if is_new_song s then
    let no_author := negb (Py.truthy (Py.strip (author s))) in
    let no_notes := negb (Py.truthy (Py.strip (notes s))) in
    (no_author || no_notes,
     (if no_author then [Error msg_author] else [])
     ++ (if no_notes then [Error msg_notes] else []))
  else (false, []).

Section Script.

Variable FUZZY_AVAILABLE : bool.

(** [fuzzy_process.extractBests(query, choices, score_cutoff, limit)] of the
    library [thefuzz], when it is installed. *)
Variable extractBests : string -> list string -> Z -> Z -> list (string * Z).

Variable songs_df : Catalog.dataframe.

(** Lines 37-50. *)
Definition get_fuzzy_matches (search_term : string) (title_list : list string)
    (limit score_cutoff : Z) : list (string * Z) :=
  if negb FUZZY_AVAILABLE then
    Py.slice_to limit
      (map (fun title => (title, 100))
         (filter (fun title =>
                    Py.contains (Py.lower search_term) (Py.lower title))
            title_list))
  else extractBests search_term title_list score_cutoff limit.

(** Lines 285-292. *)
Definition filtered_songs (s : session) : list string :=
  let search_term := search_term_value s in
  if Py.truthy search_term then
    map fst (get_fuzzy_matches search_term (song_list s) 10 50)
  else [].

(** Line 297. *)
Definition display_options (s : session) : list string :=
  [""%string] ++ filtered_songs s ++ [add_new_option (search_term_value s)].

(** Lines 300-315. *)
Definition handle_song_selection (selected_value : string) (s : session)
    : session :=
  let search_term := search_term_value s in
  if negb (Py.truthy selected_value) then
    set_selected_song_title None (set_is_new_song false s)
  else if String.eqb selected_value (add_new_option search_term) then
    set_new_song_title search_term
      (set_selected_song_title (Some search_term) (set_is_new_song true s))
  else
    set_selected_song_title (Some selected_value) (set_is_new_song false s).

(** The [disabled] argument of the forward button of the current page;
    step 4 has no forward button. *)
Definition next_disabled (s : session) : bool :=
  if (current_step s =? 1)%Z then
    match date_input s with Some _ => false | None => true end
  else if (current_step s =? 2)%Z then negb (Py.truthy (search_term_value s))
  else if (current_step s =? 3)%Z then negb (title_truthy (selected_song_title s))
  else true.

(** Lines 556-570: credentials, client and document. *)
Definition open_spreadsheet (r : Sheets.remote) : Sheets.io unit :=
  fun ss =>
    if Sheets.can_open r then (Sheets.Ok tt, ss)
    else (Sheets.Raise Sheets.APIError, ss).

(** Lines 573-584: the handles [existing_songs_sheet] and [new_songs_sheet]. *)
Definition get_sheets (r : Sheets.remote) : Sheets.io (nat * nat) :=
  Sheets.try_except
    (ex <- Sheets.worksheet_by_title r "existing_songs" ;;
     nw <- Sheets.worksheet_by_title r "new_songs" ;;
     Sheets.ret (ex, nw))
    Sheets.is_WorksheetNotFound
    (Sheets.try_except
       (ex <- Sheets.add_worksheet r "existing_songs" ;;
        nw <- Sheets.add_worksheet r "new_songs" ;;
        Sheets.ret (ex, nw))
       Sheets.any_exception
       (ex <- Sheets.get_worksheet r 0 ;;
        nw <- Sheets.get_worksheet r 0 ;;
        Sheets.ret (ex, nw))).

(** Lines 521-553 and 589-612: the list [row_to_submit]. *)
Definition row_to_submit (timestamp selected_date_str : string) (s : session)
    : Sheets.row :=
  let final_song_title := selected_song_title s in
  let is_new := is_new_song s in
  let final_author_input := Py.strip (author s) in
  let final_text_link_input := Py.strip (text_link s) in
  let final_audio_link_input := Py.strip (audio_link s) in
  let final_notes := Py.strip (notes s) in
  let final_adequacy := adequacy_percentage s in
  if negb is_new then
    let song_id := Catalog.song_id songs_df final_song_title in
    [ Sheets.VStr timestamp;
      Sheets.VStr selected_date_str;
      Sheets.VStr (Catalog.str song_id);
      title_value final_song_title;
      Sheets.VStr (percent final_adequacy);
      Sheets.VStr final_notes ]
  else
    let tipo_suggerimento := "Nuovo"%string in
    [ Sheets.VStr timestamp;
      Sheets.VStr selected_date_str;
      title_value final_song_title;
      Sheets.VStr final_author_input;
      Sheets.VStr final_text_link_input;
      Sheets.VStr final_audio_link_input;
      Sheets.VStr final_notes;
      Sheets.VStr (percent final_adequacy);
      Sheets.VStr tipo_suggerimento ].

(** Lines 559-614, the body of the [try] once the secrets are found. *)
Definition write_row (e : env) (s : session) : Sheets.io Clock.date :=
  _ <- open_spreadsheet (remote e) ;;
  sheets <- get_sheets (remote e) ;;
  let existing_songs_sheet := fst sheets in
  let new_songs_sheet := snd sheets in
  let timestamp := Clock.strftime_ymd_hms (now e) in
  d <- match selected_date s with
       | Some d => Sheets.ret d
       | None => Sheets.raise Sheets.AttributeError
       end ;;
  let selected_date_str := Clock.strftime_ymd d in
  _ <- Sheets.append_row (remote e)
         (if negb (is_new_song s) then existing_songs_sheet
          else new_songs_sheet)
         (row_to_submit timestamp selected_date_str s) ;;
  Sheets.ret d.

(** Lines 620-630. *)
Definition submitted (d : Clock.date) (s : session)
    : list (string * Sheets.value) :=
  [ ("song_title"%string, title_value (selected_song_title s));
    ("song_type"%string,
     Sheets.VStr (if is_new_song s then "Nuovo" else "Esistente"));
    ("date"%string, Sheets.VDate d);
    ("adequacy"%string, Sheets.VInt (adequacy_percentage s));
    ("notes"%string, Sheets.VStr (Py.strip (notes s))) ]
  ++ (if is_new_song s then
        [ ("author"%string, Sheets.VStr (Py.strip (author s)));
          ("text_link"%string, Sheets.VStr (Py.strip (text_link s)));
          ("audio_link"%string, Sheets.VStr (Py.strip (audio_link s))) ]
      else []).

(** Lines 503-646: what the script does when [form_submitted] is set. *)
Definition handle_submission (e : env) (s : session) (ss : Sheets.spreadsheet)
    : session * Sheets.spreadsheet * list message :=
  let (validation_error, errors) := validation s in
  if negb validation_error then
    if secrets_configured e then
      match write_row e s ss with
      | (Sheets.Ok d, ss') =>
          (set_form_submitted false
             (set_submitted_data (Some (submitted d s))
                (set_submission_success true s)),
           ss', [Success msg_thanks])
      | (Sheets.Raise _, ss') =>
          (set_form_submitted false s, ss', [Error msg_retry])
      end
    else if secrets_unreadable e then
      (set_form_submitted false s, ss, [Error msg_retry])
    else (set_form_submitted false s, ss, [Error msg_credentials])
  else (set_form_submitted false s, ss, errors).

(** The page of the current step reacting to an action (lines 232-487).
    An action the page does not offer changes nothing. *)
Definition page (e : env) (a : action) (s : session) : session :=
  if (current_step s =? 1)%Z then
    match a with
    | DateInput d => store_date (set_date_input d s)
    | Next => if next_disabled s then s else go_to_next_step s
    | _ => s
    end
  else if (current_step s =? 2)%Z then
    match a with
    | SearchInput t => set_search_term_value t s
    | Back => enter_step1 e (go_to_prev_step s)
    | Next => if next_disabled s then s else go_to_next_step s
    | _ => s
    end
  else if (current_step s =? 3)%Z then
    match a with
    | SongSelection v =>
        if Py.mem v (display_options s) then handle_song_selection v s else s
    | Back => go_to_prev_step s
    | Next => if next_disabled s then s else go_to_next_step s
    | _ => s
    end
  else if (current_step s =? 4)%Z then
    if submission_success s then
      match a with
      | NewSuggestion => enter_step1 e (reset s)
      | _ => s
      end
    else
      match a with
      | FormBack f =>
          go_to_prev_step (set_go_back false (set_go_back true (assign_form f s)))
      | FormSubmit f => set_form_submitted true (assign_form f s)
      | _ => s
      end
  else s.

(** One run of the script after an action: the page of the current step,
    then the submission handler, with the messages of the handler.  The
    connection attempted before the page is drawn (line 157) is modelled
    apart, by [connect_to_gsheets]: it writes none of the keys of [session]
    and adds no row, but it may add the two worksheets to the document. *)
Definition run (e : env) (a : action) (w : session * Sheets.spreadsheet)
    : session * Sheets.spreadsheet * list message :=
  let s := page e a (fst w) in
  if form_submitted s then handle_submission e s (snd w)
  else (s, snd w, []).

Definition state_after (e : env) (a : action) (w : session * Sheets.spreadsheet)
    : session * Sheets.spreadsheet :=
  fst (run e a w).

(** The states a session can be in.  The document is shared: between two
    runs the connection of line 157, another session or the owner of the
    spreadsheet may have changed it, so a run can find any document. *)
Inductive reachable : session * Sheets.spreadsheet -> Prop :=
| reach_first today ss :
    reachable (first_run (Catalog.existing_song_titles_list songs_df) today, ss)
| reach_run e a w : reachable w -> reachable (state_after e a w)
| reach_document s ss ss' : reachable (s, ss) -> reachable (s, ss').

(** ** Properties of the matcher, the validator and the id look-up *)

(** The test of line 41: the lowercase of the candidate contains the
    lowercase of the query. *)
Definition lowered_substring (query candidate : string) : Prop :=
  exists pre post, Py.lower candidate = pre ++ Py.lower query ++ post.







(** The words of the specification, 4.3: a text is empty after trimming
    when it holds nothing but whitespace. *)
Definition blank (text : string) : Prop :=
  Forall (fun c => Py.isspace c = true) (Py.decode text).

Lemma strip_empty_blank text : Py.strip text = EmptyString <-> blank text.
Proof.
  rewrite Py.strip_empty_iff. unfold Py.all_space, blank.
  rewrite forallb_forall, Forall_forall. reflexivity.
Qed.

(** C2.  The validator rejects a session exactly when the song is new and
    the author or the notes are empty once trimmed, that is, hold nothing
    but whitespace; it reports one error per missing field; a rejected
    submission writes nothing; a session for an existing song is never
    rejected. *)
Theorem validator_rejects_iff (s : session) :
  let rejected := fst (validation s) in
  let errors := snd (validation s) in
  (rejected = true <->
     is_new_song s = true /\ (blank (author s) \/ blank (notes s)))
  /\ (rejected = true <->
       is_new_song s = true
       /\ (Py.strip (author s) = EmptyString
           \/ Py.strip (notes s) = EmptyString))
  /\ errors
     = (if is_new_song s && negb (Py.truthy (Py.strip (author s)))
        then [Error msg_author] else [])
       ++ (if is_new_song s && negb (Py.truthy (Py.strip (notes s)))
           then [Error msg_notes] else [])
  /\ (forall text,
        In (Error text) errors ->
        text = msg_author /\ blank (author s)
        \/ text = msg_notes /\ blank (notes s))
  /\ (is_new_song s = false -> rejected = false /\ errors = [])
  /\ (forall e ss, rejected = true ->
        handle_submission e s ss = (set_form_submitted false s, ss, errors)).
Proof.
  cbv zeta. unfold handle_submission, validation.
  rewrite <- !strip_empty_blank.
  pose proof (Py.truthy_false_iff (Py.strip (author s))) as Ha.
  pose proof (Py.truthy_false_iff (Py.strip (notes s))) as Hn.
  destruct (is_new_song s); cbn [fst snd andb negb].
  - destruct (Py.truthy (Py.strip (author s))),
             (Py.truthy (Py.strip (notes s)));
      cbn [negb orb app];
      (split; [intuition congruence|]);
      (split; [intuition congruence|]);
      (split; [reflexivity|]);
      (split; [|split; [discriminate | intros; congruence || reflexivity]]);
      intros text Hin; cbn [In] in Hin;
      repeat match type of Hin with
             | _ \/ _ => destruct Hin as [E|Hin]
             | False => destruct Hin
             end;
      injection E as <-;
      first [ left; split; [reflexivity | apply strip_empty_blank; tauto]
            | right; split; [reflexivity | apply strip_empty_blank; tauto] ].
  - repeat split; try discriminate; try reflexivity;
      try (intros [H _]; discriminate).
    intros text [].
Qed.


(** The id look-up of lines 536-547.  On an existing-song row the third cell
    is the text Python prints for the id cell of the first row bearing the
    selected title, provided the table has the id column and that id is not
    missing; it is the empty string when the column is absent, when the id
    is missing and when no row (in particular of an empty catalog) bears
    the title. *)
Theorem song_id_field
    (timestamp selected_date_str : string) (s : session) (title : string) :
  is_new_song s = false ->
  selected_song_title s = Some title ->
  exists field,
    nth_error (row_to_submit timestamp selected_date_str s) 2
    = Some (Sheets.VStr field)
    /\ (forall pre r post,
          Catalog.rows songs_df = pre ++ r :: post ->
          Catalog.titolo r = title ->
          (forall r', In r' pre -> Catalog.titolo r' <> title) ->
          (Catalog.has_id_canti songs_df = true
           /\ Catalog.id_canti r <> Catalog.NaN ->
           field = Catalog.str (Catalog.id_canti r))
          /\ (Catalog.has_id_canti songs_df = false
              \/ Catalog.id_canti r = Catalog.NaN ->
              field = EmptyString))
    /\ ((forall r, In r (Catalog.rows songs_df) -> Catalog.titolo r <> title) ->
        field = EmptyString).
Proof.
  intros Hnew Htitle.
  exists (Catalog.str (Catalog.song_id songs_df (Some title))).
  split; [|split].
  - unfold row_to_submit. rewrite Hnew, Htitle. reflexivity.
  - intros pre r post Hrows Hr Hpre.
    assert (Hfirst : Catalog.first_row songs_df title = Some r).
    { apply Catalog.first_row_split. exists pre, post. auto. }
    assert (Hmem : Py.mem title (Catalog.existing_song_titles_list songs_df)
                   = true).
    { apply Catalog.mem_titles. exists r. split; [|exact Hr].
      rewrite Hrows. apply in_elt. }
    assert (Hne : Catalog.empty songs_df = false).
    { unfold Catalog.empty. rewrite Hrows. destruct pre; reflexivity. }
    unfold Catalog.song_id. rewrite Hne, Hmem, Hfirst. cbn [negb andb].
    split.
    + intros [Hid Hnan]. rewrite Hid.
      destruct (Catalog.id_canti r); try congruence; reflexivity.
    + intros [Hid|Hnan]; [rewrite Hid; reflexivity|]. rewrite Hnan.
      destruct (Catalog.has_id_canti songs_df); reflexivity.
  - intros Hnone. unfold Catalog.song_id.
    destruct (Py.mem title (Catalog.existing_song_titles_list songs_df))
      eqn:Hmem.
    + apply Catalog.mem_titles in Hmem as [r [Hin Hr]].
      exfalso. exact (Hnone r Hin Hr).
    + rewrite andb_false_r. reflexivity.
Qed.

(** ** Invariants of the wizard *)

(** What holds of the session between two runs, whatever the user did. *)
Definition steady (s : session) : Prop :=
  1 <= current_step s <= 4
  /\ go_back s = false
  /\ song_list s = Catalog.existing_song_titles_list songs_df
  /\ (forall d, date_input s = Some d -> selected_date s = Some d)
  /\ (2 <= current_step s -> selected_date s <> None)
  /\ (3 <= current_step s -> Py.truthy (search_term_value s) = true)
  /\ (current_step s = 4 -> title_truthy (selected_song_title s) = true)
  /\ (submission_success s = true -> current_step s = 4).

Ltac on_step s :=
  destruct (Z.eqb_spec (current_step s) 1);
  [|destruct (Z.eqb_spec (current_step s) 2);
    [|destruct (Z.eqb_spec (current_step s) 3);
      [|destruct (Z.eqb_spec (current_step s) 4)]]].

Ltac feed :=
  repeat match goal with
  | H : ?P -> ?Q |- _ =>
      let h := fresh in
      assert (h : P) by (lia || congruence);
      specialize (H h); clear h
  end.

Ltac steady_tac :=
  unfold steady in *; cbn in *;
  intuition (feed; try lia; try congruence; auto).

Lemma steady_first today :
  steady (first_run (Catalog.existing_song_titles_list songs_df) today).
Proof. steady_tac. Qed.

Lemma steady_store_date s :
  1 <= current_step s <= 4 -> go_back s = false ->
  song_list s = Catalog.existing_song_titles_list songs_df ->
  date_input s <> None ->
  (3 <= current_step s -> Py.truthy (search_term_value s) = true) ->
  (current_step s = 4 -> title_truthy (selected_song_title s) = true) ->
  (submission_success s = true -> current_step s = 4) ->
  steady (store_date s).
Proof.
  intros. unfold store_date. destruct (date_input s) eqn:E; [|congruence].
  unfold steady. cbn. rewrite E. intuition (try lia; try congruence; auto).
Qed.

Lemma assign_form_fields f s :
  current_step (assign_form f s) = current_step s
  /\ go_back (assign_form f s) = go_back s
  /\ song_list (assign_form f s) = song_list s
  /\ date_input (assign_form f s) = date_input s
  /\ selected_date (assign_form f s) = selected_date s
  /\ search_term_value (assign_form f s) = search_term_value s
  /\ selected_song_title (assign_form f s) = selected_song_title s
  /\ submission_success (assign_form f s) = submission_success s
  /\ is_new_song (assign_form f s) = is_new_song s
  /\ form_submitted (assign_form f s) = form_submitted s
  /\ new_song_title (assign_form f s) = new_song_title s.
Proof. unfold assign_form. destruct (is_new_song s) eqn:E; cbn; auto 12. Qed.

Lemma steady_page e a s : steady s -> steady (page e a s).
Proof.
  intros H. unfold page, next_disabled. on_step s.
  - destruct a; try exact H.
    + destruct d as [d|].
      * apply steady_store_date; cbn; steady_tac.
      * unfold store_date. cbn. steady_tac.
    + destruct (date_input s) as [d|] eqn:E; [|exact H].
      unfold go_to_next_step. steady_tac.
      match goal with Hd : forall d, date_input s = Some d -> _ |- _ =>
        rewrite (Hd _ E) in * end. congruence.
  - destruct a; try exact H.
    + steady_tac.
    + destruct (Py.truthy (search_term_value s)) eqn:E; cbn; [|exact H].
      unfold go_to_next_step. steady_tac.
    + unfold enter_step1, go_to_prev_step.
      apply steady_store_date; cbn; steady_tac.
  - destruct a; try exact H.
    + destruct (Py.mem v (display_options s)); [|exact H].
      unfold handle_song_selection.
      destruct (Py.truthy v); cbn [negb]; [|steady_tac].
      destruct (String.eqb v (add_new_option (search_term_value s)));
        steady_tac.
    + destruct (title_truthy (selected_song_title s)) eqn:E; cbn; [|exact H].
      unfold go_to_next_step. steady_tac.
    + unfold go_to_prev_step. steady_tac.
  - destruct (submission_success s) eqn:Es.
    + destruct a; try exact H.
      unfold enter_step1, reset. apply steady_store_date; cbn; steady_tac.
    + destruct a; try exact H.
      * unfold go_to_prev_step, steady in *. cbn.
        destruct (assign_form_fields f s)
          as (F1 & F2 & F3 & F4 & F5 & F6 & F7 & F8 & _).
        rewrite ?F1, ?F2, ?F3, ?F4, ?F5, ?F6, ?F7, ?F8.
        intuition (feed; try lia; try congruence; auto).
      * unfold steady in *. cbn.
        destruct (assign_form_fields f s)
          as (F1 & F2 & F3 & F4 & F5 & F6 & F7 & F8 & _).
        rewrite ?F1, ?F2, ?F3, ?F4, ?F5, ?F6, ?F7, ?F8.
        intuition (feed; try lia; try congruence; auto).
  - exact H.
Qed.


Lemma store_date_fields s :
  current_step (store_date s) = current_step s
  /\ form_submitted (store_date s) = form_submitted s.
Proof. unfold store_date. destruct (date_input s); cbn; auto. Qed.

Lemma handle_song_selection_fields v s :
  current_step (handle_song_selection v s) = current_step s
  /\ form_submitted (handle_song_selection v s) = form_submitted s.
Proof.
  unfold handle_song_selection. destruct (negb (Py.truthy v)); [cbn; auto|].
  destruct (String.eqb v (add_new_option (search_term_value s))); cbn; auto.
Qed.

Lemma assign_form_flag f s :
  form_submitted (assign_form f s) = form_submitted s.
Proof. apply (assign_form_fields f s). Qed.

Ltac flag_tac H :=
  unfold enter_step1, go_to_next_step, go_to_prev_step, reset in H;
  rewrite ?(fun x => proj2 (store_date_fields x)),
    ?(fun v x => proj2 (handle_song_selection_fields v x)) in H;
  cbn in H; rewrite ?assign_form_flag in H; congruence.

(** Only the submit button of the form raises the flag [form_submitted]. *)
Lemma page_form_submitted e a s :
  form_submitted s = false ->
  form_submitted (page e a s) = true ->
  exists f, a = FormSubmit f /\ current_step s = 4
            /\ submission_success s = false
            /\ page e a s = set_form_submitted true (assign_form f s).
Proof.
  intros H0 H1. unfold page in H1 |- *. on_step s.
  - exfalso. destruct a; try congruence; try destruct (next_disabled s);
      flag_tac H1.
  - exfalso. destruct a; try congruence; try destruct (next_disabled s);
      flag_tac H1.
  - exfalso. destruct a; try congruence; try destruct (next_disabled s);
      try destruct (Py.mem v (display_options s)); flag_tac H1.
  - destruct (submission_success s) eqn:Es.
    + exfalso. destruct a; try congruence; flag_tac H1.
    + destruct a; try congruence; try (exfalso; flag_tac H1).
      exists f. auto.
  - congruence.
Qed.

Lemma handle_submission_session e s ss :
  fst (fst (handle_submission e s ss)) = set_form_submitted false s
  \/ exists d,
       fst (fst (handle_submission e s ss))
       = set_form_submitted false
           (set_submitted_data (Some (submitted d s))
              (set_submission_success true s)).
Proof.
  unfold handle_submission. destruct (validation s) as [[|] errors]; cbn.
  - left. reflexivity.
  - destruct (secrets_configured e);
      [|left; destruct (secrets_unreadable e); reflexivity].
    destruct (write_row e s ss) as [[d|x] ss']; cbn.
    + right. exists d. reflexivity.
    + left. reflexivity.
Qed.

Lemma handle_submission_step e s ss :
  current_step (fst (fst (handle_submission e s ss))) = current_step s.
Proof.
  destruct (handle_submission_session e s ss) as [-> | [d ->]]; reflexivity.
Qed.

Lemma run_step e a w :
  current_step (fst (state_after e a w)) = current_step (page e a (fst w)).
Proof.
  unfold state_after, run.
  destruct (form_submitted (page e a (fst w))); [|reflexivity].
  apply handle_submission_step.
Qed.

Lemma steady_run e a w :
  steady (fst w) -> form_submitted (fst w) = false ->
  steady (fst (state_after e a w))
  /\ form_submitted (fst (state_after e a w)) = false.
Proof.
  intros Hs Hf. pose proof (steady_page e a _ Hs) as Hp.
  unfold state_after, run.
  destruct (form_submitted (page e a (fst w))) eqn:E; [|cbn; auto].
  destruct (page_form_submitted e a _ Hf E) as (f & _ & H4 & _ & Hpage).
  assert (S4 : current_step (page e a (fst w)) = 4).
  { rewrite Hpage. cbn. rewrite (proj1 (assign_form_fields f (fst w))).
    exact H4. }
  destruct (handle_submission_session e (page e a (fst w)) (snd w))
    as [-> | [d ->]]; split; try reflexivity; steady_tac.
Qed.

Lemma reachable_steady w :
  reachable w -> steady (fst w) /\ form_submitted (fst w) = false.
Proof.
  induction 1 as [today ss | e a w _ [IH1 IH2] | s ss ss' _ IH].
  - split; [apply steady_first | reflexivity].
  - apply steady_run; assumption.
  - exact IH.
Qed.


(** ** Step 3: the list offered to the user *)

Lemma add_new_option_truthy t : Py.truthy (add_new_option t) = true.
Proof. reflexivity. Qed.

Lemma add_new_option_offered s :
  Py.mem (add_new_option (search_term_value s)) (display_options s) = true.
Proof.
  apply Py.mem_In. unfold display_options.
  apply in_or_app. right. apply in_or_app. right. now left.
Qed.

(** C3, as amended.  In every reachable state with a non-empty search
    string the list of step 3 is the empty entry, then the titles returned by
    the matcher on the catalog titles with limit 10 and cutoff 50, then the
    declare-as-new option; without a match it is the empty entry and that
    option.  Selecting the option marks the song as new and makes the search
    string its title. *)
Theorem candidate_list_shape (w : session * Sheets.spreadsheet) :
  reachable w ->
  Py.truthy (search_term_value (fst w)) = true ->
  let s := fst w in
  let search_term := search_term_value s in
  let matches :=
    get_fuzzy_matches search_term
      (Catalog.existing_song_titles_list songs_df) 10 50 in
  display_options s
  = [EmptyString] ++ map fst matches ++ [add_new_option search_term]
  /\ (matches = [] ->
      display_options s = [EmptyString; add_new_option search_term])
  /\ (forall e, current_step s = 3 ->
        let s' := page e (SongSelection (add_new_option search_term)) s in
        is_new_song s' = true
        /\ new_song_title s' = search_term
        /\ selected_song_title s' = Some search_term).
Proof.
  intros Hr Ht. cbv zeta.
  destruct (reachable_steady w Hr) as [(_ & _ & Hl & _) _].
  assert (E : display_options (fst w)
              = [EmptyString]
                ++ map fst
                     (get_fuzzy_matches (search_term_value (fst w))
                        (Catalog.existing_song_titles_list songs_df) 10 50)
                ++ [add_new_option (search_term_value (fst w))]).
  { unfold display_options, filtered_songs. cbv zeta.
    rewrite Ht, Hl. reflexivity. }
  split; [exact E | split].
  - intros Hm. rewrite E, Hm. reflexivity.
  - intros e H3. unfold page.
    destruct (Z.eqb_spec (current_step (fst w)) 1); [lia|].
    destruct (Z.eqb_spec (current_step (fst w)) 2); [lia|].
    destruct (Z.eqb_spec (current_step (fst w)) 3); [|lia].
    rewrite add_new_option_offered. unfold handle_song_selection.
    rewrite add_new_option_truthy, String.eqb_refl. cbn. auto.
Qed.

(** C10.  The list of step 3 begins with an empty entry placed before the
    candidates and the declare-as-new option.  Choosing it leaves no song
    selected and the song not new, so that the forward button is disabled
    and pressing it changes nothing. *)
Theorem empty_entry_disables_forward (e : env) (s : session) :
  current_step s = 3 ->
  display_options s
  = EmptyString :: filtered_songs s ++ [add_new_option (search_term_value s)]
  /\ (let s' := page e (SongSelection EmptyString) s in
      selected_song_title s' = None
      /\ is_new_song s' = false
      /\ current_step s' = 3
      /\ next_disabled s' = true
      /\ page e Next s' = s'
      /\ (form_submitted s = false ->
          forall e' ss, state_after e' Next (s', ss) = (s', ss))).
Proof.
  intros H3. split; [reflexivity|]. cbv zeta.
  assert (E : page e (SongSelection EmptyString) s
              = set_selected_song_title None (set_is_new_song false s)).
  { unfold page.
    destruct (Z.eqb_spec (current_step s) 1); [lia|].
    destruct (Z.eqb_spec (current_step s) 2); [lia|].
    destruct (Z.eqb_spec (current_step s) 3); [|lia].
    reflexivity. }
  rewrite E.
  assert (D : next_disabled (set_selected_song_title None
                               (set_is_new_song false s)) = true).
  { unfold next_disabled. cbn.
    destruct (Z.eqb_spec (current_step s) 1); [lia|].
    destruct (Z.eqb_spec (current_step s) 2); [lia|].
    destruct (Z.eqb_spec (current_step s) 3); [reflexivity|lia]. }
  assert (N : forall e', page e' Next (set_selected_song_title None
                                         (set_is_new_song false s))
                         = set_selected_song_title None
                             (set_is_new_song false s)).
  { intros e'. unfold page. rewrite D. cbn.
    destruct (Z.eqb_spec (current_step s) 1); [lia|].
    destruct (Z.eqb_spec (current_step s) 2); [lia|].
    destruct (Z.eqb_spec (current_step s) 3); [reflexivity|lia]. }
  repeat split; auto.
  intros Hf e' ss. unfold state_after, run. cbn [fst snd].
  rewrite N. cbn. rewrite Hf. reflexivity.
Qed.

(** ** Forward transitions *)

Lemma page_forward e a s :
  current_step s < current_step (page e a s) ->
  a = Next /\ next_disabled s = false
  /\ current_step (page e a s) = current_step s + 1.
Proof.
  unfold page. intros H.
  on_step s;
    [| | | destruct (submission_success s) |];
    destruct a; try lia;
    try (destruct (next_disabled s); [lia | cbn; auto]);
    exfalso; revert H;
    unfold enter_step1, go_to_prev_step, reset;
    rewrite ?(fun x => proj1 (store_date_fields x));
    try destruct (Py.mem v (display_options s));
    rewrite ?(fun v x => proj1 (handle_song_selection_fields v x));
    cbn; rewrite ?(fun f x => proj1 (assign_form_fields f x)); lia.
Qed.

(** C5.  From every reachable state a run moves to a later step only through
    the forward button, by one step, and only when the guard of the current
    step holds: a date is selected at step 1, the search string is not empty
    at step 2, a song is selected at step 3.  Step 4 has no forward move. *)
Theorem forward_only_when_guard_holds
    (e : env) (a : action) (w : session * Sheets.spreadsheet) :
  reachable w ->
  current_step (fst w) < current_step (fst (state_after e a w)) ->
  a = Next
  /\ current_step (fst (state_after e a w)) = current_step (fst w) + 1
  /\ current_step (fst w) <= 3
  /\ (current_step (fst w) = 1 ->
      exists d, date_input (fst w) = Some d
                /\ selected_date (fst w) = Some d)
  /\ (current_step (fst w) = 2 -> search_term_value (fst w) <> EmptyString)
  /\ (current_step (fst w) = 3 ->
      exists t, selected_song_title (fst w) = Some t /\ t <> EmptyString).
Proof.
  intros Hr Hlt. rewrite run_step in *.
  destruct (reachable_steady w Hr) as [(Hrange & _ & _ & Hd & _) _].
  destruct (page_forward e a (fst w) Hlt) as (-> & Hn & Hs).
  split; [reflexivity|]. split; [exact Hs|].
  unfold next_disabled in Hn.
  destruct (Z.eqb_spec (current_step (fst w)) 1) as [E1|N1];
    [|destruct (Z.eqb_spec (current_step (fst w)) 2) as [E2|N2];
      [|destruct (Z.eqb_spec (current_step (fst w)) 3) as [E3|N3]]];
    try discriminate; (split; [lia|]);
    (split; [|split]); intros Hstep; try lia.
  - destruct (date_input (fst w)) as [d|] eqn:Ed; [|discriminate].
    exists d. split; [reflexivity | apply Hd; reflexivity].
  - intros Hempty. rewrite Hempty in Hn. discriminate.
  - destruct (selected_song_title (fst w)) as [t|]; [|discriminate].
    exists t. split; [reflexivity|]. intros ->. discriminate.
Qed.


(** ** Writing the row *)

(** [appended_to name x before after]: the document [after] is [before] with
    the row [x] added at the end of its first worksheet titled [name]. *)
Definition appended_to (name : string) (x : Sheets.row)
    (before after : Sheets.spreadsheet) : Prop :=
  exists pre w post,
    before = pre ++ w :: post
    /\ Sheets.title w = name
    /\ (forall w', In w' pre -> Sheets.title w' <> name)
    /\ after = pre ++ {| Sheets.title := name;
                         Sheets.cells := Sheets.cells w ++ [x] |} :: post.

(** The rows in the words of the specification, 4.4. *)
Definition spec_existing_row
    (timestamp liturgy_date song_id_or_empty song_title : string)
    (adequacy : Z) (notes : string) : Sheets.row :=
  [ Sheets.VStr timestamp; Sheets.VStr liturgy_date;
    Sheets.VStr song_id_or_empty; Sheets.VStr song_title;
    Sheets.VStr (percent adequacy); Sheets.VStr notes ].

Definition spec_new_row
    (timestamp liturgy_date song_title author text_link audio_link
       notes : string) (adequacy : Z) : Sheets.row :=
  [ Sheets.VStr timestamp; Sheets.VStr liturgy_date; Sheets.VStr song_title;
    Sheets.VStr author; Sheets.VStr text_link; Sheets.VStr audio_link;
    Sheets.VStr notes; Sheets.VStr (percent adequacy); Sheets.VStr "Nuovo" ].

Lemma all_rows_app a b :
  Sheets.all_rows (a ++ b) = Sheets.all_rows a ++ Sheets.all_rows b.
Proof. unfold Sheets.all_rows. rewrite map_app, concat_app. reflexivity. Qed.

Lemma append_at_appended name x ss i :
  Sheets.index_of name ss = Some i ->
  appended_to name x ss (Sheets.append_at i x ss).
Proof.
  revert i. induction ss as [|w r IH]; intros i; simpl; [discriminate|].
  destruct (String.eqb_spec (Sheets.title w) name) as [E|N].
  - intros [= <-]. exists [], w, r. simpl. rewrite E.
    repeat split; auto; contradiction.
  - destruct (Sheets.index_of name r) as [j|] eqn:Er; simpl; [|discriminate].
    intros [= <-].
    destruct (IH j eq_refl) as (pre & w0 & post & E1 & E2 & E3 & E4).
    exists (w :: pre), w0, post. simpl. rewrite E4, <- E1.
    repeat split; auto. intros w' [<-|H]; [exact N | apply E3, H].
Qed.

Lemma index_of_app name a b :
  Sheets.index_of name (a ++ b)
  = match Sheets.index_of name a with
    | Some i => Some i
    | None => option_map (Nat.add (List.length a)) (Sheets.index_of name b)
    end.
Proof.
  induction a as [|w a IH]; simpl.
  - destruct (Sheets.index_of name b); reflexivity.
  - destruct (String.eqb (Sheets.title w) name); [reflexivity|].
    rewrite IH. destruct (Sheets.index_of name a); [reflexivity|].
    destruct (Sheets.index_of name b); reflexivity.
Qed.

Lemma get_sheets_found r ss i j :
  Sheets.can_read r = true ->
  Sheets.index_of "existing_songs" ss = Some i ->
  Sheets.index_of "new_songs" ss = Some j ->
  get_sheets r ss = (Sheets.Ok (i, j), ss).
Proof.
  intros Hr Hi Hj.
  unfold get_sheets, Sheets.try_except, Sheets.bind, Sheets.worksheet_by_title.
  rewrite Hr, Hi, Hj. reflexivity.
Qed.

Definition fresh_sheet (name : string) : Sheets.worksheet :=
  {| Sheets.title := name; Sheets.cells := [] |}.

(** With both tables missing the script tries to create them, and falls back
    on the first worksheet when that fails. *)
Lemma get_sheets_missing r ss :
  Sheets.can_read r = true ->
  Sheets.index_of "existing_songs" ss = None ->
  Sheets.index_of "new_songs" ss = None ->
  get_sheets r ss
  = if Sheets.can_add r "existing_songs" then
      if Sheets.can_add r "new_songs" then
        (Sheets.Ok (List.length ss, S (List.length ss)),
         ss ++ [fresh_sheet "existing_songs"; fresh_sheet "new_songs"])
      else (Sheets.Ok (O, O), ss ++ [fresh_sheet "existing_songs"])
    else
      match ss with
      | [] => (Sheets.Raise Sheets.WorksheetNotFound, ss)
      | _ :: _ => (Sheets.Ok (O, O), ss)
      end.
Proof.
  intros Hr He Hn.
  unfold get_sheets, Sheets.try_except, Sheets.bind, Sheets.worksheet_by_title,
    Sheets.add_worksheet, Sheets.get_worksheet, Sheets.ret.
  rewrite Hr, He. cbn [Sheets.is_WorksheetNotFound Sheets.any_exception].
  cbv beta. rewrite He.
  destruct (Sheets.can_add r "existing_songs").
  - rewrite index_of_app, Hn. cbn [Sheets.index_of option_map].
    change (String.eqb (Sheets.title
              {| Sheets.title := "existing_songs"; Sheets.cells := [] |})
              "new_songs") with false. cbv iota.
    destruct (Sheets.can_add r "new_songs").
    + rewrite <- app_assoc, length_app. cbn.
      replace (List.length ss + 1)%nat with (S (List.length ss)) by lia.
      reflexivity.
    + assert (L : List.length
                    (ss ++ [{| Sheets.title := "existing_songs";
                               Sheets.cells := [] |}])
                  = S (List.length ss))
        by (rewrite length_app; cbn; lia).
      cbn -[Nat.ltb]. rewrite L.
      change (0 <? S (List.length ss))%nat with true.
      cbn -[Nat.ltb]. rewrite L. reflexivity.
  - destruct ss as [|w ss]; reflexivity.
Qed.

(** Computations that add no row to the document. *)
Definition keeps_rows {A : Type} (m : Sheets.io A) : Prop :=
  forall ss, Sheets.all_rows (snd (m ss)) = Sheets.all_rows ss.

Lemma keeps_rows_ret {A : Type} (a : A) : keeps_rows (Sheets.ret a).
Proof. intros ss. reflexivity. Qed.

Lemma keeps_rows_bind {A B : Type} (m : Sheets.io A) (k : A -> Sheets.io B) :
  keeps_rows m -> (forall a, keeps_rows (k a)) ->
  keeps_rows (Sheets.bind m k).
Proof.
  intros Hm Hk ss. unfold Sheets.bind. specialize (Hm ss).
  destruct (m ss) as [[a|x] ss1]; cbn [snd] in *; [|exact Hm].
  rewrite (Hk a ss1). exact Hm.
Qed.

Lemma keeps_rows_try {A : Type} (m : Sheets.io A) catches handler :
  keeps_rows m -> keeps_rows handler ->
  keeps_rows (Sheets.try_except m catches handler).
Proof.
  intros Hm Hh ss. unfold Sheets.try_except. specialize (Hm ss).
  destruct (m ss) as [[a|x] ss1]; cbn [snd] in *; [exact Hm|].
  destruct (catches x); cbn [snd]; [|exact Hm].
  rewrite (Hh ss1). exact Hm.
Qed.

Lemma keeps_rows_worksheet r name :
  keeps_rows (Sheets.worksheet_by_title r name).
Proof.
  intros ss. unfold Sheets.worksheet_by_title.
  destruct (Sheets.can_read r); [|reflexivity].
  destruct (Sheets.index_of name ss); reflexivity.
Qed.

Lemma keeps_rows_add r name : keeps_rows (Sheets.add_worksheet r name).
Proof.
  intros ss. unfold Sheets.add_worksheet.
  destruct (Sheets.index_of name ss); [reflexivity|].
  destruct (Sheets.can_add r name); [|reflexivity].
  cbn [snd]. rewrite all_rows_app. cbn. apply app_nil_r.
Qed.

Lemma keeps_rows_get r i : keeps_rows (Sheets.get_worksheet r i).
Proof.
  intros ss. unfold Sheets.get_worksheet.
  destruct (Sheets.can_read r); [|reflexivity].
  destruct (i <? List.length ss)%nat; reflexivity.
Qed.

(** Whatever [get_sheets] does, it adds no row. *)
Lemma get_sheets_rows r ss :
  Sheets.all_rows (snd (get_sheets r ss)) = Sheets.all_rows ss.
Proof.
  revert ss. change (keeps_rows (get_sheets r)). unfold get_sheets.
  repeat first
    [ apply keeps_rows_try | apply keeps_rows_bind | intros ?
    | apply keeps_rows_worksheet | apply keeps_rows_add
    | apply keeps_rows_get | apply keeps_rows_ret ].
Qed.

Lemma write_row_raise_rows e s ss x ss' :
  write_row e s ss = (Sheets.Raise x, ss') ->
  Sheets.all_rows ss' = Sheets.all_rows ss.
Proof.
  unfold write_row, Sheets.bind, open_spreadsheet, Sheets.append_row,
    Sheets.ret, Sheets.raise.
  pose proof (get_sheets_rows (remote e) ss) as G.
  destruct (Sheets.can_open (remote e)); [|intros [= _ <-]; reflexivity].
  destruct (get_sheets (remote e) ss) as [[[ex nw]|y] ss1]; cbn [snd] in G;
    [|intros [= _ <-]; exact G].
  destruct (selected_date s); [|intros [= _ <-]; exact G].
  destruct (Sheets.can_append (remote e)); [discriminate|].
  intros [= _ <-]. exact G.
Qed.

Lemma write_row_ok e s ss ss1 ex nw d :
  Sheets.can_open (remote e) = true ->
  Sheets.can_append (remote e) = true ->
  get_sheets (remote e) ss = (Sheets.Ok (ex, nw), ss1) ->
  selected_date s = Some d ->
  write_row e s ss
  = (Sheets.Ok d,
     Sheets.append_at (if negb (is_new_song s) then ex else nw)
       (row_to_submit (Clock.strftime_ymd_hms (now e)) (Clock.strftime_ymd d) s)
       ss1).
Proof.
  intros Ho Ha Hg Hd.
  unfold write_row, Sheets.bind, open_spreadsheet, Sheets.append_row,
    Sheets.ret.
  rewrite Ho, Hg, Hd, Ha. reflexivity.
Qed.



Lemma lower_flag s :
  form_submitted s = false -> set_form_submitted false s = s.
Proof. destruct s. cbn. intros ->. reflexivity. Qed.

Lemma raise_and_lower_flag s :
  form_submitted s = false ->
  set_form_submitted false (set_form_submitted true s) = s.
Proof. destruct s. cbn. intros ->. reflexivity. Qed.

Lemma assign_form_idem f s :
  assign_form f (assign_form f s) = assign_form f s.
Proof.
  unfold assign_form.
  destruct (is_new_song s) eqn:E; cbn; rewrite ?E; reflexivity.
Qed.

Lemma page_submit e f s :
  current_step s = 4 -> submission_success s = false ->
  page e (FormSubmit f) s = set_form_submitted true (assign_form f s).
Proof.
  intros H4 Hs. unfold page. rewrite Hs.
  destruct (Z.eqb_spec (current_step s) 1); [lia|].
  destruct (Z.eqb_spec (current_step s) 2); [lia|].
  destruct (Z.eqb_spec (current_step s) 3); [lia|].
  destruct (Z.eqb_spec (current_step s) 4); [reflexivity|lia].
Qed.

(** C6.  When the user confirms a valid form at step 4 and the write fails
    with an exception, the run shows the generic retry message, leaves the
    session exactly as the form filled it (step 4, same date, song and kind,
    the values just entered), and adds no row; confirming the same form again
    finds the same values. *)
Theorem write_failure_keeps_session
    (e : env) (f : form) (s : session) (ss ss' : Sheets.spreadsheet)
    (x : Sheets.exn) :
  current_step s = 4 ->
  submission_success s = false ->
  form_submitted s = false ->
  fst (validation (assign_form f s)) = false ->
  secrets_configured e = true ->
  write_row e (set_form_submitted true (assign_form f s)) ss
  = (Sheets.Raise x, ss') ->
  let s' := fst (fst (run e (FormSubmit f) (s, ss))) in
  run e (FormSubmit f) (s, ss) = (assign_form f s, ss', [Error msg_retry])
  /\ current_step s' = 4
  /\ selected_date s' = selected_date s
  /\ selected_song_title s' = selected_song_title s
  /\ is_new_song s' = is_new_song s
  /\ notes s' = f_notes f
  /\ adequacy_percentage s' = f_adequacy f
  /\ (is_new_song s = true ->
      author s' = f_author f /\ text_link s' = f_text_link f
      /\ audio_link s' = f_audio_link f)
  /\ Sheets.all_rows ss' = Sheets.all_rows ss
  /\ page e (FormSubmit f) s' = page e (FormSubmit f) s.
Proof.
  intros H4 Hs Hf Hv Hsec Hw. cbv zeta.
  assert (R : run e (FormSubmit f) (s, ss)
              = (assign_form f s, ss', [Error msg_retry])).
  { unfold run. cbn [fst snd]. rewrite (page_submit e f s H4 Hs).
    cbn [form_submitted set_form_submitted]. unfold handle_submission.
    change (validation (set_form_submitted true (assign_form f s)))
      with (validation (assign_form f s)).
    destruct (validation (assign_form f s)) as [rejected errors].
    cbn in Hv. subst rejected. cbn [negb]. rewrite Hsec, Hw.
    rewrite raise_and_lower_flag; [reflexivity|].
    rewrite assign_form_flag. exact Hf. }
  rewrite R. cbn [fst snd].
  destruct (assign_form_fields f s)
    as (F1 & _ & _ & _ & F5 & _ & F7 & F8 & F9 & _).
  split; [reflexivity|]. split; [congruence|].
  split; [exact F5|]. split; [exact F7|]. split; [exact F9|].
  split; [unfold assign_form; destruct (is_new_song s); reflexivity|].
  split; [unfold assign_form; destruct (is_new_song s); reflexivity|].
  split; [intros Hn; unfold assign_form; rewrite Hn; cbn; auto|].
  split; [exact (write_row_raise_rows _ _ _ _ _ Hw)|].
  rewrite !page_submit; try congruence.
  rewrite assign_form_idem. reflexivity.
Qed.

(** C8, as amended.  With both tables missing at submission time the script
    tries to create them and, when that works, writes the row to the new
    table of its kind.  When creation fails it falls back on the first
    worksheet of the document and writes the row there.  When the write
    itself is refused nothing is added, the generic retry message is shown
    and the session is left as it was.  In every case the session stays on
    step 4. *)
Theorem missing_tables_fallback
    (e : env) (s : session) (first : Sheets.worksheet)
    (rest : list Sheets.worksheet) (d : Clock.date) :
  let ss := first :: rest in
  let r := remote e in
  Sheets.index_of "existing_songs" ss = None ->
  Sheets.index_of "new_songs" ss = None ->
  Sheets.can_open r = true ->
  Sheets.can_read r = true ->
  fst (validation s) = false ->
  secrets_configured e = true ->
  selected_date s = Some d ->
  current_step s = 4 ->
  let result := handle_submission e s ss in
  let row :=
    row_to_submit (Clock.strftime_ymd_hms (now e)) (Clock.strftime_ymd d) s in
  (Sheets.can_add r "existing_songs" = true ->
   Sheets.can_add r "new_songs" = true ->
   Sheets.can_append r = true ->
   appended_to (if is_new_song s then "new_songs" else "existing_songs") row
     (ss ++ [fresh_sheet "existing_songs"; fresh_sheet "new_songs"])
     (snd (fst result))
   /\ submission_success (fst (fst result)) = true)
  /\ (Sheets.can_add r "existing_songs" = false
      \/ Sheets.can_add r "new_songs" = false ->
      Sheets.can_append r = true ->
      exists created,
        (created = [] \/ created = [fresh_sheet "existing_songs"])
        /\ snd (fst result)
           = {| Sheets.title := Sheets.title first;
                Sheets.cells := Sheets.cells first ++ [row] |}
             :: rest ++ created
        /\ submission_success (fst (fst result)) = true
        /\ snd result = [Success msg_thanks])
  /\ (Sheets.can_append r = false ->
      Sheets.all_rows (snd (fst result)) = Sheets.all_rows ss
      /\ snd result = [Error msg_retry]
      /\ fst (fst result) = set_form_submitted false s)
  /\ current_step (fst (fst result)) = 4.
Proof.
  cbv zeta. intros He Hn Ho Hr Hv Hsec Hd H4.
  pose proof (get_sheets_missing (remote e) (first :: rest) Hr He Hn) as G.
  split; [|split; [|split]].
  - intros A1 A2 Ha. rewrite A1, A2 in G.
    unfold handle_submission.
    destruct (validation s) as [rejected errors]. cbn in Hv. subst rejected.
    cbn [negb]. rewrite Hsec, (write_row_ok e s _ _ _ _ d Ho Ha G Hd).
    cbn [fst snd]. split; [|reflexivity].
    destruct (is_new_song s); cbn [negb]; apply append_at_appended;
      rewrite index_of_app; [rewrite Hn | rewrite He];
      unfold fresh_sheet; cbn -[Nat.add List.length]; f_equal; lia.
  - intros A Ha. unfold handle_submission.
    destruct (validation s) as [rejected errors]. cbn in Hv. subst rejected.
    cbn [negb]. rewrite Hsec.
    destruct (Sheets.can_add (remote e) "existing_songs") eqn:A1.
    + destruct A as [A|A]; [discriminate|]. rewrite A in G.
      rewrite (write_row_ok e s _ _ _ _ d Ho Ha G Hd). cbn [fst snd].
      exists [fresh_sheet "existing_songs"].
      split; [now right|]. split; [|split; reflexivity].
      destruct (is_new_song s); reflexivity.
    + rewrite (write_row_ok e s _ _ _ _ d Ho Ha G Hd). cbn [fst snd].
      exists []. split; [now left|]. rewrite app_nil_r.
      split; [|split; reflexivity].
      destruct (is_new_song s); reflexivity.
  - intros Ha. unfold handle_submission.
    destruct (validation s) as [rejected errors]. cbn in Hv. subst rejected.
    cbn [negb]. rewrite Hsec.
    destruct (write_row e s (first :: rest)) as [[d'|y] ss'] eqn:W.
    + exfalso. revert W.
      unfold write_row, Sheets.bind, open_spreadsheet, Sheets.append_row,
        Sheets.ret, Sheets.raise.
      rewrite Ho. destruct (get_sheets (remote e) (first :: rest)) as [[p|y] t];
        [|discriminate].
      rewrite Hd, Ha. discriminate.
    + cbn [fst snd]. split; [|split; reflexivity].
      exact (write_row_raise_rows _ _ _ _ _ W).
  - rewrite handle_submission_step. exact H4.
Qed.


(** ** After a successful write *)

(** The thank-you page reacts to its one button only. *)
Lemma success_page_waits e a s :
  current_step s = 4 -> submission_success s = true ->
  a <> NewSuggestion -> page e a s = s.
Proof.
  intros H4 Hs Ha. unfold page. rewrite Hs.
  destruct (Z.eqb_spec (current_step s) 1); [lia|].
  destruct (Z.eqb_spec (current_step s) 2); [lia|].
  destruct (Z.eqb_spec (current_step s) 3); [lia|].
  destruct (Z.eqb_spec (current_step s) 4); [|lia].
  destruct a; congruence.
Qed.

(** What the button of the thank-you page resets, and what it leaves. *)
Lemma new_suggestion_fields e s :
  current_step s = 4 -> submission_success s = true ->
  let s' := page e NewSuggestion s in
  current_step s' = 1
  /\ selected_song_title s' = None /\ is_new_song s' = false
  /\ author s' = EmptyString /\ text_link s' = EmptyString
  /\ audio_link s' = EmptyString /\ notes s' = EmptyString
  /\ adequacy_percentage s' = 50
  /\ submission_success s' = false /\ form_submitted s' = false
  /\ song_title_input s' = Some EmptyString
  /\ search_term_value s' = search_term_value s
  /\ new_song_title s' = new_song_title s.
Proof.
  intros H4 Hs. cbv zeta. unfold page. rewrite Hs.
  destruct (Z.eqb_spec (current_step s) 1); [lia|].
  destruct (Z.eqb_spec (current_step s) 2); [lia|].
  destruct (Z.eqb_spec (current_step s) 3); [lia|].
  destruct (Z.eqb_spec (current_step s) 4); [|lia].
  unfold enter_step1, store_date. cbn. repeat split.
Qed.

End Script.

(** ** A sample catalog, document and session *)

Module Sample.

(** Two rows share a title; one id is missing and one is no number, so
    that pandas keeps the ids as texts. *)
Definition catalog : Catalog.dataframe :=
  {| Catalog.has_id_canti := true;
     Catalog.rows :=
       [ {| Catalog.titolo := "Resta Con Noi";
            Catalog.id_canti := Catalog.Text "12" |};
         {| Catalog.titolo := "Resta Con Noi";
            Catalog.id_canti := Catalog.Text "99" |};
         {| Catalog.titolo := "Gloria"; Catalog.id_canti := Catalog.NaN |};
         {| Catalog.titolo := "Santo";
            Catalog.id_canti := Catalog.Text "S-3" |} ] |}.

Definition titles : list string := Catalog.existing_song_titles_list catalog.

(** The similarity library is not installed: its entry point is never
    called, any function will do. *)
Definition no_library (query : string) (choices : list string)
    (score_cutoff limit : Z) : list (string * Z) := [].

Definition day : Clock.date :=
  {| Clock.year := 2024; Clock.month := 3; Clock.day := 10 |}.

Definition clock : Clock.datetime :=
  {| Clock.on_day := day; Clock.hour := 9; Clock.minute := 5;
     Clock.second := 7 |}.

Definition allow_all : Sheets.remote :=
  {| Sheets.can_open := true; Sheets.can_read := true;
     Sheets.can_add := fun _ => true; Sheets.can_append := true |}.

Definition no_new_tabs : Sheets.remote :=
  {| Sheets.can_open := true; Sheets.can_read := true;
     Sheets.can_add := fun _ => false; Sheets.can_append := true |}.

Definition read_only : Sheets.remote :=
  {| Sheets.can_open := true; Sheets.can_read := true;
     Sheets.can_add := fun _ => false; Sheets.can_append := false |}.

Definition env_of (r : Sheets.remote) : env :=
  {| now := clock; secrets_configured := true; secrets_unreadable := false;
     remote := r |}.

Definition sheet1 : Sheets.worksheet :=
  {| Sheets.title := "Sheet1"; Sheets.cells := [] |}.

(** A document without the two tables, and one with them. *)
Definition bare : Sheets.spreadsheet := [sheet1].

Definition with_tables : Sheets.spreadsheet :=
  [ sheet1;
    {| Sheets.title := "existing_songs"; Sheets.cells := [] |};
    {| Sheets.title := "new_songs"; Sheets.cells := [] |} ].

Definition go (e : env) (a : action) (w : session * Sheets.spreadsheet)
    : session * Sheets.spreadsheet :=
  state_after false no_library catalog e a w.

Definition start (doc : Sheets.spreadsheet) : session * Sheets.spreadsheet :=
  (first_run titles day, doc).

(** The user picks the date, moves on and types a title. *)
Definition searched (term : string) (doc : Sheets.spreadsheet)
    : session * Sheets.spreadsheet :=
  go (env_of allow_all) Next
    (go (env_of allow_all) (SearchInput term)
       (go (env_of allow_all) Next (start doc))).

(** ... selects the catalog song and moves on to the form. *)
Definition at_form (doc : Sheets.spreadsheet)
    : session * Sheets.spreadsheet :=
  go (env_of allow_all) Next
    (go (env_of allow_all) (SongSelection "Resta Con Noi")
       (searched "resta" doc)).

(** The spec's example, with blanks around the notes. *)
Definition answers : form :=
  {| f_author := ""; f_text_link := ""; f_audio_link := "";
     f_adequacy := 75; f_notes := " ben adatto " |}.

(** The session when the form of step 4 is shown, and once filled. *)
Definition session_at_form : session :=
  Eval vm_compute in fst (at_form bare).

Definition filled : session :=
  Eval vm_compute in assign_form answers session_at_form.

End Sample.

Lemma session_at_form_reached doc :
  Sample.at_form doc = (Sample.session_at_form, doc).
Proof. vm_compute. reflexivity. Qed.

(** The round trips of the specification, section 8. *)
Example existing_song_round_trip :
  row_to_submit Sample.catalog "2024-03-10 09:05:07" "2024-03-10"
    (set_notes "ben adatto"
       (set_adequacy_percentage 75 (fst (Sample.at_form Sample.bare))))
  = spec_existing_row "2024-03-10 09:05:07" "2024-03-10" "12" "Resta Con Noi"
      75 "ben adatto".
Proof. vm_compute. reflexivity. Qed.

Example new_song_round_trip :
  row_to_submit Sample.catalog "2024-04-01 10:00:00" "2024-04-01"
    (set_notes "proposta"
       (set_adequacy_percentage 60
          (set_author "M. Rossi"
             (set_is_new_song true
                (set_selected_song_title (Some "Canto Nuovo")
                   (first_run Sample.titles Sample.day))))))
  = spec_new_row "2024-04-01 10:00:00" "2024-04-01" "Canto Nuovo" "M. Rossi"
      "" "" "proposta" 60.
Proof. vm_compute. reflexivity. Qed.

(** ** The theorems at concrete inputs *)

(** A no-break space is whitespace for [str.strip]: an author made of one
    alone is missing. *)
Example validator_no_break_space :
  validation
    (set_notes "proposta"
       (set_author (Py.encode [160%N])
          (set_is_new_song true (first_run Sample.titles Sample.day))))
  = (true, [Error msg_author]).
Proof. vm_compute. reflexivity. Qed.


Example degraded_matcher_run :
  get_fuzzy_matches false Sample.no_library "resta"
    ["Resta Con Noi"; "Gloria"; "Tu RESTA qui"; "resta"] 2 50
  = [("Resta Con Noi", 100); ("Tu RESTA qui", 100)].
Proof. vm_compute. reflexivity. Qed.

(** Accented capitals are lowered as Python lowers them. *)
Example degraded_matcher_accents :
  get_fuzzy_matches false Sample.no_library "è"
    ["È Natale"; "E Natale"; "Perchè"] 10 50
  = [("È Natale", 100); ("Perchè", 100)].
Proof. vm_compute. reflexivity. Qed.


(** Of two rows with the same title the first gives the id. *)
Lemma song_id_field_witness :
  nth_error
    (row_to_submit Sample.catalog "2024-03-10 09:05:07" "2024-03-10"
       Sample.session_at_form) 2
  = Some (Sheets.VStr "12").
Proof.
  destruct (song_id_field Sample.catalog "2024-03-10 09:05:07" "2024-03-10"
              Sample.session_at_form "Resta Con Noi"
              eq_refl eq_refl) as (field & Hrow & Hfirst & _).
  rewrite Hrow.
  destruct (Hfirst []
              {| Catalog.titolo := "Resta Con Noi";
                 Catalog.id_canti := Catalog.Text "12" |}
              [ {| Catalog.titolo := "Resta Con Noi";
                   Catalog.id_canti := Catalog.Text "99" |};
                {| Catalog.titolo := "Gloria";
                   Catalog.id_canti := Catalog.NaN |};
                {| Catalog.titolo := "Santo";
                   Catalog.id_canti := Catalog.Text "S-3" |} ]
              eq_refl eq_refl (fun r' (F : In r' []) => match F with end))
    as [Hid _].
  rewrite Hid; [reflexivity | split; [reflexivity | discriminate]].
Defined.

(** The catalog of the sample titles with the given [id_canti] column. *)
Definition numbered (ids : list Catalog.cell) : Catalog.dataframe :=
  Catalog.table ["Resta Con Noi"; "Resta Con Noi"; "Gloria"; "Santo"] ids.

(** C4: a catalog file whose ids are whole numbers, one of them missing, is
    read with a floating-point id column, and the id 12 of the selected
    title is written to the sheet as [12.0]; with no id missing the same
    submission writes [12]. *)
Lemma float_id_is_not_the_catalog_id :
  let e := Sample.env_of Sample.allow_all in
  let w := (Sample.session_at_form, Sample.with_tables) in
  let written songs_df :=
    Sheets.all_rows
      (snd (state_after false Sample.no_library songs_df e
              (FormSubmit Sample.answers) w)) in
  exists gap full r,
    Catalog.read_whole_numbers [Some 12; Some 99; None; Some 3] = Some gap
    /\ Catalog.read_whole_numbers [Some 12; Some 99; Some 7; Some 3]
       = Some full
    /\ reachable false Sample.no_library (numbered gap) w
    /\ is_new_song (fst w) = false
    /\ selected_song_title (fst w) = Some "Resta Con Noi"%string
    /\ Catalog.empty (numbered gap) = false
    /\ Catalog.has_id_canti (numbered gap) = true
    /\ Catalog.first_row (numbered gap) "Resta Con Noi" = Some r
    /\ Catalog.isna (Catalog.id_canti r) = false
    /\ written (numbered gap)
       = [spec_existing_row "2024-03-10 09:05:07" "2024-03-10" "12.0"
            "Resta Con Noi" 75 "ben adatto"]
    /\ written (numbered full)
       = [spec_existing_row "2024-03-10 09:05:07" "2024-03-10" "12"
            "Resta Con Noi" 75 "ben adatto"]
    /\ "12.0"%string <> Py.str_int 12.
Proof.
  cbv zeta.
  exists [Catalog.Float "12.0"; Catalog.Float "99.0"; Catalog.NaN;
          Catalog.Float "3.0"],
    [Catalog.Int 12; Catalog.Int 99; Catalog.Int 7; Catalog.Int 3],
    {| Catalog.titolo := "Resta Con Noi";
       Catalog.id_canti := Catalog.Float "12.0" |}.
  split; [vm_compute; reflexivity|]. split; [vm_compute; reflexivity|].
  split.
  { set (df := numbered [Catalog.Float "12.0"; Catalog.Float "99.0";
                         Catalog.NaN; Catalog.Float "3.0"]).
    set (go := state_after false Sample.no_library df
                 (Sample.env_of Sample.allow_all)).
    assert (E : (Sample.session_at_form, Sample.with_tables)
                = go Next
                    (go (SongSelection "Resta Con Noi")
                       (go Next
                          (go (SearchInput "resta")
                             (go Next
                                (first_run
                                   (Catalog.existing_song_titles_list df)
                                   Sample.day, Sample.with_tables))))))
      by (vm_compute; reflexivity).
    rewrite E. unfold go. do 5 apply reach_run. apply reach_first. }
  repeat split; try (vm_compute; reflexivity).
  vm_compute. discriminate.
Qed.

Lemma searched_reachable term doc :
  reachable false Sample.no_library Sample.catalog (Sample.searched term doc).
Proof.
  unfold Sample.searched, Sample.go, Sample.start, Sample.titles.
  apply reach_run, reach_run, reach_run, reach_first.
Qed.

Lemma candidate_list_witness :
  display_options false Sample.no_library
    (fst (Sample.searched "glo" Sample.bare))
  = [""%string; "Gloria"%string; add_new_option "glo"].
Proof.
  exact (proj1 (candidate_list_shape false Sample.no_library Sample.catalog
                  (Sample.searched "glo" Sample.bare)
                  (searched_reachable "glo" Sample.bare) eq_refl)).
Defined.

(** C3 as the claim states it fails: with no match in the catalog the list
    of step 3 is not the declare-as-new option alone. *)
Lemma candidate_list_has_empty_entry :
  let s := fst (Sample.searched "zzz" Sample.bare) in
  current_step s = 3
  /\ search_term_value s = "zzz"%string
  /\ get_fuzzy_matches false Sample.no_library "zzz" Sample.titles 10 50 = []
  /\ display_options false Sample.no_library s
     <> map fst (get_fuzzy_matches false Sample.no_library "zzz"
                   Sample.titles 10 50)
        ++ [add_new_option "zzz"].
Proof.
  cbv zeta. repeat split; try (vm_compute; reflexivity).
  vm_compute. discriminate.
Qed.

Lemma empty_entry_witness :
  next_disabled
    (page false Sample.no_library (Sample.env_of Sample.allow_all)
       (SongSelection "") (fst (Sample.searched "resta" Sample.bare)))
  = true.
Proof.
  exact (proj1 (proj2 (proj2 (proj2 (proj2
           (empty_entry_disables_forward false Sample.no_library
              Sample.catalog (Sample.env_of Sample.allow_all)
              (fst (Sample.searched "resta" Sample.bare)) eq_refl)))))).
Defined.

Lemma forward_guard_witness :
  exists d,
    date_input (fst (Sample.start Sample.bare)) = Some d
    /\ selected_date (fst (Sample.start Sample.bare)) = Some d.
Proof.
  refine (proj1 (proj2 (proj2 (proj2
            (forward_only_when_guard_holds false Sample.no_library
               Sample.catalog (Sample.env_of Sample.allow_all) Next
               (Sample.start Sample.bare) _ _)))) eq_refl).
  - apply reach_first.
  - reflexivity.
Defined.




Lemma write_failure_witness :
  run false Sample.no_library Sample.catalog (Sample.env_of Sample.read_only)
    (FormSubmit Sample.answers) (Sample.session_at_form, Sample.with_tables)
  = (assign_form Sample.answers Sample.session_at_form,
     Sample.with_tables, [Error msg_retry]).
Proof.
  exact (proj1 (write_failure_keeps_session false Sample.no_library
                  Sample.catalog (Sample.env_of Sample.read_only)
                  Sample.answers Sample.session_at_form
                  Sample.with_tables Sample.with_tables Sheets.APIError
                  eq_refl eq_refl eq_refl eq_refl eq_refl eq_refl)).
Defined.

(** C7: the reset of the thank-you page clears the working fields but not
    the search string, which the next step 2 shows again. *)
Lemma new_suggestion_keeps_search_string :
  let e := Sample.env_of Sample.allow_all in
  let sent := Sample.go e (FormSubmit Sample.answers)
                (Sample.at_form Sample.bare) in
  let again := Sample.go e NewSuggestion sent in
  submission_success (fst sent) = true
  /\ search_term_value (fst sent) = "resta"%string
  /\ current_step (fst again) = 1
  /\ selected_song_title (fst again) = None
  /\ is_new_song (fst again) = false
  /\ author (fst again) = EmptyString
  /\ text_link (fst again) = EmptyString
  /\ audio_link (fst again) = EmptyString
  /\ notes (fst again) = EmptyString
  /\ adequacy_percentage (fst again) = 50
  /\ song_title_input (fst again) = Some EmptyString
  /\ search_term_value (fst again) = "resta"%string
  /\ search_term_value (fst again) <> EmptyString.
Proof.
  cbv zeta. repeat split; try (vm_compute; reflexivity).
  vm_compute. discriminate.
Qed.

(** C8 as the claim states it fails: with both tables missing and their
    creation refused, the row is still written, on the first worksheet, and
    the user is thanked. *)
Lemma creation_failure_still_writes :
  let e := Sample.env_of Sample.no_new_tabs in
  let w := Sample.at_form Sample.bare in
  let result :=
    run false Sample.no_library Sample.catalog e (FormSubmit Sample.answers) w
  in
  Sheets.index_of "existing_songs" (snd w) = None
  /\ Sheets.index_of "new_songs" (snd w) = None
  /\ (forall name, Sheets.can_add (remote e) name = false)
  /\ Sheets.all_rows (snd w) = []
  /\ snd (fst result)
     = [ {| Sheets.title := "Sheet1";
            Sheets.cells :=
              [spec_existing_row "2024-03-10 09:05:07" "2024-03-10" "12"
                 "Resta Con Noi" 75 "ben adatto"] |} ]
  /\ Sheets.all_rows (snd (fst result)) <> Sheets.all_rows (snd w)
  /\ snd result = [Success msg_thanks].
Proof.
  cbv zeta. repeat split; try (vm_compute; reflexivity).
  vm_compute. discriminate.
Qed.

Lemma fallback_witness :
  let e := Sample.env_of Sample.no_new_tabs in
  let result := handle_submission Sample.catalog e Sample.filled Sample.bare in
  let row :=
    row_to_submit Sample.catalog (Clock.strftime_ymd_hms (now e))
      (Clock.strftime_ymd Sample.day) Sample.filled in
  exists created,
    (created = [] \/ created = [fresh_sheet "existing_songs"])
    /\ snd (fst result)
       = {| Sheets.title := Sheets.title Sample.sheet1;
            Sheets.cells := Sheets.cells Sample.sheet1 ++ [row] |}
         :: [] ++ created
    /\ submission_success (fst (fst result)) = true
    /\ snd result = [Success msg_thanks].
Proof.
  cbv zeta.
  exact (proj1 (proj2
           (missing_tables_fallback Sample.catalog
              (Sample.env_of Sample.no_new_tabs) Sample.filled
              Sample.sheet1 [] Sample.day
              eq_refl eq_refl eq_refl eq_refl eq_refl eq_refl eq_refl eq_refl))
           (or_introl eq_refl) eq_refl).
Defined.

(** * Further properties of the script *)

(** ** The header of the page *)

(** Lines 215-220: the dictionary [step_text]; [None] stands for the
    [KeyError] of a key that is not there. *)
Definition step_text (step : Z) : option string :=
  if (step =? 1)%Z then Some "Data della liturgia"
  else if (step =? 2)%Z then Some "Cerca canto"
  else if (step =? 3)%Z then Some "Seleziona canto"
  else if (step =? 4)%Z then Some "Completa e invia"
  else None.

(** ** Trimmed text *)

(** [cell] is [raw] without the whitespace around it: whitespace only was
    removed, and none is left at either end. *)
Definition trimmed_of (raw cell : string) : Prop :=
  exists before kept after,
    Py.decode raw = before ++ kept ++ after
    /\ cell = Py.encode kept
    /\ Forall (fun c => Py.isspace c = true) before
    /\ Forall (fun c => Py.isspace c = true) after
    /\ (forall c, hd_error kept = Some c -> Py.isspace c = false)
    /\ (forall c, hd_error (rev kept) = Some c -> Py.isspace c = false).

Lemma strip_trimmed_of raw : trimmed_of raw (Py.strip raw).
Proof.
  unfold trimmed_of, Py.strip.
  destruct (Py.lstrip_split (Py.decode raw)) as (a & Ea & Ha).
  destruct (Py.rstrip_split (Py.lstrip (Py.decode raw))) as (b & Eb & Hb).
  exists a, (Py.rstrip (Py.lstrip (Py.decode raw))), b.
  rewrite <- Eb.
  split; [exact Ea|]. split; [reflexivity|].
  split; [apply Forall_forall, forallb_forall, Ha|].
  split; [apply Forall_forall, forallb_forall, Hb|].
  split.
  - intros c Hc. apply Py.rstrip_first in Hc.
    apply (Py.lstrip_first (Py.decode raw) c Hc).
  - apply Py.rstrip_last.
Qed.

(** ** The catalog titles *)




Lemma In_firstn {A : Type} n (l : list A) x : In x (firstn n l) -> In x l.
Proof.
  intros H. rewrite <- (firstn_skipn n l). apply in_or_app. now left.
Qed.

Lemma In_slice_to {A : Type} limit (l : list A) x :
  In x (Py.slice_to limit l) -> In x l.
Proof. unfold Py.slice_to. destruct (0 <=? limit)%Z; apply In_firstn. Qed.

(** ** Dates as text *)

(** Lines 33-34; the pages of step 4 format the date the same way
    (lines 351, 422 and 468). *)
Definition format_date_italian (date : Clock.date) : string :=
  (Clock.two_digits (Clock.day date) ++ "/"
   ++ Clock.two_digits (Clock.month date) ++ "/"
   ++ Py.str_int (Clock.year date))%string.

Lemma digit_inj a b :
  0 <= a <= 9 -> 0 <= b <= 9 -> Clock.digit a = Clock.digit b -> a = b.
Proof.
  intros Ha Hb E. unfold Clock.digit in E.
  apply (f_equal nat_of_ascii) in E.
  rewrite !nat_ascii_embedding in E by lia. lia.
Qed.

Lemma two_digits_inj n m :
  0 <= n <= 99 -> 0 <= m <= 99 ->
  Clock.two_digits n = Clock.two_digits m -> n = m.
Proof.
  intros Hn Hm E. unfold Clock.two_digits in E.
  injection E as E1 E2.
  assert (B : forall k, 0 <= k <= 99 -> 0 <= k / 10 <= 9 /\ 0 <= k mod 10 <= 9).
  { intros k Hk. split.
    - split; [apply Z.div_pos; lia|].
      assert (k / 10 < 10) by (apply Z.div_lt_upper_bound; lia). lia.
    - pose proof (Z.mod_pos_bound k 10). lia. }
  apply digit_inj in E1; [|apply B; assumption ..].
  apply digit_inj in E2; [|apply B; assumption ..].
  rewrite (Z.div_mod n 10), (Z.div_mod m 10) by lia. congruence.
Qed.

Lemma str_int_inj a b : Py.str_int a = Py.str_int b -> a = b.
Proof.
  unfold Py.str_int. intros E.
  apply (f_equal NilEmpty.int_of_string) in E.
  rewrite !NilEmpty.isi in E. injection E as E.
  apply DecimalZ.to_int_inj, E.
Qed.

Lemma looks_like_split p a b x y :
  Clock.looks_like p a = true -> Clock.looks_like p b = true ->
  (a ++ x)%string = (b ++ y)%string -> a = b /\ x = y.
Proof.
  revert a b. induction p as [|c p IH]; intros [|ca a] [|cb b];
    cbn [Clock.looks_like]; try discriminate.
  - auto.
  - intros Ha Hb E. apply andb_true_iff in Ha as [_ Ha].
    apply andb_true_iff in Hb as [_ Hb].
    cbn [append] in E. injection E as -> E.
    destruct (IH a b Ha Hb E) as [-> ->]. auto.
Qed.

(** ** The document only grows *)

(** [grows_from before after]: every worksheet of [before] is still at its
    place in [after], under its title, with its rows followed by new ones. *)
Definition grows_from (before after : Sheets.spreadsheet) : Prop :=
  forall i w,
    nth_error before i = Some w ->
    exists w',
      nth_error after i = Some w'
      /\ Sheets.title w' = Sheets.title w
      /\ exists extra, Sheets.cells w' = Sheets.cells w ++ extra.

(** Computations that only add empty worksheets, at most [n] of them, at the
    end of the document. *)
Definition adds_tabs {A : Type} (n : nat) (m : Sheets.io A) : Prop :=
  forall ss,
    exists tabs,
      snd (m ss) = ss ++ tabs
      /\ Forall (fun w => Sheets.cells w = []) tabs
      /\ (List.length tabs <= n)%nat.

Lemma adds_tabs_none {A : Type} (m : Sheets.io A) :
  (forall ss, snd (m ss) = ss) -> adds_tabs 0 m.
Proof.
  intros H ss. exists []. rewrite H, app_nil_r. repeat split; auto.
Qed.

Lemma adds_tabs_bind {A B : Type} n k (m : Sheets.io A)
    (f : A -> Sheets.io B) :
  adds_tabs n m -> (forall a, adds_tabs k (f a)) ->
  adds_tabs (n + k) (Sheets.bind m f).
Proof.
  intros Hm Hf ss. unfold Sheets.bind.
  destruct (Hm ss) as (t1 & E1 & F1 & L1).
  destruct (m ss) as [[a|x] ss1]; cbn [snd] in *.
  - destruct (Hf a ss1) as (t2 & E2 & F2 & L2). exists (t1 ++ t2).
    rewrite E2, E1, app_assoc, length_app. repeat split; [|lia].
    apply Forall_app. auto.
  - exists t1. repeat split; auto. lia.
Qed.

Lemma adds_tabs_try {A : Type} n k (m : Sheets.io A) catches handler :
  adds_tabs n m -> adds_tabs k handler ->
  adds_tabs (n + k) (Sheets.try_except m catches handler).
Proof.
  intros Hm Hh ss. unfold Sheets.try_except.
  destruct (Hm ss) as (t1 & E1 & F1 & L1).
  destruct (m ss) as [[a|x] ss1]; cbn [snd] in *.
  - exists t1. repeat split; auto. lia.
  - destruct (catches x); cbn [snd].
    + destruct (Hh ss1) as (t2 & E2 & F2 & L2). exists (t1 ++ t2).
      rewrite E2, E1, app_assoc, length_app. repeat split; [|lia].
      apply Forall_app. auto.
    + exists t1. repeat split; auto. lia.
Qed.

Lemma adds_tabs_worksheet r name :
  adds_tabs 0 (Sheets.worksheet_by_title r name).
Proof.
  apply adds_tabs_none. intros ss. unfold Sheets.worksheet_by_title.
  destruct (Sheets.can_read r); [|reflexivity].
  destruct (Sheets.index_of name ss); reflexivity.
Qed.

Lemma adds_tabs_get r i : adds_tabs 0 (Sheets.get_worksheet r i).
Proof.
  apply adds_tabs_none. intros ss. unfold Sheets.get_worksheet.
  destruct (Sheets.can_read r); [|reflexivity].
  destruct (i <? List.length ss)%nat; reflexivity.
Qed.

Lemma adds_tabs_add r name : adds_tabs 1 (Sheets.add_worksheet r name).
Proof.
  intros ss. unfold Sheets.add_worksheet.
  destruct (Sheets.index_of name ss);
    [exists []; rewrite app_nil_r; repeat split; auto|].
  destruct (Sheets.can_add r name);
    [|exists []; rewrite app_nil_r; repeat split; auto].
  exists [{| Sheets.title := name; Sheets.cells := [] |}].
  repeat split; auto.
Qed.

Lemma adds_tabs_ret {A : Type} (a : A) : adds_tabs 0 (Sheets.ret a).
Proof. apply adds_tabs_none. reflexivity. Qed.

Lemma get_sheets_adds_tabs r : adds_tabs 2 (get_sheets r).
Proof.
  unfold get_sheets.
  apply (adds_tabs_try 0 2).
  - apply (adds_tabs_bind 0 0); [apply adds_tabs_worksheet|]. intros ex.
    apply (adds_tabs_bind 0 0); [apply adds_tabs_worksheet|]. intros nw.
    apply adds_tabs_ret.
  - apply (adds_tabs_try 2 0).
    + apply (adds_tabs_bind 1 1); [apply adds_tabs_add|]. intros ex.
      apply (adds_tabs_bind 1 0); [apply adds_tabs_add|]. intros nw.
      apply adds_tabs_ret.
    + apply (adds_tabs_bind 0 0); [apply adds_tabs_get|]. intros ex.
      apply (adds_tabs_bind 0 0); [apply adds_tabs_get|]. intros nw.
      apply adds_tabs_ret.
Qed.

Lemma grows_from_refl ss : grows_from ss ss.
Proof.
  intros i w H. exists w. repeat split; auto. exists []. now rewrite app_nil_r.
Qed.

Lemma grows_from_trans a b c :
  grows_from a b -> grows_from b c -> grows_from a c.
Proof.
  intros H1 H2 i w H.
  destruct (H1 i w H) as (w1 & N1 & T1 & x1 & C1).
  destruct (H2 i w1 N1) as (w2 & N2 & T2 & x2 & C2).
  exists w2. repeat split; [exact N2 | congruence |].
  exists (x1 ++ x2). rewrite C2, C1, app_assoc. reflexivity.
Qed.

Lemma grows_from_tabs ss tabs : grows_from ss (ss ++ tabs).
Proof.
  intros i w H. exists w. split.
  - rewrite nth_error_app1; [exact H|]. apply nth_error_Some. congruence.
  - split; [reflexivity|]. exists []. now rewrite app_nil_r.
Qed.

Lemma grows_from_append_at i x ss : grows_from ss (Sheets.append_at i x ss).
Proof.
  revert i. induction ss as [|w0 ss IH]; intros i j w H.
  - destruct j; discriminate.
  - destruct i as [|i]; destruct j as [|j]; cbn in *.
    + injection H as <-. eexists. repeat split. exists [x]. reflexivity.
    + exists w. repeat split; auto. exists []. now rewrite app_nil_r.
    + injection H as <-. exists w0. repeat split; auto.
      exists []. now rewrite app_nil_r.
    + apply IH, H.
Qed.

Lemma all_rows_append_at i x ss :
  List.length (Sheets.all_rows (Sheets.append_at i x ss))
  = (List.length (Sheets.all_rows ss)
     + if (i <? List.length ss)%nat then 1 else 0)%nat.
Proof.
  revert i. induction ss as [|w ss IH]; intros i;
    [destruct i; reflexivity|].
  unfold Sheets.all_rows in *. destruct i as [|i]; cbn -[Nat.ltb].
  - replace (0 <? S (List.length ss))%nat with true by reflexivity.
    rewrite !length_app. cbn. lia.
  - replace (S i <? S (List.length ss))%nat
      with (i <? List.length ss)%nat by reflexivity.
    rewrite !length_app, IH. lia.
Qed.

(** The handles [get_sheets] returns point into the document. *)
Lemma get_sheets_handles r ss ex nw ss1 :
  get_sheets r ss = (Sheets.Ok (ex, nw), ss1) ->
  (ex < List.length ss1)%nat /\ (nw < List.length ss1)%nat.
Proof.
  assert (I : forall name l i,
             Sheets.index_of name l = Some i -> (i < List.length l)%nat).
  { intros name l. induction l as [|w l IH]; intros i; cbn; [discriminate|].
    destruct (String.eqb (Sheets.title w) name); [intros [= <-]; lia|].
    destruct (Sheets.index_of name l) as [j|]; cbn; [|discriminate].
    intros [= <-]. specialize (IH j eq_refl). lia. }
  unfold get_sheets, Sheets.try_except, Sheets.bind, Sheets.worksheet_by_title,
    Sheets.add_worksheet, Sheets.get_worksheet, Sheets.ret.
  repeat (cbn -[Nat.ltb List.length app Sheets.index_of];
          match goal with
          | H : ?x = _ |- context [match ?x with _ => _ end] => rewrite H
          | |- context [if Sheets.can_read ?r then _ else _] =>
              destruct (Sheets.can_read r) eqn:?
          | |- context [match Sheets.index_of ?n ?l with _ => _ end] =>
              destruct (Sheets.index_of n l) eqn:?
          | |- context [if Sheets.can_add ?r ?n then _ else _] =>
              destruct (Sheets.can_add r n) eqn:?
          | |- context [if (?a <? ?b)%nat then _ else _] =>
              destruct (a <? b)%nat eqn:?
          end);
    intros E; try discriminate E; inversion E; subst;
    repeat match goal with
    | H : Sheets.index_of _ _ = Some _ |- _ => apply I in H
    | H : (_ <? _)%nat = true |- _ => apply Nat.ltb_lt in H
    end;
    rewrite ?length_app in *; cbn [List.length] in *; split; lia.
Qed.

Lemma length_append_at i x ss :
  List.length (Sheets.append_at i x ss) = List.length ss.
Proof.
  revert i. induction ss as [|w ss IH]; intros i;
    [destruct i; reflexivity|].
  destruct i; cbn; [reflexivity|]. now rewrite IH.
Qed.

Section Further.

Variable FUZZY_AVAILABLE : bool.
Variable extractBests : string -> list string -> Z -> Z -> list (string * Z).
Variable songs_df : Catalog.dataframe.

Local Notation page' := (page FUZZY_AVAILABLE extractBests).
Local Notation run' := (run FUZZY_AVAILABLE extractBests songs_df).
Local Notation state_after' := (state_after FUZZY_AVAILABLE extractBests songs_df).
Local Notation reachable' := (reachable FUZZY_AVAILABLE extractBests songs_df).
Local Notation handle_submission' := (handle_submission songs_df).
Local Notation write_row' := (write_row songs_df).
Local Notation row_to_submit' := (row_to_submit songs_df).

(** What one attempt to write does to the document. *)
Lemma write_row_document e s ss :
  let result := write_row' e s ss in
  grows_from ss (snd result)
  /\ (List.length (snd result) <= List.length ss + 2)%nat
  /\ List.length (Sheets.all_rows (snd result))
     = (List.length (Sheets.all_rows ss)
        + match fst result with Sheets.Ok _ => 1 | Sheets.Raise _ => 0 end)%nat
  /\ (Sheets.can_open (remote e) = false -> snd result = ss).
Proof.
  cbv zeta.
  unfold write_row, Sheets.bind, open_spreadsheet, Sheets.append_row,
    Sheets.ret, Sheets.raise.
  destruct (Sheets.can_open (remote e)); cbn [fst snd];
    [|repeat split; auto using grows_from_refl; lia].
  destruct (get_sheets_adds_tabs (remote e) ss) as (tabs & E & _ & L).
  pose proof (get_sheets_rows (remote e) ss) as R.
  pose proof (get_sheets_handles (remote e) ss) as Hh.
  destruct (get_sheets (remote e) ss) as [[[ex nw]|y] ss1];
    cbn [fst snd] in *; subst ss1.
  - destruct (Hh ex nw _ eq_refl) as [Hex Hnw].
    destruct (selected_date s); cbn [fst snd].
    + destruct (Sheets.can_append (remote e)); cbn [fst snd].
      * split; [|split; [|split; [|discriminate]]].
        -- eapply grows_from_trans;
             [apply grows_from_tabs | apply grows_from_append_at].
        -- rewrite length_append_at, length_app. lia.
        -- rewrite all_rows_append_at, R.
           destruct (negb (is_new_song s));
             match goal with
             | |- context [(?i <? ?n)%nat] =>
                 destruct (Nat.ltb_spec i n); lia
             end.
      * repeat split; try discriminate;
          [apply grows_from_tabs | rewrite length_app; lia | rewrite R; lia].
    + repeat split; try discriminate;
        [apply grows_from_tabs | rewrite length_app; lia | rewrite R; lia].
  - repeat split; try discriminate;
      [apply grows_from_tabs | rewrite length_app; lia | rewrite R; lia].
Qed.

Lemma handle_submission_cases e s ss :
  (exists d ss',
      write_row' e s ss = (Sheets.Ok d, ss')
      /\ fst (validation s) = false
      /\ secrets_configured e = true
      /\ handle_submission' e s ss
         = (set_form_submitted false
              (set_submitted_data (Some (submitted d s))
                 (set_submission_success true s)),
            ss', [Success msg_thanks]))
  \/ (exists x ss',
        write_row' e s ss = (Sheets.Raise x, ss')
        /\ fst (validation s) = false
        /\ secrets_configured e = true
        /\ handle_submission' e s ss
           = (set_form_submitted false s, ss', [Error msg_retry]))
  \/ (fst (validation s) = false /\ secrets_configured e = false
      /\ handle_submission' e s ss
         = (set_form_submitted false s, ss,
            [Error (if secrets_unreadable e then msg_retry
                    else msg_credentials)]))
  \/ (fst (validation s) = true
      /\ handle_submission' e s ss
         = (set_form_submitted false s, ss, snd (validation s))).
Proof.
  unfold handle_submission.
  destruct (validation s) as [[|] errors]; cbn [fst snd negb].
  - right. right. right. auto.
  - destruct (secrets_configured e).
    + destruct (write_row' e s ss) as [[d|x] ss'] eqn:W.
      * left. exists d, ss'. auto.
      * right. left. exists x, ss'. auto.
    + right. right. left.
      destruct (secrets_unreadable e); auto.
Qed.

(** X1.  In every state a session can reach the step is one of 1..4, so
    the header finds a title for it and the progress bar gets a value
    between 0 and 1 (a number of thirds between 0 and 3); no submission or
    backward move is pending, and the list searched at step 3 is the list of
    catalog titles. *)
Theorem reachable_step_in_range (w : session * Sheets.spreadsheet) :
  reachable' w ->
  1 <= current_step (fst w) <= 4
  /\ (exists text, step_text (current_step (fst w)) = Some text)
  /\ 0 <= current_step (fst w) - 1 <= 3
  /\ form_submitted (fst w) = false
  /\ go_back (fst w) = false
  /\ song_list (fst w) = Catalog.existing_song_titles_list songs_df.
Proof.
  intros H.
  destruct (reachable_steady _ _ _ _ H) as [(H1 & H2 & H3 & _) H4].
  split; [exact H1|]. split; [|split; [lia | auto]].
  unfold step_text.
  destruct (Z.eqb_spec (current_step (fst w)) 1); [eexists; reflexivity|].
  destruct (Z.eqb_spec (current_step (fst w)) 2); [eexists; reflexivity|].
  destruct (Z.eqb_spec (current_step (fst w)) 3); [eexists; reflexivity|].
  destruct (Z.eqb_spec (current_step (fst w)) 4); [eexists; reflexivity|].
  lia.
Qed.

(** X2.  Whenever the form of step 4 is shown, a date, a non-empty title and
    a non-empty search string are in the session; the row built from it then
    holds text in every cell, never [None]. *)
Theorem form_page_has_answers
    (w : session * Sheets.spreadsheet) (timestamp selected_date_str : string) :
  reachable' w ->
  current_step (fst w) = 4 ->
  exists d t,
    selected_date (fst w) = Some d
    /\ selected_song_title (fst w) = Some t
    /\ t <> EmptyString
    /\ search_term_value (fst w) <> EmptyString
    /\ Forall (fun v => exists x, v = Sheets.VStr x)
         (row_to_submit' timestamp selected_date_str (fst w)).
Proof.
  intros H H4.
  destruct (reachable_steady _ _ _ _ H)
    as [(_ & _ & _ & _ & Hd & Hs & Ht & _) _].
  destruct (selected_date (fst w)) as [d|] eqn:Ed;
    [|exfalso; apply Hd; [lia | reflexivity]].
  specialize (Ht H4).
  destruct (selected_song_title (fst w)) as [t|] eqn:Et; [|discriminate].
  exists d, t. split; [reflexivity|]. split; [reflexivity|].
  split; [intros ->; discriminate|].
  split; [intros E; rewrite E in Hs; specialize (Hs ltac:(lia)); discriminate|].
  unfold row_to_submit. rewrite Et.
  destruct (is_new_song (fst w)); cbn [negb title_value];
    repeat (constructor; [eexists; reflexivity|]); constructor.
Qed.

(** X3.  Rows are added to the spreadsheet only by a valid submission: a
    run after which the rows of the document are not the ones before is a
    run in which the user confirmed the form of step 4 with no success
    recorded yet, the validation passed, the secrets were found and the
    document could be opened; the run records the success. *)
Theorem rows_change_only_on_valid_submission
    (e : env) (a : action) (w : session * Sheets.spreadsheet) :
  reachable' w ->
  Sheets.all_rows (snd (state_after' e a w)) <> Sheets.all_rows (snd w) ->
  exists f,
    a = FormSubmit f
    /\ current_step (fst w) = 4
    /\ submission_success (fst w) = false
    /\ fst (validation (assign_form f (fst w))) = false
    /\ secrets_configured e = true
    /\ Sheets.can_open (remote e) = true
    /\ submission_success (fst (state_after' e a w)) = true.
Proof.
  intros Hr Hne.
  destruct (reachable_steady _ _ _ _ Hr) as [_ Hf].
  unfold state_after, run in *.
  destruct (form_submitted (page' e a (fst w))) eqn:E;
    [|exfalso; apply Hne; reflexivity].
  destruct (page_form_submitted _ _ e a _ Hf E) as (f & -> & H4 & Hs & Hp).
  exists f. split; [reflexivity|]. split; [exact H4|]. split; [exact Hs|].
  rewrite Hp in *.
  pose proof (write_row_document e
                (set_form_submitted true (assign_form f (fst w))) (snd w))
    as (_ & _ & _ & D).
  destruct (handle_submission_cases e
              (set_form_submitted true (assign_form f (fst w))) (snd w))
    as [(d & ss' & W & V & S & R) | [(x & ss' & W & V & S & R)
       | [(V & S & R) | (V & R)]]];
    rewrite R in *; cbn [fst snd] in *;
    try (exfalso; apply Hne; reflexivity).
  - split; [exact V|]. split; [exact S|]. split; [|reflexivity].
    destruct (Sheets.can_open (remote e)) eqn:O; [reflexivity|].
    exfalso. apply Hne. rewrite W in D. cbn [snd] in D.
    rewrite (D eq_refl). reflexivity.
  - exfalso. apply Hne.
    exact (write_row_raise_rows _ _ _ _ _ _ W).
Qed.

(** X4.  The document is append-only: whatever the action, every worksheet
    keeps its place, its title and its rows; at most two worksheets and at
    most one row are added, and a row is added exactly when the run turns
    the submission into a success. *)
Theorem document_is_append_only
    (e : env) (a : action) (w : session * Sheets.spreadsheet) :
  reachable' w ->
  let w' := state_after' e a w in
  grows_from (snd w) (snd w')
  /\ (List.length (snd w') <= List.length (snd w) + 2)%nat
  /\ List.length (Sheets.all_rows (snd w'))
     = (List.length (Sheets.all_rows (snd w))
        + if negb (submission_success (fst w))
             && submission_success (fst w')
          then 1 else 0)%nat.
Proof.
  intros Hr. cbv zeta.
  destruct (reachable_steady _ _ _ _ Hr) as [Hst Hf].
  unfold state_after, run.
  destruct (form_submitted (page' e a (fst w))) eqn:E.
  - destruct (page_form_submitted _ _ e a _ Hf E) as (f & -> & H4 & Hs & Hp).
    rewrite Hp, Hs. cbn [negb andb].
    pose proof (write_row_document e
                  (set_form_submitted true (assign_form f (fst w))) (snd w))
      as (G & L & R & _).
    destruct (handle_submission_cases e
                (set_form_submitted true (assign_form f (fst w))) (snd w))
      as [(d & ss' & W & V & S & Q) | [(x & ss' & W & V & S & Q)
         | [(V & S & Q) | (V & Q)]]];
      rewrite Q; cbn [fst snd]; try rewrite W in *; cbn [fst snd] in *.
    + auto.
    + cbn. rewrite (proj1 (proj2 (proj2 (proj2 (proj2 (proj2 (proj2
                 (proj2 (assign_form_fields f (fst w)))))))))), Hs.
      auto.
    + cbn. rewrite (proj1 (proj2 (proj2 (proj2 (proj2 (proj2 (proj2
                 (proj2 (assign_form_fields f (fst w)))))))))), Hs.
      repeat split; [apply grows_from_refl | lia | lia].
    + cbn. rewrite (proj1 (proj2 (proj2 (proj2 (proj2 (proj2 (proj2
                 (proj2 (assign_form_fields f (fst w)))))))))), Hs.
      repeat split; [apply grows_from_refl | lia | lia].
  - cbn [fst snd]. split; [apply grows_from_refl|]. split; [lia|].
    assert (K : negb (submission_success (fst w))
                && submission_success (page' e a (fst w)) = false).
    { destruct (submission_success (fst w)) eqn:Es; [reflexivity|].
      cbn [negb andb].
      destruct (submission_success (page' e a (fst w))) eqn:Ep;
        [|reflexivity].
      exfalso. revert Ep E. unfold page. rewrite Es.
      destruct (Z.eqb_spec (current_step (fst w)) 1);
        [|destruct (Z.eqb_spec (current_step (fst w)) 2);
          [|destruct (Z.eqb_spec (current_step (fst w)) 3);
            [|destruct (Z.eqb_spec (current_step (fst w)) 4)]]];
        destruct a; try congruence;
        try (destruct (next_disabled _ _ (fst w)));
        try (destruct (Py.mem v (display_options _ _ (fst w))));
        unfold enter_step1, go_to_next_step, go_to_prev_step,
          store_date, handle_song_selection;
        repeat match goal with
        | |- context [match ?x with _ => _ end] => destruct x
        end;
        cbn;
        rewrite ?(proj1 (proj2 (proj2 (proj2 (proj2 (proj2 (proj2
                    (proj2 (assign_form_fields _ _))))))))),
          ?assign_form_flag;
        congruence. }
    rewrite K. lia.
Qed.

(** X5.  Once a suggestion has been sent, nothing but the button of the
    thank-you page acts on the session, and no action adds a row: the
    suggestion cannot be written a second time. *)
Theorem no_second_submission
    (e : env) (a : action) (w : session * Sheets.spreadsheet) :
  reachable' w ->
  submission_success (fst w) = true ->
  a <> NewSuggestion ->
  fst (state_after' e a w) = fst w
  /\ Sheets.all_rows (snd (state_after' e a w)) = Sheets.all_rows (snd w).
Proof.
  intros Hr Hs Ha.
  destruct (reachable_steady _ _ _ _ Hr)
    as [(_ & _ & _ & _ & _ & _ & _ & H4) Hf].
  unfold state_after, run.
  rewrite (success_page_waits _ _ e a (fst w) (H4 Hs) Hs Ha), Hf.
  split; reflexivity.
Qed.

(** X6.  Going forward and back again loses nothing: from step 2 the backward
    button of step 3 restores the state exactly; from step 3 the backward
    button of the form returns to step 3 with the selection kept and the
    values typed in the form stored. *)
Theorem back_undoes_next
    (e1 e2 : env) (w : session * Sheets.spreadsheet) :
  reachable' w ->
  (current_step (fst w) = 2 ->
   search_term_value (fst w) <> EmptyString ->
   state_after' e2 Back (state_after' e1 Next w) = w)
  /\ (current_step (fst w) = 3 ->
      title_truthy (selected_song_title (fst w)) = true ->
      forall f,
        state_after' e2 (FormBack f) (state_after' e1 Next w)
        = (assign_form f (fst w), snd w)).
Proof.
  intros Hr.
  destruct (reachable_steady _ _ _ _ Hr) as [Hst Hf].
  destruct Hst as (_ & Hg & _ & _ & _ & _ & _ & Hsucc).
  destruct w as [s ss]. cbn [fst snd] in *.
  assert (Hs : submission_success s = true -> current_step s = 4)
    by exact Hsucc.
  split.
  - intros H2 Hne.
    assert (T : Py.truthy (search_term_value s) = true)
      by (destruct (search_term_value s); [congruence | reflexivity]).
    unfold state_after, run. cbn [fst snd].
    assert (P1 : page' e1 Next s = go_to_next_step s).
    { unfold page, next_disabled. rewrite H2, T. reflexivity. }
    rewrite P1. cbn [form_submitted go_to_next_step set_current_step].
    rewrite Hf. cbn [fst snd].
    assert (P2 : page' e2 Back (go_to_next_step s) = s).
    { unfold page. cbn. rewrite H2. cbn.
      unfold go_to_prev_step. destruct s. cbn in *. subst.
      reflexivity. }
    rewrite P2, Hf. reflexivity.
  - intros H3 T f.
    unfold state_after, run. cbn [fst snd].
    assert (P1 : page' e1 Next s = go_to_next_step s).
    { unfold page, next_disabled. rewrite H3, T. reflexivity. }
    rewrite P1. cbn [form_submitted go_to_next_step set_current_step].
    rewrite Hf. cbn [fst snd].
    assert (N : submission_success s = false).
    { destruct (submission_success s); [|reflexivity].
      specialize (Hs eq_refl). lia. }
    assert (P2 : page' e2 (FormBack f) (go_to_next_step s) = assign_form f s).
    { unfold page. cbn. rewrite H3, N. cbn.
      unfold go_to_prev_step, assign_form. destruct s. cbn in *. subst.
      match goal with
      | |- context [if ?b then _ else _] => destruct b
      end; reflexivity. }
    rewrite P2, assign_form_flag, Hf. reflexivity.
Qed.


(** Exactly one of the two tables is in the document. *)
Definition lone_table (ss : Sheets.spreadsheet) : Prop :=
  (Sheets.index_of "existing_songs" ss <> None
   /\ Sheets.index_of "new_songs" ss = None)
  \/ (Sheets.index_of "existing_songs" ss = None
      /\ Sheets.index_of "new_songs" ss <> None).

(** X7.  When only one of the two tables exists at submission time the
    creation of the pair fails on the title already there, so both handles
    fall back on the first worksheet: the row of either kind is appended to
    the first worksheet, even when the table of its kind exists elsewhere in
    the document; at most a table [existing_songs] is left behind. *)
Theorem lone_table_is_bypassed
    (e : env) (s : session) (ss : Sheets.spreadsheet) (d : Clock.date) :
  Sheets.can_open (remote e) = true ->
  Sheets.can_read (remote e) = true ->
  Sheets.can_append (remote e) = true ->
  selected_date s = Some d ->
  lone_table ss ->
  let created :=
    match Sheets.index_of "existing_songs" ss with
    | None =>
        if Sheets.can_add (remote e) "existing_songs"
        then [fresh_sheet "existing_songs"] else []
    | Some _ => []
    end in
  get_sheets (remote e) ss = (Sheets.Ok (O, O), ss ++ created)
  /\ write_row' e s ss
     = (Sheets.Ok d,
        Sheets.append_at 0
          (row_to_submit' (Clock.strftime_ymd_hms (now e))
             (Clock.strftime_ymd d) s)
          (ss ++ created)).
Proof.
  intros Ho Hr Ha Hd Hl. cbv zeta.
  assert (G : get_sheets (remote e) ss
              = (Sheets.Ok (O, O),
                 ss ++ match Sheets.index_of "existing_songs" ss with
                       | None =>
                           if Sheets.can_add (remote e) "existing_songs"
                           then [fresh_sheet "existing_songs"] else []
                       | Some _ => []
                       end)).
  { unfold get_sheets, Sheets.try_except, Sheets.bind,
      Sheets.worksheet_by_title, Sheets.add_worksheet, Sheets.get_worksheet,
      Sheets.ret.
    rewrite Hr.
    assert (P : forall t : Sheets.spreadsheet,
               t <> [] -> (0 <? List.length t)%nat = true).
    { intros [|w t] N; [congruence | reflexivity]. }
    destruct Hl as [[He Hn] | [He Hn]].
    - destruct (Sheets.index_of "existing_songs" ss) as [i|] eqn:Ei;
        [|congruence].
      rewrite Hn. cbn [Sheets.is_WorksheetNotFound]. cbv beta. rewrite Ei.
      cbn [Sheets.any_exception]. cbv beta.
      assert (Nss : ss <> []) by (intros ->; discriminate).
      rewrite app_nil_r, P by exact Nss. cbv beta iota.
      rewrite P by exact Nss. reflexivity.
    - rewrite He. cbn [Sheets.is_WorksheetNotFound]. cbv beta. rewrite He.
      assert (Nss : ss <> []) by (intros ->; apply Hn; reflexivity).
      destruct (Sheets.can_add (remote e) "existing_songs").
      + rewrite index_of_app.
        destruct (Sheets.index_of "new_songs" ss) as [j|] eqn:Ej;
          [|congruence].
        cbn [Sheets.any_exception]. cbv beta.
        assert (Nss' : ss ++ [{| Sheets.title := "existing_songs";
                                 Sheets.cells := [] |}] <> []).
        { intros E. apply app_eq_nil in E as [_ E]. discriminate. }
        rewrite P by exact Nss'. cbv beta iota.
        rewrite P by exact Nss'. reflexivity.
      + cbn [Sheets.any_exception]. cbv beta.
        rewrite app_nil_r, P by exact Nss. cbv beta iota.
        rewrite P by exact Nss. reflexivity. }
  split; [exact G|].
  rewrite (write_row_ok songs_df e s _ _ _ _ d Ho Ha G Hd).
  destruct (negb (is_new_song s)); reflexivity.
Qed.

(** Without the similarity library an offered title is a catalog title that
    contains the search string. *)
Lemma degraded_offer (w : session * Sheets.spreadsheet) (t : string) :
  FUZZY_AVAILABLE = false ->
  reachable' w ->
  In t (filtered_songs FUZZY_AVAILABLE extractBests (fst w)) ->
  In t (Catalog.existing_song_titles_list songs_df)
  /\ lowered_substring (search_term_value (fst w)) t
  /\ t <> EmptyString.
Proof.
  intros Hlib Hr.
  destruct (reachable_steady _ _ _ _ Hr) as [(_ & _ & Hl & _) _].
  unfold filtered_songs.
  destruct (Py.truthy (search_term_value (fst w))) eqn:T; [|intros []].
  unfold get_fuzzy_matches. rewrite Hlib, Hl. cbn [negb].
  rewrite in_map_iff. intros ([t' sc] & <- & Ht). cbn [fst].
  apply In_slice_to in Ht. apply in_map_iff in Ht as (t0 & [= <- <-] & Ht).
  apply filter_In in Ht as [Hin Hc].
  split; [exact Hin|].
  apply Py.contains_spec in Hc. split; [exact Hc|].
  intros ->. destruct Hc as (pre & post & E).
  change (Py.lower EmptyString) with (@nil N) in E.
  symmetry in E. apply app_eq_nil in E as [_ E].
  apply app_eq_nil in E as [E _].
  apply Py.lower_empty_iff in E. rewrite E in T. discriminate.
Qed.


(** X9.  Without the similarity library, choosing one of the offered titles
    at step 3 selects an existing song whose title is in the catalog: the id
    look-up of the submission then reads the first catalog row bearing that
    title.  Only a catalog title spelled exactly like the add-new option is
    taken for a new song instead. *)
Theorem offered_title_is_found_again
    (e : env) (w : session * Sheets.spreadsheet) (v : string) :
  FUZZY_AVAILABLE = false ->
  reachable' w ->
  current_step (fst w) = 3 ->
  In v (filtered_songs FUZZY_AVAILABLE extractBests (fst w)) ->
  v <> add_new_option (search_term_value (fst w)) ->
  let s' := page' e (SongSelection v) (fst w) in
  selected_song_title s' = Some v
  /\ is_new_song s' = false
  /\ next_disabled s' = false
  /\ exists r,
       Catalog.first_row songs_df v = Some r
       /\ Catalog.song_id songs_df (selected_song_title s')
          = if Catalog.has_id_canti songs_df
            then if Catalog.isna (Catalog.id_canti r)
                 then Catalog.Text "" else Catalog.id_canti r
            else Catalog.Text "".
Proof.
  intros Hlib Hr H3 Hin Hne. cbv zeta.
  destruct (reachable_steady _ _ _ _ Hr)
    as [(_ & _ & _ & _ & _ & Hs & _) _].
  assert (T : Py.truthy (search_term_value (fst w)) = true)
    by (apply Hs; lia).
  destruct (degraded_offer w v Hlib Hr Hin) as (Hcat & _ & Nv).
  assert (Hmem : Py.mem v (Catalog.existing_song_titles_list songs_df)
                 = true) by (apply Py.mem_In, Hcat).
  destruct (proj1 (Catalog.mem_titles songs_df v) Hmem) as (r0 & Hr0 & Et).
  assert (Tv : Py.truthy v = true) by (destruct v; [congruence|reflexivity]).
  assert (M : Py.mem v (display_options FUZZY_AVAILABLE extractBests (fst w))
              = true).
  { apply Py.mem_In. unfold display_options.
    apply in_or_app. right. apply in_or_app. left. exact Hin. }
  assert (P : page' e (SongSelection v) (fst w)
              = set_selected_song_title (Some v)
                  (set_is_new_song false (fst w))).
  { unfold page. rewrite H3. cbn [Z.eqb Pos.eqb]. rewrite M.
    unfold handle_song_selection. rewrite Tv. cbn [negb].
    destruct (String.eqb_spec v (add_new_option (search_term_value (fst w))));
      [contradiction | reflexivity]. }
  rewrite P.
  split; [reflexivity|]. split; [reflexivity|].
  split.
  { unfold next_disabled. cbn. rewrite H3. cbn. rewrite Tv. reflexivity. }
  destruct (Catalog.first_row songs_df v) as [r|] eqn:F.
  - exists r. split; [reflexivity|].
    assert (Hemp : Catalog.empty songs_df = false).
    { unfold Catalog.empty. destruct (Catalog.rows songs_df);
        [destruct Hr0 | reflexivity]. }
    cbn [selected_song_title set_selected_song_title].
    unfold Catalog.song_id. rewrite Hemp, Hmem, F. reflexivity.
  - exfalso. rewrite Catalog.first_row_none in F. exact (F r0 Hr0 Et).
Qed.

(** X10.  A form confirmed at step 4 that the validation rejects, or that
    does not find the secrets, writes no row: the session keeps the step and
    the values just entered and the user is not thanked.  The handler
    reports every validation error, at least one; when the validation
    passed it reports the missing credentials when the test for the secrets
    is false, and the retry message when that test raises for want of a
    secrets file. *)
Theorem refused_submission_keeps_form
    (e : env) (f : form) (w : session * Sheets.spreadsheet) :
  reachable' w ->
  current_step (fst w) = 4 ->
  submission_success (fst w) = false ->
  let s := assign_form f (fst w) in
  let result := run' e (FormSubmit f) w in
  fst (validation s) = true \/ secrets_configured e = false ->
  fst (fst result) = s
  /\ Sheets.all_rows (snd (fst result)) = Sheets.all_rows (snd w)
  /\ ~ In (Success msg_thanks) (snd result)
  /\ (fst (validation s) = true ->
      snd (validation s) <> [] /\ incl (snd (validation s)) (snd result))
  /\ (fst (validation s) = false ->
      In (Error (if secrets_unreadable e then msg_retry
                 else msg_credentials)) (snd result)).
Proof.
  intros Hr H4 Hs. cbv zeta. intros Hrefused.
  destruct (reachable_steady _ _ _ _ Hr) as [_ Hf].
  assert (K : set_form_submitted false
                (set_form_submitted true (assign_form f (fst w)))
              = assign_form f (fst w)).
  { apply raise_and_lower_flag. rewrite assign_form_flag. exact Hf. }
  assert (Run : run' e (FormSubmit f) w
                = (assign_form f (fst w), snd w,
                   if fst (validation (assign_form f (fst w)))
                   then snd (validation (assign_form f (fst w)))
                   else [Error (if secrets_unreadable e then msg_retry
                                else msg_credentials)])).
  { unfold run. rewrite (page_submit _ _ e f (fst w) H4 Hs).
    cbn [form_submitted set_form_submitted]. unfold handle_submission.
    change (validation (set_form_submitted true (assign_form f (fst w))))
      with (validation (assign_form f (fst w))).
    destruct (validation (assign_form f (fst w))) as [[|] errors];
      cbn [fst snd negb]; rewrite ?K; [reflexivity|].
    destruct Hrefused as [V|Hsec]; [discriminate|].
    rewrite Hsec. destruct (secrets_unreadable e); rewrite ?K; reflexivity. }
  rewrite Run. cbn [fst snd].
  split; [reflexivity|]. split; [reflexivity|].
  assert (Errors : forall m, In m (snd (validation (assign_form f (fst w)))) ->
                             exists text, m = Error text).
  { unfold validation.
    destruct (is_new_song (assign_form f (fst w))); [|intros m []].
    cbn [snd].
    destruct (negb (Py.truthy (Py.strip (author (assign_form f (fst w))))));
      destruct (negb (Py.truthy (Py.strip (notes (assign_form f (fst w))))));
      cbn [app In]; intros m Hm;
      repeat match type of Hm with
             | _ \/ _ => destruct Hm as [<-|Hm]
             | False => destruct Hm
             end; eexists; reflexivity. }
  split.
  { destruct (fst (validation (assign_form f (fst w)))).
    - intros Hin. destruct (Errors _ Hin) as [text E]. discriminate.
    - cbn [In]. intros [E|[]]. discriminate. }
  split.
  - intros V. rewrite V. split; [|apply incl_refl].
    revert V. unfold validation.
    destruct (is_new_song (assign_form f (fst w)));
      cbn [fst snd]; [|discriminate].
    destruct (Py.truthy (Py.strip (author (assign_form f (fst w)))));
      destruct (Py.truthy (Py.strip (notes (assign_form f (fst w)))));
      cbn; congruence.
  - intros V. rewrite V. left. reflexivity.
Qed.

(** X11.  The row of a new song that passed the validation never has an
    empty author or an empty motivation: both cells are the entered texts
    without the whitespace around them, and neither is empty. *)
Theorem accepted_new_song_has_author_and_notes
    (timestamp selected_date_str : string) (s : session) :
  is_new_song s = true ->
  fst (validation s) = false ->
  exists a n,
    nth_error (row_to_submit' timestamp selected_date_str s) 3
    = Some (Sheets.VStr a)
    /\ nth_error (row_to_submit' timestamp selected_date_str s) 6
       = Some (Sheets.VStr n)
    /\ a <> EmptyString /\ n <> EmptyString
    /\ trimmed_of (author s) a /\ trimmed_of (notes s) n.
Proof.
  intros Hnew V.
  exists (Py.strip (author s)), (Py.strip (notes s)).
  unfold row_to_submit. rewrite Hnew. cbn [negb nth_error].
  split; [reflexivity|]. split; [reflexivity|].
  revert V. unfold validation. rewrite Hnew. cbn [fst].
  pose proof (Py.truthy_false_iff (Py.strip (author s))) as Pa.
  pose proof (Py.truthy_false_iff (Py.strip (notes s))) as Pn.
  destruct (Py.truthy (Py.strip (author s)));
    destruct (Py.truthy (Py.strip (notes s))); cbn; try discriminate.
  intros _.
  split; [intros E; apply Pa in E; discriminate|].
  split; [intros E; apply Pn in E; discriminate|].
  split; apply strip_trimmed_of.
Qed.


End Further.

(** ** The dates shown and written *)

(** X12.  The two texts of a date, [dd/mm/yyyy] on the pages and
    [yyyy-mm-dd] in the row, have a fixed shape and identify the date: two
    different valid dates never give the same text. *)
Theorem date_texts_identify_the_date (d1 d2 : Clock.date) :
  Clock.valid_date d1 -> Clock.valid_date d2 ->
  Clock.looks_like "99/99/9999" (format_date_italian d1) = true
  /\ (format_date_italian d1 = format_date_italian d2 -> d1 = d2)
  /\ (Clock.strftime_ymd d1 = Clock.strftime_ymd d2 -> d1 = d2).
Proof.
  intros (Hy1 & Hm1 & Hd1) (Hy2 & Hm2 & Hd2).
  destruct d1 as [y1 m1 a1], d2 as [y2 m2 a2].
  cbn [Clock.year Clock.month Clock.day] in *.
  unfold format_date_italian, Clock.strftime_ymd.
  cbn [Clock.year Clock.month Clock.day].
  split; [|split].
  - apply (Clock.looks_like_app "99" "/99/9999");
      [apply Clock.two_digits_shape; lia|].
    apply (Clock.looks_like_app "/" "99/9999" "/"); [reflexivity|].
    apply (Clock.looks_like_app "99" "/9999");
      [apply Clock.two_digits_shape; lia|].
    apply (Clock.looks_like_app "/" "9999" "/"); [reflexivity|].
    apply Clock.year_shape. exact Hy1.
  - intros E.
    apply (looks_like_split "99") in E as [Ea E];
      [|apply Clock.two_digits_shape; lia ..].
    apply (looks_like_split "/" "/" "/") in E as [_ E]; [|reflexivity ..].
    apply (looks_like_split "99") in E as [Em E];
      [|apply Clock.two_digits_shape; lia ..].
    apply (looks_like_split "/" "/" "/") in E as [_ E]; [|reflexivity ..].
    apply two_digits_inj in Ea; [|lia ..].
    apply two_digits_inj in Em; [|lia ..].
    apply str_int_inj in E. congruence.
  - intros E.
    apply (looks_like_split "9999") in E as [Ey E];
      [|apply Clock.year_shape; assumption ..].
    apply (looks_like_split "-" "-" "-") in E as [_ E]; [|reflexivity ..].
    apply (looks_like_split "99") in E as [Em E];
      [|apply Clock.two_digits_shape; lia ..].
    apply (looks_like_split "-" "-" "-") in E as [_ E]; [|reflexivity ..].
    apply str_int_inj in Ey.
    apply two_digits_inj in Em; [|lia ..].
    apply two_digits_inj in E; [|lia ..].
    congruence.
Qed.

(** ** The connection made when the script is loaded *)

(** The keys of the session that [connect_to_gsheets] writes; [None] and
    [false] stand for a key that is not set. *)
Record connection_keys : Type :=
  { connection_message : option string;
    connection_error : option string;
    gs_client : bool;
    existing_songs_sheet : option nat;
    new_songs_sheet : option nat }.

(** What the function returns: the string ["SIMULATION_MODE"] or the
    dictionary of the document and its two worksheets. *)
Inductive connection : Type :=
| SIMULATION_MODE
| Connected (existing_sheet new_sheet : nat).

(** A step of the function that may raise before the document is reached;
    [Failed text] carries [str(e)]. *)
Inductive attempt (A : Type) : Type :=
| Went (a : A)
| Failed (text : string).
Arguments Went {A} a.
Arguments Failed {A} text.

(** What the function meets outside the document. *)
Record access : Type :=
  { has_secrets : attempt bool;  (* ["gcp_service_account" in st.secrets] *)
    authorize : attempt unit;    (* the credentials and [gspread.authorize] *)
    document : Sheets.remote }.

Definition sheet_name : string := "hildegard_form_manual_suggestions".

Definition msg_connecting : string := "Connessione al database in corso...".
Definition msg_creating : string :=
  "Creazione dei fogli di lavoro in corso...".
Definition msg_created : string := "Fogli di lavoro creati con successo!".
Definition msg_not_accessible : string :=
  ("Errore: Il foglio '" ++ sheet_name
   ++ "' non è accessibile. Verificare che esista o che l'account di servizio abbia i permessi necessari.")%string.

Definition with_message (m : string) (k : connection_keys) : connection_keys :=
  {| connection_message := Some m;
     connection_error := connection_error k;
     gs_client := gs_client k;
     existing_songs_sheet := existing_songs_sheet k;
     new_songs_sheet := new_songs_sheet k |}.

Definition with_error (m : string) (k : connection_keys) : connection_keys :=
  {| connection_message := connection_message k;
     connection_error := Some m;
     gs_client := gs_client k;
     existing_songs_sheet := existing_songs_sheet k;
     new_songs_sheet := new_songs_sheet k |}.

Definition with_client (k : connection_keys) : connection_keys :=
  {| connection_message := connection_message k;
     connection_error := connection_error k;
     gs_client := true;
     existing_songs_sheet := existing_songs_sheet k;
     new_songs_sheet := new_songs_sheet k |}.

Definition with_existing (i : nat) (k : connection_keys) : connection_keys :=
  {| connection_message := connection_message k;
     connection_error := connection_error k;
     gs_client := gs_client k;
     existing_songs_sheet := Some i;
     new_songs_sheet := new_songs_sheet k |}.

Definition with_new (i : nat) (k : connection_keys) : connection_keys :=
  {| connection_message := connection_message k;
     connection_error := connection_error k;
     gs_client := gs_client k;
     existing_songs_sheet := existing_songs_sheet k;
     new_songs_sheet := Some i |}.

Section Connect.

(** [str(e)] for an exception of the client. *)
Variable str_exn : Sheets.exn -> string.

(** Lines 54-125: one execution of the body (the decorator keeps the result
    for an hour). *)
Definition connect_to_gsheets (a : access) (k : connection_keys)
    (ss : Sheets.spreadsheet)
    : connection * connection_keys * Sheets.spreadsheet :=
  let k := with_message msg_connecting k in
  match has_secrets a with
  | Went true =>
      match authorize a with
      | Went _ =>
          if Sheets.can_open (document a) then
            let k := with_client k in
            match (existing_sheet <-
                     Sheets.worksheet_by_title (document a)
                       "existing_songs" ;;
                   new_sheet <-
                     Sheets.worksheet_by_title (document a) "new_songs" ;;
                   Sheets.ret (existing_sheet, new_sheet)) ss with
            | (Sheets.Ok (existing_sheet, new_sheet), ss) =>
                (Connected existing_sheet new_sheet,
                 with_new new_sheet (with_existing existing_sheet k), ss)
            | (Sheets.Raise _, ss) =>
                let k := with_message msg_creating k in
                match
                  Sheets.add_worksheet (document a) "existing_songs" ss
                with
                | (Sheets.Ok existing_sheet, ss) =>
                    let k := with_existing existing_sheet k in
                    match
                      Sheets.add_worksheet (document a) "new_songs" ss
                    with
                    | (Sheets.Ok new_sheet, ss) =>
                        (Connected existing_sheet new_sheet,
                         with_message msg_created (with_new new_sheet k), ss)
                    | (Sheets.Raise x, ss) =>
                        (SIMULATION_MODE,
                         with_error
                           ("Errore nella creazione dei fogli di lavoro: "
                            ++ str_exn x) k, ss)
                    end
                | (Sheets.Raise x, ss) =>
                    (SIMULATION_MODE,
                     with_error
                       ("Errore nella creazione dei fogli di lavoro: "
                        ++ str_exn x) k, ss)
                end
            end
          else (SIMULATION_MODE, with_error msg_not_accessible k, ss)
      | Failed text =>
          (SIMULATION_MODE,
           with_error ("Errore di connessione: " ++ text) k, ss)
      end
  | Went false => (SIMULATION_MODE, with_error msg_credentials k, ss)
  | Failed text =>
      (SIMULATION_MODE, with_error ("Errore di connessione: " ++ text) k, ss)
  end.

(** What a connection that was made guarantees. *)
Lemma connect_handles a k ss ex nw k' ss' :
  connect_to_gsheets a k ss = (Connected ex nw, k', ss') ->
  Sheets.index_of "existing_songs" ss' = Some ex
  /\ Sheets.index_of "new_songs" ss' = Some nw
  /\ existing_songs_sheet k' = Some ex
  /\ new_songs_sheet k' = Some nw
  /\ gs_client k' = true
  /\ connection_error k' = connection_error k.
Proof.
  unfold connect_to_gsheets, Sheets.bind, Sheets.worksheet_by_title,
    Sheets.add_worksheet, Sheets.ret.
  destruct (has_secrets a) as [[|]|]; try discriminate.
  destruct (authorize a); [|discriminate].
  destruct (Sheets.can_open (document a)); [|discriminate].
  destruct (Sheets.index_of "existing_songs" ss) as [i|] eqn:Ee;
    destruct (Sheets.index_of "new_songs" ss) as [j|] eqn:En;
    destruct (Sheets.can_read (document a));
    do 3 (cbv beta iota; rewrite ?Ee, ?En); try discriminate.
  - intros [= <- <- <- <-]. cbn. repeat split; assumption.
  - destruct (Sheets.can_add (document a) "existing_songs");
      [|discriminate].
    rewrite index_of_app, En. discriminate.
  - destruct (Sheets.can_add (document a) "existing_songs");
      [|discriminate].
    rewrite index_of_app, En. discriminate.
  - destruct (Sheets.can_add (document a) "existing_songs");
      [|discriminate].
    rewrite index_of_app, En. cbn [Sheets.index_of option_map Sheets.title].
    change (String.eqb "existing_songs" "new_songs") with false. cbv iota.
    destruct (Sheets.can_add (document a) "new_songs"); [|discriminate].
    intros [= <- <- <- <-].
    rewrite <- app_assoc, !index_of_app, Ee, En, length_app.
    cbn -[Nat.add]. repeat split; try reflexivity; f_equal; lia.
  - destruct (Sheets.can_add (document a) "existing_songs");
      [|discriminate].
    rewrite index_of_app, En. cbn [Sheets.index_of option_map Sheets.title].
    change (String.eqb "existing_songs" "new_songs") with false. cbv iota.
    destruct (Sheets.can_add (document a) "new_songs"); [|discriminate].
    intros [= <- <- <- <-].
    rewrite <- app_assoc, !index_of_app, Ee, En, length_app.
    cbn -[Nat.add]. repeat split; try reflexivity; f_equal; lia.
Qed.

(** The document after the function: nothing but empty tables is added. *)
Lemma connect_document a k ss :
  let ss' := snd (connect_to_gsheets a k ss) in
  ss' = ss
  \/ ss' = ss ++ [fresh_sheet "existing_songs"]
  \/ ss' = ss ++ [fresh_sheet "existing_songs"; fresh_sheet "new_songs"].
Proof.
  cbv zeta.
  unfold connect_to_gsheets, Sheets.bind, Sheets.worksheet_by_title,
    Sheets.add_worksheet, Sheets.ret.
  destruct (has_secrets a) as [[|]|]; try (now left).
  destruct (authorize a); [|now left].
  destruct (Sheets.can_open (document a)); [|now left].
  destruct (Sheets.index_of "existing_songs" ss) as [i|] eqn:Ee;
    destruct (Sheets.index_of "new_songs" ss) as [j|] eqn:En;
    destruct (Sheets.can_read (document a));
    do 3 (cbv beta iota; rewrite ?Ee, ?En); try (now left);
    (destruct (Sheets.can_add (document a) "existing_songs");
     [|now left]);
    cbv beta iota; rewrite index_of_app, En;
    try (right; left; reflexivity);
    cbn [Sheets.index_of option_map Sheets.title];
    change (String.eqb "existing_songs" "new_songs") with false; cbv iota;
    (destruct (Sheets.can_add (document a) "new_songs");
     [|right; left; reflexivity]);
    right; right; cbn [snd]; rewrite <- app_assoc; reflexivity.
Qed.

(** X13.  A connection is returned only with the handles of the tables
    [existing_songs] and [new_songs] themselves, both stored in the session
    and no error text written; otherwise the result is [SIMULATION_MODE] and
    an error text is stored.  Unlike the submission the function never falls
    back on the first worksheet.  It adds nothing to the document but empty
    tables, at most the two, and no row. *)
Theorem connection_is_to_both_tables
    (a : access) (k : connection_keys) (ss : Sheets.spreadsheet) :
  let result := fst (fst (connect_to_gsheets a k ss)) in
  let k' := snd (fst (connect_to_gsheets a k ss)) in
  let ss' := snd (connect_to_gsheets a k ss) in
  match result with
  | Connected ex nw =>
      Sheets.index_of "existing_songs" ss' = Some ex
      /\ Sheets.index_of "new_songs" ss' = Some nw
      /\ existing_songs_sheet k' = Some ex
      /\ new_songs_sheet k' = Some nw
      /\ gs_client k' = true
      /\ connection_error k' = connection_error k
  | SIMULATION_MODE => connection_error k' <> None
  end
  /\ grows_from ss ss'
  /\ (List.length ss' <= List.length ss + 2)%nat
  /\ Sheets.all_rows ss' = Sheets.all_rows ss.
Proof.
  cbv zeta. split.
  - destruct (connect_to_gsheets a k ss) as [[[|ex nw] k'] ss'] eqn:E;
      cbn [fst snd]; [|apply (connect_handles a k ss ex nw k' ss' E)].
    revert E.
    unfold connect_to_gsheets, Sheets.bind, Sheets.worksheet_by_title,
      Sheets.add_worksheet, Sheets.ret.
    destruct (has_secrets a) as [[|]|]; [|intros [= <- _]; discriminate ..].
    destruct (authorize a); [|intros [= <- _]; discriminate].
    repeat match goal with
    | |- context [if ?b then _ else _] => destruct b
    | |- context [match Sheets.index_of ?n ?t with _ => _ end] =>
        destruct (Sheets.index_of n t)
    end;
    intros [= <- _]; discriminate.
  - destruct (connect_document a k ss) as [E | [E | E]]; rewrite E.
    + split; [apply grows_from_refl|]. split; [lia | reflexivity].
    + split; [apply grows_from_tabs|].
      rewrite length_app, all_rows_app. cbn. rewrite app_nil_r.
      split; [lia | reflexivity].
    + split; [apply grows_from_tabs|].
      rewrite length_app, all_rows_app. cbn. rewrite app_nil_r.
      split; [lia | reflexivity].
Qed.

(** X14.  After a connection was made the submission finds the two tables
    again: as long as look-ups go through, the handles it works with are the
    ones of the connection, and it creates nothing. *)
Theorem connection_prepares_submission
    (a : access) (k k' : connection_keys) (ss ss' : Sheets.spreadsheet)
    (ex nw : nat) (r : Sheets.remote) :
  connect_to_gsheets a k ss = (Connected ex nw, k', ss') ->
  Sheets.can_read r = true ->
  get_sheets r ss' = (Sheets.Ok (ex, nw), ss').
Proof.
  intros E Hr.
  destruct (connect_handles a k ss ex nw k' ss' E) as (He & Hn & _).
  exact (get_sheets_found r ss' ex nw Hr He Hn).
Qed.

End Connect.

(** ** Loading the catalog *)

(** Where the catalog can come from: the file on GitHub and the local file
    [sample_canti.csv]; [None] stands for a read that raises. *)
Record sources : Type :=
  { github : option Catalog.dataframe;
    local_exists : bool;
    local_file : option Catalog.dataframe }.

(** [pd.DataFrame(columns=[...])]: no row. *)
Definition no_songs (with_id_canti : bool) : Catalog.dataframe :=
  {| Catalog.has_id_canti := with_id_canti; Catalog.rows := [] |}.

(** Lines 129-146. *)
Definition load_songs_data (src : sources) : Catalog.dataframe :=
  match github src with
  | Some df => df
  | None =>
      if local_exists src then
        match local_file src with
        | Some df => df
        | None => no_songs true
        end
      else no_songs false
  end.

(** X15.  When neither the file on GitHub nor a local file can be read the
    script still runs, on an empty catalog: whatever the search string,
    step 3 offers only the empty entry and the add-new option, and no id is
    ever found for a title. *)
Theorem without_catalog_only_new_songs
    (FUZZY_AVAILABLE : bool)
    (extractBests : string -> list string -> Z -> Z -> list (string * Z))
    (src : sources) (w : session * Sheets.spreadsheet) :
  github src = None ->
  local_exists src = false \/ local_file src = None ->
  FUZZY_AVAILABLE = false
  \/ (forall query cutoff limit, extractBests query [] cutoff limit = []) ->
  let songs_df := load_songs_data src in
  reachable FUZZY_AVAILABLE extractBests songs_df w ->
  Catalog.existing_song_titles_list songs_df = []
  /\ display_options FUZZY_AVAILABLE extractBests (fst w)
     = [EmptyString; add_new_option (search_term_value (fst w))]
  /\ forall title, Catalog.song_id songs_df title = Catalog.Text "".
Proof.
  intros Hg Hl Hlib. cbv zeta. intros Hr.
  assert (E : Catalog.rows (load_songs_data src) = []).
  { unfold load_songs_data. rewrite Hg.
    destruct Hl as [-> | Hl]; [reflexivity|]. rewrite Hl.
    destruct (local_exists src); reflexivity. }
  assert (T : Catalog.existing_song_titles_list (load_songs_data src) = []).
  { unfold Catalog.existing_song_titles_list, Catalog.empty. rewrite E.
    reflexivity. }
  destruct (reachable_steady _ _ _ _ Hr) as [(_ & _ & Hs & _) _].
  split; [exact T|]. split.
  - unfold display_options, filtered_songs, get_fuzzy_matches.
    rewrite Hs, T.
    destruct (Py.truthy (search_term_value (fst w))); [|reflexivity].
    destruct Hlib as [-> | Hlib].
    + cbn [negb filter map]. unfold Py.slice_to.
      destruct (0 <=? 10)%Z; rewrite firstn_nil; reflexivity.
    + rewrite Hlib. destruct (negb FUZZY_AVAILABLE); [|reflexivity].
      cbn [filter map]. unfold Py.slice_to.
      destruct (0 <=? 10)%Z; rewrite firstn_nil; reflexivity.
  - intros [t|]; [|reflexivity].
    unfold Catalog.song_id, Catalog.empty. rewrite E. reflexivity.
Qed.

(** ** The further properties at concrete inputs *)

Lemma form_state_reachable doc :
  reachable false Sample.no_library Sample.catalog
    (Sample.session_at_form, doc).
Proof.
  rewrite <- session_at_form_reached.
  unfold Sample.at_form, Sample.go.
  apply reach_run, reach_run, searched_reachable.
Qed.

(** The state once the sample form was sent to a document with the tables. *)
Definition sample_sent : session * Sheets.spreadsheet :=
  Eval vm_compute in
    Sample.go (Sample.env_of Sample.allow_all) (FormSubmit Sample.answers)
      (Sample.session_at_form, Sample.with_tables).

Lemma sample_sent_reachable :
  reachable false Sample.no_library Sample.catalog sample_sent.
Proof.
  assert (E : sample_sent
              = state_after false Sample.no_library Sample.catalog
                  (Sample.env_of Sample.allow_all)
                  (FormSubmit Sample.answers)
                  (Sample.session_at_form, Sample.with_tables))
    by (vm_compute; reflexivity).
  rewrite E. apply reach_run, form_state_reachable.
Qed.

(** The state at step 3 once the catalog song was selected. *)
Definition sample_selected : session * Sheets.spreadsheet :=
  Eval vm_compute in
    Sample.go (Sample.env_of Sample.allow_all)
      (SongSelection "Resta Con Noi") (Sample.searched "resta" Sample.bare).

Lemma sample_selected_reachable :
  reachable false Sample.no_library Sample.catalog sample_selected.
Proof.
  assert (E : sample_selected
              = state_after false Sample.no_library Sample.catalog
                  (Sample.env_of Sample.allow_all)
                  (SongSelection "Resta Con Noi")
                  (Sample.searched "resta" Sample.bare))
    by (vm_compute; reflexivity).
  rewrite E. apply reach_run, searched_reachable.
Qed.

Definition sample_new_song : session :=
  set_notes " proposta "
    (set_author "M. Rossi "
       (set_is_new_song true
          (set_selected_song_title (Some "Canto Nuovo")
             (first_run Sample.titles Sample.day)))).

Definition no_secrets : env :=
  {| now := Sample.clock; secrets_configured := false;
     secrets_unreadable := false; remote := Sample.allow_all |}.

(** A document that holds the table [existing_songs] but not [new_songs]. *)
Definition one_table : Sheets.spreadsheet :=
  [ Sample.sheet1;
    {| Sheets.title := "existing_songs"; Sheets.cells := [] |} ].

Lemma reachable_step_in_range_witness :
  1 <= current_step Sample.session_at_form <= 4
  /\ (exists text, step_text (current_step Sample.session_at_form) = Some text)
  /\ 0 <= current_step Sample.session_at_form - 1 <= 3
  /\ form_submitted Sample.session_at_form = false
  /\ go_back Sample.session_at_form = false
  /\ song_list Sample.session_at_form
     = Catalog.existing_song_titles_list Sample.catalog.
Proof.
  exact (reachable_step_in_range false Sample.no_library Sample.catalog
           (Sample.session_at_form, Sample.bare)
           (form_state_reachable Sample.bare)).
Defined.

Lemma form_page_has_answers_witness :
  exists d t,
    selected_date Sample.session_at_form = Some d
    /\ selected_song_title Sample.session_at_form = Some t
    /\ t <> EmptyString
    /\ search_term_value Sample.session_at_form <> EmptyString
    /\ Forall (fun v => exists x, v = Sheets.VStr x)
         (row_to_submit Sample.catalog "2024-03-10 09:05:07" "2024-03-10"
            Sample.session_at_form).
Proof.
  exact (form_page_has_answers false Sample.no_library Sample.catalog
           (Sample.session_at_form, Sample.bare)
           "2024-03-10 09:05:07" "2024-03-10"
           (form_state_reachable Sample.bare) eq_refl).
Defined.

Lemma rows_change_witness :
  exists f,
    FormSubmit Sample.answers = FormSubmit f
    /\ current_step Sample.session_at_form = 4
    /\ submission_success Sample.session_at_form = false
    /\ fst (validation (assign_form f Sample.session_at_form)) = false
    /\ secrets_configured (Sample.env_of Sample.allow_all) = true
    /\ Sheets.can_open (remote (Sample.env_of Sample.allow_all)) = true
    /\ submission_success
         (fst (state_after false Sample.no_library Sample.catalog
                 (Sample.env_of Sample.allow_all)
                 (FormSubmit Sample.answers)
                 (Sample.session_at_form, Sample.with_tables))) = true.
Proof.
  apply (rows_change_only_on_valid_submission false Sample.no_library
           Sample.catalog (Sample.env_of Sample.allow_all)
           (FormSubmit Sample.answers)
           (Sample.session_at_form, Sample.with_tables)
           (form_state_reachable Sample.with_tables)).
  vm_compute. discriminate.
Defined.

Lemma document_is_append_only_witness :
  List.length
    (Sheets.all_rows
       (snd (state_after false Sample.no_library Sample.catalog
               (Sample.env_of Sample.allow_all) (FormSubmit Sample.answers)
               (Sample.session_at_form, Sample.with_tables))))
  = 1%nat.
Proof.
  exact (proj2 (proj2
           (document_is_append_only false Sample.no_library Sample.catalog
              (Sample.env_of Sample.allow_all) (FormSubmit Sample.answers)
              (Sample.session_at_form, Sample.with_tables)
              (form_state_reachable Sample.with_tables)))).
Defined.

Lemma no_second_submission_witness :
  fst (state_after false Sample.no_library Sample.catalog
         (Sample.env_of Sample.allow_all) (FormSubmit Sample.answers)
         sample_sent)
  = fst sample_sent
  /\ Sheets.all_rows
       (snd (state_after false Sample.no_library Sample.catalog
               (Sample.env_of Sample.allow_all) (FormSubmit Sample.answers)
               sample_sent))
     = Sheets.all_rows (snd sample_sent).
Proof.
  apply (no_second_submission false Sample.no_library Sample.catalog
           (Sample.env_of Sample.allow_all) (FormSubmit Sample.answers)
           sample_sent sample_sent_reachable eq_refl).
  discriminate.
Defined.

Lemma back_undoes_next_witness :
  state_after false Sample.no_library Sample.catalog
    (Sample.env_of Sample.allow_all) (FormBack Sample.answers)
    (state_after false Sample.no_library Sample.catalog
       (Sample.env_of Sample.allow_all) Next sample_selected)
  = (assign_form Sample.answers (fst sample_selected), snd sample_selected).
Proof.
  exact (proj2
           (back_undoes_next false Sample.no_library Sample.catalog
              (Sample.env_of Sample.allow_all)
              (Sample.env_of Sample.allow_all)
              sample_selected sample_selected_reachable)
           eq_refl eq_refl Sample.answers).
Defined.

Lemma lone_table_witness :
  write_row Sample.catalog (Sample.env_of Sample.allow_all) Sample.filled
    one_table
  = (Sheets.Ok Sample.day,
     Sheets.append_at 0
       (row_to_submit Sample.catalog
          (Clock.strftime_ymd_hms Sample.clock)
          (Clock.strftime_ymd Sample.day) Sample.filled)
       (one_table ++ [])).
Proof.
  refine (proj2
            (lone_table_is_bypassed Sample.catalog
               (Sample.env_of Sample.allow_all) Sample.filled one_table
               Sample.day eq_refl eq_refl eq_refl eq_refl _)).
  left. split; [discriminate | reflexivity].
Defined.


Lemma offered_title_witness :
  exists r,
    Catalog.first_row Sample.catalog "Resta Con Noi" = Some r
    /\ Catalog.song_id Sample.catalog (Some "Resta Con Noi"%string)
       = Catalog.id_canti r.
Proof.
  assert (N : "Resta Con Noi"%string
              <> add_new_option
                   (search_term_value
                      (fst (Sample.searched "resta" Sample.bare))))
    by (vm_compute; discriminate).
  destruct (offered_title_is_found_again false Sample.no_library
              Sample.catalog (Sample.env_of Sample.allow_all)
              (Sample.searched "resta" Sample.bare) "Resta Con Noi"
              eq_refl (searched_reachable "resta" Sample.bare) eq_refl
              (or_introl eq_refl) N)
    as (_ & _ & _ & r & Hr & Hid).
  exists r. split; [exact Hr|].
  assert (F : Catalog.first_row Sample.catalog "Resta Con Noi"
              = Some {| Catalog.titolo := "Resta Con Noi";
                        Catalog.id_canti := Catalog.Text "12" |})
    by reflexivity.
  rewrite F in Hr. injection Hr as <-. reflexivity.
Defined.

Lemma refused_submission_witness :
  fst (fst (run false Sample.no_library Sample.catalog no_secrets
              (FormSubmit Sample.answers)
              (Sample.session_at_form, Sample.bare)))
  = assign_form Sample.answers Sample.session_at_form
  /\ In (Error msg_credentials)
       (snd (run false Sample.no_library Sample.catalog no_secrets
               (FormSubmit Sample.answers)
               (Sample.session_at_form, Sample.bare))).
Proof.
  destruct (refused_submission_keeps_form false Sample.no_library
              Sample.catalog no_secrets Sample.answers
              (Sample.session_at_form, Sample.bare)
              (form_state_reachable Sample.bare) eq_refl eq_refl
              (or_intror eq_refl))
    as (H1 & _ & _ & _ & H5).
  split; [exact H1 | exact (H5 eq_refl)].
Defined.

Lemma accepted_new_song_witness :
  exists a n,
    nth_error
      (row_to_submit Sample.catalog "2024-04-01 10:00:00" "2024-04-01"
         sample_new_song) 3
    = Some (Sheets.VStr a)
    /\ nth_error
         (row_to_submit Sample.catalog "2024-04-01 10:00:00" "2024-04-01"
            sample_new_song) 6
       = Some (Sheets.VStr n)
    /\ a <> EmptyString /\ n <> EmptyString
    /\ trimmed_of (author sample_new_song) a
    /\ trimmed_of (notes sample_new_song) n.
Proof.
  exact (accepted_new_song_has_author_and_notes Sample.catalog
           "2024-04-01 10:00:00" "2024-04-01" sample_new_song
           eq_refl eq_refl).
Defined.


Definition sample_other_day : Clock.date :=
  {| Clock.year := 2024; Clock.month := 10; Clock.day := 3 |}.

Lemma date_texts_witness :
  Clock.looks_like "99/99/9999" (format_date_italian Sample.day) = true
  /\ (format_date_italian Sample.day = format_date_italian sample_other_day
      -> Sample.day = sample_other_day)
  /\ (Clock.strftime_ymd Sample.day = Clock.strftime_ymd sample_other_day
      -> Sample.day = sample_other_day).
Proof.
  apply (date_texts_identify_the_date Sample.day sample_other_day);
    unfold Clock.valid_date; cbn; lia.
Defined.

Definition sample_access : access :=
  {| has_secrets := Went true; authorize := Went tt;
     document := Sample.allow_all |}.

Definition no_keys : connection_keys :=
  {| connection_message := None; connection_error := None;
     gs_client := false; existing_songs_sheet := None;
     new_songs_sheet := None |}.

Definition sample_str_exn (x : Sheets.exn) : string :=
  match x with
  | Sheets.WorksheetNotFound => "WorksheetNotFound"
  | Sheets.APIError => "APIError"
  | Sheets.AttributeError => "AttributeError"
  end.

Lemma connection_witness :
  get_sheets Sample.allow_all
    (Sample.bare ++ [fresh_sheet "existing_songs"; fresh_sheet "new_songs"])
  = (Sheets.Ok (1%nat, 2%nat),
     Sample.bare ++ [fresh_sheet "existing_songs"; fresh_sheet "new_songs"]).
Proof.
  exact (connection_prepares_submission sample_str_exn sample_access no_keys
           (with_message msg_created
              (with_new 2
                 (with_existing 1
                    (with_message msg_creating
                       (with_client (with_message msg_connecting no_keys))))))
           Sample.bare
           (Sample.bare
              ++ [fresh_sheet "existing_songs"; fresh_sheet "new_songs"])
           1%nat 2%nat Sample.allow_all eq_refl eq_refl).
Defined.

Definition nothing_to_read : sources :=
  {| github := None; local_exists := false; local_file := None |}.

Lemma without_catalog_witness :
  Catalog.existing_song_titles_list (load_songs_data nothing_to_read) = []
  /\ display_options false Sample.no_library
       (first_run
          (Catalog.existing_song_titles_list
             (load_songs_data nothing_to_read)) Sample.day)
     = [EmptyString; add_new_option EmptyString]
  /\ forall title,
       Catalog.song_id (load_songs_data nothing_to_read) title
       = Catalog.Text "".
Proof.
  exact (without_catalog_only_new_songs false Sample.no_library
           nothing_to_read
           (first_run
              (Catalog.existing_song_titles_list
                 (load_songs_data nothing_to_read)) Sample.day,
            Sample.bare)
           eq_refl (or_introl eq_refl) (or_introl eq_refl)
           (reach_first false Sample.no_library
              (load_songs_data nothing_to_read) Sample.day Sample.bare)).
Defined.
